(** * browser_use.browser.context: allowlist guard, settle detector,
      selector synthesis, element location and session lifecycle

    A shallow embedding of [src/browser_use/browser/context.py].

    Conventions.
    - A Python [str] is a [string]; every [ascii] stands for one character
      with code point below 256.
    - An awaited engine call (Playwright, the file system, the DOM extraction
      service) is a command executed against an abstract engine state; it
      returns a value or fails with a message.
    - A method of [BrowserContext] is a computation in a state-and-exception
      monad over the engine state, the mutable attributes of [self] and the
      log of engine commands issued so far. *)

From Stdlib Require Import ZArith NArith Ascii String List Bool Lia DecimalString.
From Stdlib Require DecimalFacts DecimalPos.
From stdpp Require Import base option list gmap strings.

Local Open Scope Z_scope.

(** ** Python string primitives *)

Module Py.

Definition code (c : ascii) : N := N_of_ascii c.

Definition between (lo hi : N) (c : ascii) : bool :=
  ((lo <=? code c) && (code c <=? hi))%N.

(** [str.isspace] on one character. *)
Definition is_space (c : ascii) : bool :=
  between 9 13 c || between 28 32 c || (code c =? 133)%N || (code c =? 160)%N.

Definition is_ascii_digit (c : ascii) : bool := between 48 57 c.

(** [str.isdigit] on one character: the decimal digits and the
    superscripts two, three and one. *)
Definition is_digit (c : ascii) : bool :=
  is_ascii_digit c || (code c =? 178)%N || (code c =? 179)%N || (code c =? 185)%N.

Definition is_ascii_alpha (c : ascii) : bool :=
  between 65 90 c || between 97 122 c.

(** [str.lower] on one character. *)
Definition lower_char (c : ascii) : ascii :=
  if between 65 90 c || (between 192 222 c && negb (code c =? 215)%N)
  then ascii_of_N (code c + 32) else c.

Fixpoint lower (s : string) : string :=
  match s with
  | EmptyString => EmptyString
  | String c s' => String (lower_char c) (lower s')
  end.

Fixpoint all_chars (p : ascii → bool) (s : string) : bool :=
  match s with
  | EmptyString => true
  | String c s' => p c && all_chars p s'
  end.

Fixpoint any_char (p : ascii → bool) (s : string) : bool :=
  match s with
  | EmptyString => false
  | String c s' => p c || any_char p s'
  end.

(** [c in s] for a single character [c]. *)
Definition mem_char (c : ascii) (s : string) : bool := any_char (Ascii.eqb c) s.

Definition startswith (s pre : string) : bool := String.prefix pre s.

(** [sub in s]. *)
Fixpoint contains (s sub : string) : bool :=
  String.prefix sub s ||
  match s with
  | EmptyString => false
  | String _ s' => contains s' sub
  end.

(** [s.endswith(suf)]: some tail of [s] is [suf]. *)
Fixpoint endswith (s suf : string) : bool :=
  String.eqb s suf ||
  match s with
  | EmptyString => false
  | String _ s' => endswith s' suf
  end.

(** [s.split(c)] for a one-character separator; never empty. *)
Fixpoint split_on (c : ascii) (s : string) : list string :=
  match s with
  | EmptyString => [EmptyString]
  | String a s' =>
      if Ascii.eqb a c then EmptyString :: split_on c s'
      else match split_on c s' with
           | h :: t => String a h :: t
           | [] => [String a EmptyString]
           end
  end.

(** [s.split(c)[0]]. *)
Definition first_field (c : ascii) (s : string) : string :=
  match split_on c s with
  | h :: _ => h
  | [] => EmptyString
  end.

(** [s.lstrip(chars)] with the character set given as a predicate. *)
Fixpoint lstrip_by (p : ascii → bool) (s : string) : string :=
  match s with
  | EmptyString => EmptyString
  | String c s' => if p c then lstrip_by p s' else s
  end.

Definition rstrip_by (p : ascii → bool) (s : string) : string :=
  String.rev (lstrip_by p (String.rev s)).

Definition strip_by (p : ascii → bool) (s : string) : string :=
  rstrip_by p (lstrip_by p s).

(** [s.strip()]. *)
Definition strip (s : string) : string := strip_by is_space s.

(** [s.split()]: the maximal runs of non-space characters. *)
Fixpoint split_ws_go (cur : string) (s : string) : list string :=
  match s with
  | EmptyString =>
      match cur with EmptyString => [] | _ => [String.rev cur] end
  | String c s' =>
      if is_space c
      then match cur with
           | EmptyString => split_ws_go EmptyString s'
           | _ => String.rev cur :: split_ws_go EmptyString s'
           end
      else split_ws_go (String c cur) s'
  end.

Definition split_ws (s : string) : list string := split_ws_go EmptyString s.

(** [s.replace(c, rep)] for a one-character pattern. *)
Fixpoint replace_char (c : ascii) (rep : string) (s : string) : string :=
  match s with
  | EmptyString => EmptyString
  | String a s' =>
      if Ascii.eqb a c then rep +:+ replace_char c rep s'
      else String a (replace_char c rep s')
  end.

Fixpoint remove_chars (p : ascii → bool) (s : string) : string :=
  match s with
  | EmptyString => EmptyString
  | String a s' => if p a then remove_chars p s' else String a (remove_chars p s')
  end.

(** [sep.join(parts)]. *)
Definition join (sep : string) (parts : list string) : string :=
  String.concat sep parts.

(** The part of [s] before the first character satisfying [p], and the
    rest starting at that character. *)
Fixpoint break_at (p : ascii → bool) (s : string) : string * string :=
  match s with
  | EmptyString => (EmptyString, EmptyString)
  | String c s' =>
      if p c then (EmptyString, s)
      else let '(a, b) := break_at p s' in (String c a, b)
  end.

(** The decimal numeral of an integer: what [str(n)] returns when it
    returns (see [py_str] for the digit limit). *)
Definition str_of_Z (n : Z) : string :=
  NilZero.string_of_int (Z.to_int n).

Definition is_empty (s : string) : bool :=
  match s with EmptyString => true | String _ _ => false end.

(** The double quote character. *)
Definition dquote : ascii := "034"%char.

(** [s] between double quotes. *)
Definition quoted (s : string) : string :=
  String dquote (s +:+ String dquote EmptyString).

(** [str.isprintable] on one character. *)
Definition is_printable (c : ascii) : bool :=
  between 32 126 c || (between 161 255 c && negb (code c =? 173)%N).

Definition hex_digit (n : N) : ascii :=
  if (n <? 10)%N then ascii_of_N (48 + n)%N else ascii_of_N (87 + n)%N.

(** What [repr] writes for one character of a string delimited by
    [quote]. *)
Definition escape_char (quote c : ascii) : string :=
  if Ascii.eqb c quote || Ascii.eqb c "\"
  then String "\" (String c EmptyString)
  else if Ascii.eqb c "009" then "\t"
  else if Ascii.eqb c "010" then "\n"
  else if Ascii.eqb c "013" then "\r"
  else if is_printable c then String c EmptyString
  else String "\" (String "x" (String (hex_digit (code c / 16)%N)
                                 (String (hex_digit (code c mod 16)%N) EmptyString))).

Fixpoint escape (quote : ascii) (s : string) : string :=
  match s with
  | EmptyString => EmptyString
  | String c s' => escape_char quote c +:+ escape quote s'
  end.

(** [repr(s)] for a string: between double quotes when [s] has a single
    quote and no double quote, between single quotes otherwise. *)
Definition repr_str (s : string) : string :=
  let quote := if mem_char "'" s && negb (mem_char dquote s) then dquote else "'"%char in
  String quote (escape quote s +:+ String quote EmptyString).

(** The number of decimal digits among the characters of [s]. *)
Fixpoint count_digits (s : string) : Z :=
  match s with
  | EmptyString => 0
  | String c s' => (if is_ascii_digit c then 1 else 0) + count_digits s'
  end.

End Py.

(** ** Exceptions and results *)

(** The exception classes the module raises or catches.  All of them derive
    from [Exception], so an [except Exception] clause catches each one.
    [EngineError] stands for whatever an awaited engine call raises. *)
Inductive exn : Type :=
  | BrowserError (msg : string)
  | URLNotAllowedError (msg : string)
  | KeyError (key : Z)
  | ValueError (msg : string)
  | EngineError (msg : string)
  | Exception (msg : string).

Inductive result (A : Type) : Type :=
  | Ok (a : A)
  | Raise (e : exn).
Arguments Ok {A} a.
Arguments Raise {A} e.

Definition is_url_not_allowed (e : exn) : bool :=
  match e with URLNotAllowedError _ => true | _ => false end.

(** [str(e)]. *)
Definition str_of_exn (e : exn) : string :=
  match e with
  | BrowserError m | URLNotAllowedError m | ValueError m
  | EngineError m | Exception m => m
  | KeyError k => Py.str_of_Z k
  end.

(** The default of [sys.int_max_str_digits]: a conversion between [int]
    and [str] that involves more decimal digits raises [ValueError]. *)
Definition INT_MAX_STR_DIGITS : Z := 4300.

(** The white space that [int] skips around a literal. *)
Definition is_int_space (c : ascii) : bool :=
  Py.between 9 13 c || (Py.code c =? 32)%N || (Py.code c =? 133)%N
  || (Py.code c =? 160)%N.

(** The value of decimal digits that single underscores may separate. *)
Fixpoint int_digits (acc : Z) (after_digit : bool) (s : string) : option Z :=
  match s with
  | EmptyString => if after_digit then Some acc else None
  | String c s' =>
      if Py.is_ascii_digit c
      then int_digits (10 * acc + (Z.of_N (Py.code c) - 48)) true s'
      else if Ascii.eqb c "_"
           then (if after_digit then int_digits acc false s' else None)
           else None
  end.

(** The digits and underscores that [int] scans before it looks at what
    follows them. *)
Definition digit_run (s : string) : string :=
  fst (Py.break_at (fun c => negb (Py.is_ascii_digit c || Ascii.eqb c "_")) s).

(** The underscores of a run stand singly between digits. *)
Definition grouped (run : string) : bool :=
  negb (Py.startswith run "_") && negb (Py.contains run "__")
  && negb (Py.endswith run "_").

(** The literal [r] that is left of [s] once white space and sign are
    removed: its value, or the [ValueError] of [int(s)].  A well-grouped run
    of more than [INT_MAX_STR_DIGITS] digits is refused before what follows
    the run is looked at. *)
Definition int_literal (s r : string) : result Z :=
  let run := digit_run r in
  if grouped run && (INT_MAX_STR_DIGITS <? Py.count_digits run)
  then Raise (ValueError
                ("Exceeds the limit (4300 digits) for integer string conversion: value has "
                 +:+ Py.str_of_Z (Py.count_digits run)
                 +:+ " digits; use sys.set_int_max_str_digits() to increase the limit"))
  else match int_digits 0 false r with
       | Some n => Ok n
       | None =>
           Raise (ValueError ("invalid literal for int() with base 10: "
                              +:+ String.substring 0 200 (Py.repr_str s)))
       end.

(** [int(s)]: surrounding white space, one optional sign, decimal digits that
    single underscores may separate; anything else is a [ValueError]. *)
Definition py_int (s : string) : result Z :=
  match Py.strip_by is_int_space s with
  | String "+" r => int_literal s r
  | String "-" r =>
      match int_literal s r with
      | Ok n => Ok (- n)
      | Raise e => Raise e
      end
  | r => int_literal s r
  end.

(** [str(n)] and the formatting of [n] in an f-string: a [ValueError] for
    more than [INT_MAX_STR_DIGITS] digits. *)
Definition py_str (n : Z) : result string :=
  let text := Py.str_of_Z n in
  if INT_MAX_STR_DIGITS <? Py.count_digits text
  then Raise (ValueError
                "Exceeds the limit (4300 digits) for integer string conversion; use sys.set_int_max_str_digits() to increase the limit")
  else Ok text.

(** ** URL splitting *)

Module Url.

Definition is_c0_control_or_space (c : ascii) : bool := (Py.code c <=? 32)%N.

Definition is_unsafe_byte (c : ascii) : bool :=
  Ascii.eqb c "009" || Ascii.eqb c "010" || Ascii.eqb c "013".

Definition is_scheme_char (c : ascii) : bool :=
  Py.is_ascii_alpha c || Py.is_ascii_digit c || Py.mem_char c "+-.".

Definition ends_netloc (c : ascii) : bool := Py.mem_char c "/?#".

(** The url with a leading [scheme:] removed, when there is one. *)
Definition strip_scheme (url : string) : string :=
  let '(pre, rest) := Py.break_at (Ascii.eqb ":") url in
  match pre, rest with
  | String c0 _, String _ rest' =>
      if Py.is_ascii_alpha c0 && Py.all_chars is_scheme_char pre
      then rest' else url
  | _, _ => url
  end.

(** Modelled from CPython's [urllib.parse] (the standard library is not
    part of the repository): [urlparse(url).netloc], or the [ValueError]
    that [urlsplit] raises on unbalanced or invalid bracketed hosts.
    Whether a bracketed host is a valid IP literal is left to
    [valid_bracketed_host]. *)
Definition urlparse_netloc (valid_bracketed_host : string → bool)
    (url : string) : result string :=
  let url := Py.lstrip_by is_c0_control_or_space url in
  let url := Py.remove_chars is_unsafe_byte url in
  match strip_scheme url with
  | String "/" (String "/" rest) =>
      let netloc := fst (Py.break_at ends_netloc rest) in
      let has_open := Py.mem_char "[" netloc in
      let has_close := Py.mem_char "]" netloc in
      if (has_open && negb has_close) || (has_close && negb has_open)
      then Raise (ValueError "Invalid IPv6 URL")
      else if has_open && has_close
      then
        let after_open :=
          match snd (Py.break_at (Ascii.eqb "[") netloc) with
          | String _ r => r
          | EmptyString => EmptyString
          end in
        let bracketed := fst (Py.break_at (Ascii.eqb "]") after_open) in
        if valid_bracketed_host bracketed then Ok netloc
        else Raise (ValueError "Invalid IPv6 URL")
      else Ok netloc
  | _ => Ok EmptyString
  end.

(** [netloc.rpartition('@')[2]]: what follows the last [@]. *)
Fixpoint after_last_at (s : string) : string :=
  match s with
  | EmptyString => EmptyString
  | String c s' =>
      if Py.mem_char "@" s' then after_last_at s'
      else if Ascii.eqb c "@" then s' else s
  end.

(** The host of an unbracketed network location, as [SplitResult.hostname]
    computes it: user information and port removed, lower-cased. *)
Definition hostname (netloc : string) : string :=
  Py.lower (fst (Py.break_at (Ascii.eqb ":") (after_last_at netloc))).

End Url.

(** ** Configuration *)

(** The fields of [BrowserContextConfig] that the methods below read.  The
    wait timings are consumed by the engine-side waits only. *)
Record BrowserContextConfig : Type := {
  cookies_file : option string;
  trace_path : option string;
  highlight_elements : bool;
  viewport_expansion : Z;
  allowed_domains : option (list string);
}.

(** Truth value of an optional string: [None] and [''] are false. *)
Definition truthy (o : option string) : bool :=
  match o with
  | Some (String _ _) => true
  | _ => false
  end.

(** ** 4.1 Allowlist guard *)

Section Allowlist.

(** [urlparse(url).netloc], or the exception raised by the parser. *)
Variable netloc_of : string → result string.
Variable config : BrowserContextConfig.

(** The [domain] compared against the allowlist: the lower-cased network
    location, cut at its first colon if it has one. *)
Definition checked_domain (netloc : string) : string :=
  let domain := Py.lower netloc in
  if Py.mem_char ":" domain then Py.first_field ":" domain else domain.

Definition domain_matches (domain allowed_domain : string) : bool :=
  String.eqb domain (Py.lower allowed_domain)
  || Py.endswith domain ("." +:+ Py.lower allowed_domain).

Definition _is_url_allowed (url : string) : bool :=
  match allowed_domains config with
  | None | Some [] => true
  | Some domains =>
      match netloc_of url with
      | Ok netloc => existsb (domain_matches (checked_domain netloc)) domains
      | Raise _ => false
      end
  end.

End Allowlist.

(** ** 4.2 Network settle detector: the two event handlers *)

Record Request : Type := {
  request_id : positive;
  resource_type : string;
  request_url : string;
  request_headers : gmap string string;
}.

Record Response : Type := {
  response_request : Request;
  response_headers : gmap string string;
}.

Definition in_list (x : string) (l : list string) : bool :=
  existsb (String.eqb x) l.

Definition RELEVANT_RESOURCE_TYPES : list string :=
  ["document"; "stylesheet"; "image"; "font"; "script"; "iframe"].

Definition REALTIME_RESOURCE_TYPES : list string :=
  ["websocket"; "media"; "eventsource"; "manifest"; "other"].

Definition RELEVANT_CONTENT_TYPES : list string :=
  ["text/html"; "text/css"; "application/javascript"; "image/"; "font/";
   "application/json"].

Definition STREAMING_CONTENT_TYPES : list string :=
  ["streaming"; "video"; "audio"; "webm"; "mp4"; "event-stream"; "websocket";
   "protobuf"].

Definition IGNORED_URL_PATTERNS : list string :=
  ["analytics"; "tracking"; "telemetry"; "beacon"; "metrics";
   "doubleclick"; "adsystem"; "adserver"; "advertising";
   "facebook.com/plugins"; "platform.twitter"; "linkedin.com/embed";
   "livechat"; "zendesk"; "intercom"; "crisp.chat"; "hotjar";
   "push-notifications"; "onesignal"; "pushwoosh";
   "heartbeat"; "ping"; "alive";
   "webrtc"; "rtmp://"; "wss://";
   "cloudfront.net"; "fastly.net"].

Definition MAX_CONTENT_LENGTH : Z := 5 * 1024 * 1024.

Section SettleDetector.

(** Readings of the event loop's clock. *)
Variable time : Type.

(** The two variables the handlers close over. *)
Record Settle : Type := {
  pending_requests : gset positive;
  last_activity : time;
}.

Definition request_filtered (request : Request) : bool :=
  let url := Py.lower (request_url request) in
  let headers := request_headers request in
  negb (in_list (resource_type request) RELEVANT_RESOURCE_TYPES)
  || in_list (resource_type request) REALTIME_RESOURCE_TYPES
  || existsb (Py.contains url) IGNORED_URL_PATTERNS
  || Py.startswith url "data:" || Py.startswith url "blob:"
  || bool_decide (headers !! "purpose" = Some "prefetch")
  || bool_decide (headers !! "sec-fetch-dest" = Some "video")
  || bool_decide (headers !! "sec-fetch-dest" = Some "audio").

Definition on_request (now : time) (request : Request) (st : Settle) : Settle :=
  if request_filtered request then st
  else {| pending_requests := {[request_id request]} ∪ pending_requests st;
          last_activity := now |}.

Definition content_type_of (response : Response) : string :=
  Py.lower (default EmptyString (response_headers response !! "content-type")).

Definition remove_pending (request : Request) (st : Settle) : Settle :=
  {| pending_requests := pending_requests st ∖ {[request_id request]};
     last_activity := last_activity st |}.

Definition resolve_pending (now : time) (request : Request) (st : Settle) : Settle :=
  {| pending_requests := pending_requests st ∖ {[request_id request]};
     last_activity := now |}.

Definition on_response (now : time) (response : Response) (st : Settle)
    : result Settle :=
  let request := response_request response in
  if negb (bool_decide (request_id request ∈ pending_requests st)) then Ok st
  else
    let content_type := content_type_of response in
    if existsb (Py.contains content_type) STREAMING_CONTENT_TYPES
    then Ok (remove_pending request st)
    else if negb (existsb (Py.contains content_type) RELEVANT_CONTENT_TYPES)
    then Ok (remove_pending request st)
    else
      match response_headers response !! "content-length" with
      | Some (String c cl) =>
          match py_int (String c cl) with
          | Raise e => Raise e
          | Ok n =>
              if n >? MAX_CONTENT_LENGTH then Ok (remove_pending request st)
              else Ok (resolve_pending now request st)
          end
      | _ => Ok (resolve_pending now request st)
      end.

(** The response handler drops the request without counting it as
    activity: its content type is a streaming one or not a relevant one,
    or its declared length exceeds the limit. *)
Definition response_filtered (response : Response) : bool :=
  let content_type := content_type_of response in
  existsb (Py.contains content_type) STREAMING_CONTENT_TYPES
  || negb (existsb (Py.contains content_type) RELEVANT_CONTENT_TYPES)
  || match response_headers response !! "content-length" with
     | Some (String c cl) =>
         match py_int (String c cl) with
         | Ok n => n >? MAX_CONTENT_LENGTH
         | Raise _ => false
         end
     | _ => false
     end.

End SettleDetector.

(** The two subscriptions [page.on('request', on_request)] and
    [page.on('response', on_response)]: an event runs its handler. *)
Inductive NetworkEvent : Type :=
  | RequestEvent (request : Request)
  | ResponseEvent (response : Response).

Arguments pending_requests {time} _.
Arguments last_activity {time} _.
Arguments on_request {time} now request st.
Arguments on_response {time} now response st.
Arguments remove_pending {time} request st.
Arguments resolve_pending {time} now request st.

Definition handle_event {time} (now : time) (event : NetworkEvent)
    (st : Settle time) : result (Settle time) :=
  match event with
  | RequestEvent request => Ok (on_request now request st)
  | ResponseEvent response => on_response now response st
  end.

(** Whether the handler of the event, when it changes the pending set,
    also records the event as activity. *)
Definition counted_as_activity (event : NetworkEvent) : bool :=
  match event with
  | RequestEvent _ => true
  | ResponseEvent response => negb (response_filtered response)
  end.

(** The reading of the settle rule that counts every change: whenever a
    handler changes the pending set, it sets the last activity to now. *)
Definition every_change_is_activity (time : Type) : Prop :=
  ∀ (now : time) event st st',
    handle_event now event st = Ok st' →
    pending_requests st' ≠ pending_requests st →
    last_activity st' = now.

(** ** DOM element nodes *)

(** The attribute values considered: a string, as the annotation of
    [DOMElementNode.attributes] promises, or [None], which the interpreter
    does not keep out of the dictionary.  Values of other types are not
    modelled; what is proved about exceptions of the selector synthesis is
    proved for these two kinds of value. *)
Inductive PyValue : Type :=
  | PyStr (s : string)
  | PyNone.

(** The fields of [DOMElementNode] read by selector synthesis and element
    location.  [attributes] keeps the insertion order of the dictionary;
    [parent] is the back-reference to the enclosing node. *)
#[warnings="-register-all"]
Inductive DOMElementNode : Type := mkDOMElementNode {
  tag_name : string;
  xpath : string;
  attributes : list (string * PyValue);
  highlight_index : option Z;
  parent : option DOMElementNode;
}.

(** [key in d] and [d[key]] on a dictionary kept as an association list. *)
Fixpoint dict_get (key : string) (d : list (string * PyValue)) : option PyValue :=
  match d with
  | [] => None
  | (k, v) :: d' => if String.eqb k key then Some v else dict_get key d'
  end.

Definition well_typed (element : DOMElementNode) : Prop :=
  ∀ k v, In (k, v) (attributes element) → ∃ s, v = PyStr s.

(** ** 4.3 Selector synthesizer *)

Definition strip_brackets (s : string) : string :=
  Py.strip_by (fun c => Py.mem_char c "[]") s.

(** [idx.isdigit()]. *)
Definition isdigit (idx : string) : bool :=
  negb (Py.is_empty idx) && Py.all_chars Py.is_digit idx.

(** What one index predicate appends to the segment; a [ValueError] from
    [int] or from the formatting skips the predicate. *)
Definition index_selector (idx : string) : string :=
  if isdigit idx then
    match py_int idx with
    | Ok n => let index := n - 1 in
              match py_str (index + 1) with
              | Ok text => ":nth-of-type(" +:+ text +:+ ")"
              | Raise _ => EmptyString
              end
    | Raise _ => EmptyString
    end
  else if String.eqb idx "last()" then ":last-of-type"
  else if Py.contains idx "position()" then
    (if Py.contains idx ">1" then ":nth-of-type(n+2)" else EmptyString)
  else EmptyString.

Definition convert_part (part : string) : string :=
  if Py.mem_char "[" part then
    let '(base_part, index_part) := Py.break_at (Ascii.eqb "[") part in
    let indices := strip_brackets <$> removelast (Py.split_on "]" index_part) in
    fold_left (fun base idx => base +:+ index_selector idx) indices base_part
  else part.

Definition _convert_simple_xpath_to_css_selector (xpath : string) : string :=
  if Py.is_empty xpath then EmptyString
  else
    let xpath := Py.lstrip_by (Ascii.eqb "/") xpath in
    let parts := Py.split_on "/" xpath in
    let css_parts :=
      convert_part <$> filter (fun part => negb (Py.is_empty part) = true) parts in
    Py.join " > " css_parts.

Definition is_ident_start (c : ascii) : bool :=
  Py.is_ascii_alpha c || Ascii.eqb c "_".

Definition is_ident_char (c : ascii) : bool :=
  Py.is_ascii_alpha c || Py.is_ascii_digit c || Ascii.eqb c "_" || Ascii.eqb c "-".

(** The rest of a match of [[a-zA-Z0-9_-]*$]: [$] also matches just before
    a final newline. *)
Fixpoint ident_rest (s : string) : bool :=
  match s with
  | EmptyString => true
  | String c EmptyString => is_ident_char c || Ascii.eqb c "010"
  | String c s' => is_ident_char c && ident_rest s'
  end.

(** [re.compile(r'^[a-zA-Z_][a-zA-Z0-9_-]*$').match(class_name)]. *)
Definition valid_class_name (class_name : string) : bool :=
  match class_name with
  | EmptyString => false
  | String c s' => is_ident_start c && ident_rest s'
  end.

Definition class_fragment (class_name : string) : string :=
  if Py.is_empty (Py.strip class_name) then EmptyString
  else if valid_class_name class_name then "." +:+ class_name
  else EmptyString.

(** The class selectors appended for the [class] attribute. *)
Definition class_selectors (attrs : list (string * PyValue)) : string :=
  match dict_get "class" attrs with
  | Some (PyStr (String c s)) =>
      fold_left (fun css class_name => css +:+ class_fragment class_name)
        (Py.split_ws (String c s)) EmptyString
  | _ => EmptyString
  end.

Definition SAFE_ATTRIBUTES : list string :=
  ["id"; "name"; "type"; "value"; "placeholder";
   "aria-label"; "aria-labelledby"; "aria-describedby"; "role";
   "for"; "autocomplete"; "required"; "readonly";
   "alt"; "title"; "src";
   "data-testid"; "data-id"; "data-qa"; "data-cy";
   "href"; "target"].

(** The characters that switch an attribute to a substring match: the two
    quotes, the angle brackets, the backtick, newline, carriage return, tab. *)
Definition is_special (c : ascii) : bool :=
  Ascii.eqb c Py.dquote || Py.mem_char c "'<>`"
  || Ascii.eqb c "010" || Ascii.eqb c "013" || Ascii.eqb c "009".

(** [re.sub(r'\s+', ' ', value)]. *)
Fixpoint collapse_spaces (in_run : bool) (s : string) : string :=
  match s with
  | EmptyString => EmptyString
  | String c s' =>
      if Py.is_space c
      then (if in_run then collapse_spaces true s'
            else String " " (collapse_spaces true s'))
      else String c (collapse_spaces false s')
  end.

(** What one item of [element.attributes] appends, or the [TypeError] of
    iterating a value that is not a string. *)
Definition attribute_selector (attribute : string) (value : PyValue) : result string :=
  if String.eqb attribute "class" then Ok EmptyString
  else if Py.is_empty (Py.strip attribute) then Ok EmptyString
  else if negb (in_list attribute SAFE_ATTRIBUTES) then Ok EmptyString
  else
    let safe_attribute := Py.replace_char ":" "\:" attribute in
    match value with
    | PyStr EmptyString => Ok ("[" +:+ safe_attribute +:+ "]")
    | PyStr value =>
        if Py.any_char is_special value then
          let collapsed_value := Py.strip (collapse_spaces false value) in
          let safe_value :=
            Py.replace_char Py.dquote (String "\" (String Py.dquote EmptyString))
              collapsed_value in
          Ok ("[" +:+ safe_attribute +:+ "*=" +:+ Py.quoted safe_value +:+ "]")
        else Ok ("[" +:+ safe_attribute +:+ "=" +:+ Py.quoted value +:+ "]")
    | PyNone => Raise (Exception "argument of type 'NoneType' is not iterable")
    end.

Fixpoint attribute_selectors (css_selector : string)
    (items : list (string * PyValue)) : result string :=
  match items with
  | [] => Ok css_selector
  | (attribute, value) :: rest =>
      match attribute_selector attribute value with
      | Ok fragment => attribute_selectors (css_selector +:+ fragment) rest
      | Raise e => Raise e
      end
  end.

(** The body of the [try] block of [_enhanced_css_selector_for_element]. *)
Definition synthesize_selector (element : DOMElementNode) : result string :=
  let css_selector := _convert_simple_xpath_to_css_selector (xpath element) in
  let css_selector := css_selector +:+ class_selectors (attributes element) in
  attribute_selectors css_selector (attributes element).

(** [str(element.highlight_index)], for an index within the digit limit
    of [py_str]. *)
Definition str_of_index (i : option Z) : string :=
  match i with
  | Some n => Py.str_of_Z n
  | None => "None"
  end.

(** The selector of the [except] branch. *)
Definition fallback_selector (element : DOMElementNode) : string :=
  let tag_name := if Py.is_empty (tag_name element) then "*" else tag_name element in
  tag_name +:+ "[highlight_index='" +:+ str_of_index (highlight_index element) +:+ "']".

(** The selector that [_enhanced_css_selector_for_element] returns.  The
    one call that does not return, on an index beyond the digit limit in
    the [except] branch, is kept apart in [enhanced_css_selector_or_raise]
    below. *)
Definition _enhanced_css_selector_for_element (element : DOMElementNode) : string :=
  match synthesize_selector element with
  | Ok css_selector => css_selector
  | Raise _ => fallback_selector element
  end.




(** [s] occurs in [t] as a contiguous fragment. *)
Definition fragment_of (s t : string) : Prop :=
  ∃ before after, t = before +:+ s +:+ after.

Definition concat_str (l : list string) : string :=
  foldr String.append EmptyString l.

(** The class tokens that pass the identifier pattern, in order. *)
Definition valid_class_tokens (value : string) : list string :=
  filter (fun class_name => valid_class_name class_name = true) (Py.split_ws value).

(** What the attribute loop has appended when it completes. *)
Definition attribute_fragments (items : list (string * PyValue)) : string :=
  concat_str ((fun item =>
                 match attribute_selector (fst item) (snd item) with
                 | Ok fragment => fragment
                 | Raise _ => EmptyString
                 end) <$> items).

(** ** Snapshots and the session *)

Definition Page : Type := positive.
Definition Context : Type := positive.
Definition ElementHandle : Type := positive.

Record TabInfo : Type := {
  page_id : Z;
  tab_url : string;
  tab_title : string;
}.

Record BrowserState : Type := {
  element_tree : DOMElementNode;
  selector_map : gmap Z DOMElementNode;
  url : string;
  title : string;
  tabs : list TabInfo;
  screenshot : option string;
  pixels_above : Z;
  pixels_below : Z;
}.

Record BrowserSession : Type := {
  context : Context;
  current_page : Page;
  cached_state : BrowserState;
}.

(** What [DomService.get_clickable_elements] returns. *)
Record DOMState : Type := {
  dom_element_tree : DOMElementNode;
  dom_selector_map : gmap Z DOMElementNode;
}.

(** ** The engine *)

(** The awaited calls, indexed by the type of their value.
    [WaitForStableNetwork] is the polling loop of [_wait_for_stable_network]
    (its event handlers are [on_request] and [on_response] above);
    [CreateContext] is [_create_context] as a whole (the reuse of an
    existing context or [new_context], [tracing.start], the reading of the
    cookie file, [add_cookies] and [add_init_script]): it yields the
    context or fails; [WriteCookiesFile] creates the
    directory, opens the file and dumps the cookies; [Screenshot] yields the
    picture already encoded in base64. *)
Inductive Cmd : Type → Type :=
  | GetPlaywrightBrowser : Cmd unit
  | CreateContext : Cmd Context
  | NewPage (c : Context) : Cmd Page
  | PageClose (p : Page) : Cmd unit
  | Goto (p : Page) (target : string) : Cmd unit
  | WaitForLoadState (p : Page) : Cmd unit
  | GoBack (p : Page) : Cmd unit
  | BringToFront (p : Page) : Cmd unit
  | Title (p : Page) : Cmd string
  | Evaluate (p : Page) (script : string) : Cmd Z
  | EvaluateClick (p : Page) (h : ElementHandle) : Cmd unit
  | GetClickableElements (p : Page) (focus_element : Z)
      (viewport_expansion : Z) (highlight_elements : bool) : Cmd DOMState
  | Screenshot (p : Page) : Cmd string
  | GetCookies (c : Context) : Cmd (list string)
  | WriteCookiesFile (path : string) (cookies : list string) : Cmd unit
  | TracingStop (c : Context) (path : string) : Cmd unit
  | ContextClose (c : Context) : Cmd unit
  | LocatorElementHandle (p : Page) (frames : list string) (selector : string)
      : Cmd ElementHandle
  | QuerySelector (p : Page) (selector : string) : Cmd (option ElementHandle)
  | ScrollIntoViewIfNeeded (h : ElementHandle) : Cmd unit
  | Click (h : ElementHandle) : Cmd unit
  | WaitForStableNetwork (p : Page) : Cmd unit.

Inductive outcome (A : Type) : Type :=
  | Done (a : A)
  | Failed (msg : string).
Arguments Done {A} a.
Arguments Failed {A} msg.

(** An engine over states [E]: how a command changes the state and what it
    yields, the pages of a context, the url of a page, and the passing of
    the remaining minimum wait. *)
Record Engine (E : Type) : Type := {
  exec : ∀ A, Cmd A → E → E * outcome A;
  pages_of : E → Context → list Page;
  url_of : E → Page → string;
  sleep_remaining : E → E;
}.
Arguments exec {E} _ {A} _ _.
Arguments pages_of {E} _ _ _.
Arguments url_of {E} _ _ _.
Arguments sleep_remaining {E} _ _.

(** A logged engine call. *)
Definition Call : Type := { A : Type & Cmd A }.

Definition called {A} (c : Cmd A) : Call := existT A c.

(** [os.path.join(a, b)] for a non-empty [a] and a relative [b]. *)
Definition path_join (a b : string) : string :=
  if Py.endswith a "/" then a +:+ b else a +:+ "/" +:+ b.

(** [pages[i]] with Python's negative indices; [None] is an [IndexError]. *)
Definition py_index {A} (l : list A) (i : Z) : option A :=
  let n := Z.of_nat (length l) in
  if i <? 0 then (if - i <=? n then l !! Z.to_nat (n + i) else None)
  else l !! Z.to_nat i.

(** ** The methods of [BrowserContext] *)

Section BrowserContext.

Context {E : Type} (eng : Engine E).
Variable netloc_of : string → result string.
Variable config : BrowserContextConfig.
Variable context_id : string.
(** [repr] of a node, defined with the DOM views. *)
Variable repr : DOMElementNode → string.

(** The engine, the attributes [session] and [current_state] of [self]
    ([None] when the attribute is unset), and the calls made so far. *)
Record World : Type := {
  engine : E;
  session : option BrowserSession;
  current_state : option BrowserState;
  calls : list Call;
}.

Definition M (A : Type) : Type := World → World * result A.

Definition ret {A} (a : A) : M A := fun w => (w, Ok a).

Definition bind {A B} (m : M A) (k : A → M B) : M B :=
  fun w => match m w with
           | (w', Ok a) => k a w'
           | (w', Raise e) => (w', Raise e)
           end.

Definition raise {A} (e : exn) : M A := fun w => (w, Raise e).

(** A step without effect that returns or raises. *)
Definition of_result {A} (r : result A) : M A := fun w => (w, r).

(** [try: m except Exception as e: handler e]. *)
Definition try_except {A} (m : M A) (handler : exn → M A) : M A :=
  fun w => match m w with
           | (w', Ok a) => (w', Ok a)
           | (w', Raise e) => handler e w'
           end.

(** [try: m finally: cleanup]. *)
Definition try_finally {A} (m : M A) (cleanup : M unit) : M A :=
  fun w => match m w with
           | (w', r) =>
               match cleanup w' with
               | (w'', Ok _) => (w'', r)
               | (w'', Raise e) => (w'', Raise e)
               end
           end.

Notation "x <- c1 ;; c2" := (bind c1 (fun x => c2))
  (at level 100, c1 at next level, right associativity).
Notation "c1 ;; c2" := (bind c1 (fun _ => c2))
  (at level 100, right associativity).

(** [await] of an engine call. *)
Definition call {A} (c : Cmd A) : M A :=
  fun w =>
    let '(e', o) := exec eng c (engine w) in
    ({| engine := e'; session := session w;
        current_state := current_state w;
        calls := calls w ++ [called c] |},
     match o with
     | Done a => Ok a
     | Failed msg => Raise (EngineError msg)
     end).

Definition get_self_session : M (option BrowserSession) :=
  fun w => (w, Ok (session w)).

Definition set_self_session (s : option BrowserSession) : M unit :=
  fun w => ({| engine := engine w; session := s;
               current_state := current_state w; calls := calls w |}, Ok tt).

Definition get_self_current_state : M (option BrowserState) :=
  fun w => (w, Ok (current_state w)).

Definition set_self_current_state (s : BrowserState) : M unit :=
  fun w => ({| engine := engine w; session := session w;
               current_state := Some s; calls := calls w |}, Ok tt).

(** [session.current_page = page] on the session object of [self]. *)
Definition set_current_page (page : Page) : M unit :=
  fun w =>
    ({| engine := engine w;
        session :=
          (fun s => {| context := context s; current_page := page;
                       cached_state := cached_state s |}) <$> session w;
        current_state := current_state w; calls := calls w |}, Ok tt).

(** [session.context.pages] and [page.url]. *)
Definition context_pages (c : Context) : M (list Page) :=
  fun w => (w, Ok (pages_of eng (engine w) c)).

Definition read_url (page : Page) : M string :=
  fun w => (w, Ok (url_of eng (engine w) page)).

Definition sleep : M unit :=
  fun w => ({| engine := sleep_remaining eng (engine w); session := session w;
               current_state := current_state w; calls := calls w |}, Ok tt).

Definition root_node : DOMElementNode :=
  {| tag_name := "root"; xpath := EmptyString; attributes := [];
     highlight_index := None; parent := None |}.

Definition _get_initial_state (page_url : string) : BrowserState :=
  {| element_tree := root_node; selector_map := ∅; url := page_url;
     title := EmptyString; tabs := []; screenshot := None;
     pixels_above := 0; pixels_below := 0 |}.

Definition _initialize_session : M BrowserSession :=
  call GetPlaywrightBrowser ;;
  context <- call CreateContext ;;
  page <- call (NewPage context) ;;
  page_url <- read_url page ;;
  let initial_state := _get_initial_state page_url in
  let session := {| context := context; current_page := page;
                    cached_state := initial_state |} in
  set_self_session (Some session) ;;
  ret session.

Definition get_session : M BrowserSession :=
  s <- get_self_session ;;
  match s with
  | None => _initialize_session
  | Some session => ret session
  end.

Definition get_current_page : M Page :=
  session <- get_session ;;
  ret (current_page session).

Definition save_cookies : M unit :=
  s <- get_self_session ;;
  match s, cookies_file config with
  | Some session, Some (String c f) =>
      try_except
        (cookies <- call (GetCookies (context session)) ;;
         call (WriteCookiesFile (String c f) cookies))
        (fun _ => ret tt)
  | _, _ => ret tt
  end.

Definition close : M unit :=
  try_finally
    (s <- get_self_session ;;
     match s with
     | None => ret tt
     | Some session =>
         save_cookies ;;
         (if truthy (trace_path config)
          then try_except
                 (call (TracingStop (context session)
                          (path_join (default EmptyString (trace_path config))
                             (context_id +:+ ".zip"))))
                 (fun _ => ret tt)
          else ret tt) ;;
         try_except (call (ContextClose (context session))) (fun _ => ret tt)
     end)
    (set_self_session None).

Definition _wait_for_stable_network : M unit :=
  page <- get_current_page ;;
  call (WaitForStableNetwork page).

Definition go_back : M unit :=
  page <- get_current_page ;;
  try_except (call (GoBack page)) (fun _ => ret tt).

Definition _check_and_handle_navigation (page : Page) : M unit :=
  page_url <- read_url page ;;
  if negb (_is_url_allowed netloc_of config page_url) then
    try_except go_back (fun _ => ret tt) ;;
    page_url <- read_url page ;;
    raise (URLNotAllowedError ("Navigation to non-allowed URL: " +:+ page_url))
  else ret tt.

(** The minimum-wait arithmetic on clock readings is the engine's
    [sleep_remaining]. *)
Definition _wait_for_page_and_frames_load : M unit :=
  try_except
    (_wait_for_stable_network ;;
     page <- get_current_page ;;
     _check_and_handle_navigation page)
    (fun e => if is_url_not_allowed e then raise e else ret tt) ;;
  sleep.

Definition navigate_to (target : string) : M unit :=
  if negb (_is_url_allowed netloc_of config target) then
    raise (BrowserError ("Navigation to non-allowed URL: " +:+ target))
  else
    page <- get_current_page ;;
    call (Goto page target) ;;
    call (WaitForLoadState page).

Definition switch_to_tab (page_id : Z) : M unit :=
  session <- get_session ;;
  pages <- context_pages (context session) ;;
  if page_id >=? Z.of_nat (length pages) then
    page_id_text <- of_result (py_str page_id) ;;
    raise (BrowserError ("No tab found with page_id: " +:+ page_id_text))
  else
    match py_index pages page_id with
    | None => raise (Exception "list index out of range")
    | Some page =>
        page_url <- read_url page ;;
        if negb (_is_url_allowed netloc_of config page_url) then
          raise (BrowserError
                   ("Cannot switch to tab with non-allowed URL: " +:+ page_url))
        else
          set_current_page page ;;
          call (BringToFront page) ;;
          call (WaitForLoadState page)
    end.

Definition close_current_tab : M unit :=
  session <- get_session ;;
  let page := current_page session in
  call (PageClose page) ;;
  pages <- context_pages (context session) ;;
  match pages with
  | [] => ret tt
  | _ :: _ => switch_to_tab 0
  end.

Definition create_new_tab (target : option string) : M unit :=
  if truthy target
     && negb (_is_url_allowed netloc_of config (default EmptyString target))
  then raise (BrowserError ("Cannot create new tab with non-allowed URL: "
                            +:+ default EmptyString target))
  else
    session <- get_session ;;
    new_page <- call (NewPage (context session)) ;;
    set_current_page new_page ;;
    call (WaitForLoadState new_page) ;;
    page <- get_current_page ;;
    if truthy target then
      call (Goto page (default EmptyString target)) ;;
      _wait_for_page_and_frames_load
    else ret tt.

(** The script of [remove_highlights]; only its being evaluated matters. *)
Definition REMOVE_HIGHLIGHTS : string := "remove playwright-highlight-container".

Definition remove_highlights : M unit :=
  try_except
    (page <- get_current_page ;;
     call (Evaluate page REMOVE_HIGHLIGHTS) ;;
     ret tt)
    (fun _ => ret tt).

Definition take_screenshot : M string :=
  page <- get_current_page ;;
  call (Screenshot page).

Definition get_scroll_info (page : Page) : M (Z * Z) :=
  scroll_y <- call (Evaluate page "window.scrollY") ;;
  viewport_height <- call (Evaluate page "window.innerHeight") ;;
  total_height <- call (Evaluate page "document.documentElement.scrollHeight") ;;
  ret (scroll_y, total_height - (scroll_y + viewport_height)).

Fixpoint tabs_info_from (page_id : Z) (pages : list Page) : M (list TabInfo) :=
  match pages with
  | [] => ret []
  | page :: rest =>
      page_url <- read_url page ;;
      page_title <- call (Title page) ;;
      tabs_info <- tabs_info_from (page_id + 1) rest ;;
      ret ({| page_id := page_id; tab_url := page_url; tab_title := page_title |}
           :: tabs_info)
  end.

Definition get_tabs_info : M (list TabInfo) :=
  session <- get_session ;;
  pages <- context_pages (context session) ;;
  tabs_info_from 0 pages.

(** The first [try] of [_update_state]: the current page if a trivial
    script still evaluates on it, else the last page of the context. *)
Definition live_page (session : BrowserSession) : M Page :=
  try_except
    (page <- get_current_page ;;
     call (Evaluate page "1") ;;
     ret page)
    (fun _ =>
       pages <- context_pages (context session) ;;
       match last pages with
       | Some page =>
           set_current_page page ;;
           call (Title page) ;;
           ret page
       | None => raise (BrowserError "Browser closed: no valid pages available")
       end).

(** The body of the second [try] of [_update_state]: extraction and
    assembly of the snapshot, stored in [self.current_state]. *)
Definition assemble_state (page : Page) (use_vision : bool) (focus_element : Z)
    : M BrowserState :=
  remove_highlights ;;
  content <- call (GetClickableElements page focus_element
                     (viewport_expansion config) (highlight_elements config)) ;;
  screenshot_b64 <-
    (if use_vision then s <- take_screenshot ;; ret (Some s) else ret None) ;;
  scroll <- get_scroll_info page ;;
  page_url <- read_url page ;;
  page_title <- call (Title page) ;;
  tabs_info <- get_tabs_info ;;
  let state :=
    {| element_tree := dom_element_tree content;
       selector_map := dom_selector_map content;
       url := page_url; title := page_title; tabs := tabs_info;
       screenshot := screenshot_b64;
       pixels_above := fst scroll; pixels_below := snd scroll |} in
  set_self_current_state state ;;
  ret state.

Definition _update_state (use_vision : bool) (focus_element : Z) : M BrowserState :=
  session <- get_session ;;
  page <- live_page session ;;
  try_except (assemble_state page use_vision focus_element)
    (fun e =>
       previous <- get_self_current_state ;;
       match previous with
       | Some state => ret state
       | None => raise e
       end).

(** The [while current.parent is not None] loop: nearest ancestor first. *)
Fixpoint collect_parents (element : DOMElementNode) : list DOMElementNode :=
  match element with
  | mkDOMElementNode _ _ _ _ (Some parent) => parent :: collect_parents parent
  | mkDOMElementNode _ _ _ _ None => []
  end.

(** The selectors handed to [frame_locator], in the order of the calls. *)
Definition frame_selectors (element : DOMElementNode) : list string :=
  let parents := rev (collect_parents element) in
  let iframes := filter (fun item => tag_name item = "iframe") parents in
  _enhanced_css_selector_for_element <$> iframes.

Definition get_locate_element (element : DOMElementNode)
    : M (option ElementHandle) :=
  current_frame <- get_current_page ;;
  let frames := frame_selectors element in
  let css_selector := _enhanced_css_selector_for_element element in
  try_except
    (match frames with
     | _ :: _ =>
         handle <- call (LocatorElementHandle current_frame frames css_selector) ;;
         ret (Some handle)
     | [] =>
         element_handle <- call (QuerySelector current_frame css_selector) ;;
         match element_handle with
         | Some handle =>
             call (ScrollIntoViewIfNeeded handle) ;;
             ret (Some handle)
         | None => ret None
         end
     end)
    (fun _ => ret None).

Definition click_and_check (action : M unit) (page : Page) : M unit :=
  action ;;
  call (WaitForLoadState page) ;;
  _check_and_handle_navigation page.

(** The steps of [_click_element_node] up to the handle to click. *)
Definition locate_for_click (element_node : DOMElementNode) : M ElementHandle :=
  (match highlight_index element_node with
   | Some index => _update_state false index ;; ret tt
   | None => ret tt
   end) ;;
  element <- get_locate_element element_node ;;
  match element with
  | None => raise (Exception ("Element: " +:+ repr element_node +:+ " not found"))
  | Some element => ret element
  end.

Definition _click_element_node (element_node : DOMElementNode) : M unit :=
  page <- get_current_page ;;
  try_except
    (element <- locate_for_click element_node ;;
     try_except (click_and_check (call (Click element)) page)
       (fun e =>
          if is_url_not_allowed e then raise e
          else
            try_except
              (click_and_check (call (EvaluateClick page element)) page)
              (fun e =>
                 if is_url_not_allowed e then raise e
                 else raise (Exception ("Failed to click element: "
                                        +:+ str_of_exn e)))))
    (fun e =>
       if is_url_not_allowed e then raise e
       else raise (Exception ("Failed to click element: " +:+ repr element_node
                              +:+ ". Error: " +:+ str_of_exn e))).

Definition get_selector_map : M (gmap Z DOMElementNode) :=
  session <- get_session ;;
  ret (selector_map (cached_state session)).

Definition get_element_by_index (index : Z) : M (option ElementHandle) :=
  selector_map <- get_selector_map ;;
  match selector_map !! index with
  | Some element => get_locate_element element
  | None => raise (KeyError index)
  end.

Definition get_dom_element_by_index (index : Z) : M (option DOMElementNode) :=
  selector_map <- get_selector_map ;;
  match selector_map !! index with
  | Some element => ret (Some element)
  | None => raise (KeyError index)
  end.

End BrowserContext.



Arguments World E : clear implicits.
Arguments M E A : clear implicits.

(** A computation that leaves [self.current_state] as it found it, and one
    that does so at least when it raises. *)
Definition keeps_current_state {E A} (m : M E A) : Prop :=
  ∀ w, current_state (m w).1 = current_state w.

Definition keeps_current_state_on_raise {E A} (m : M E A) : Prop :=
  ∀ w w' e, m w = (w', Raise e) → current_state w' = current_state w.

(** ** A small deterministic engine

    One context whose pages carry a url each.  A command whose name is
    listed in [failing] fails; a selector listed in [missing] matches
    nothing. *)

Module Toy.

Record State : Type := {
  pages : list (Page * string);
  missing : list string;
  failing : list string;
  next_page : positive;
}.

Definition name {A} (c : Cmd A) : string :=
  match c with
  | GetPlaywrightBrowser => "get_playwright_browser"
  | CreateContext => "new_context"
  | NewPage _ => "new_page"
  | PageClose _ => "close"
  | Goto _ _ => "goto"
  | WaitForLoadState _ => "wait_for_load_state"
  | GoBack _ => "go_back"
  | BringToFront _ => "bring_to_front"
  | Title _ => "title"
  | Evaluate _ _ => "evaluate"
  | EvaluateClick _ _ => "evaluate_click"
  | GetClickableElements _ _ _ _ => "get_clickable_elements"
  | Screenshot _ => "screenshot"
  | GetCookies _ => "cookies"
  | WriteCookiesFile _ _ => "write_cookies"
  | TracingStop _ _ => "tracing_stop"
  | ContextClose _ => "context_close"
  | LocatorElementHandle _ _ _ => "element_handle"
  | QuerySelector _ _ => "query_selector"
  | ScrollIntoViewIfNeeded _ => "scroll_into_view_if_needed"
  | Click _ => "click"
  | WaitForStableNetwork _ => "wait_for_stable_network"
  end.

Definition with_pages (e : State) (ps : list (Page * string)) : State :=
  {| pages := ps; missing := missing e; failing := failing e;
     next_page := next_page e |}.

Definition set_url (p : Page) (target : string) (ps : list (Page * string))
    : list (Page * string) :=
  (fun entry => if Pos.eqb (fst entry) p then (p, target) else entry) <$> ps.

Definition run {A} (c : Cmd A) (e : State) : State * outcome A :=
  match c in Cmd T return State * outcome T with
  | GetPlaywrightBrowser => (e, Done tt)
  | CreateContext => (e, Done 1%positive)
  | NewPage _ =>
      ({| pages := pages e ++ [(next_page e, "about:blank")];
          missing := missing e; failing := failing e;
          next_page := Pos.succ (next_page e) |}, Done (next_page e))
  | PageClose p =>
      (with_pages e (filter (fun entry => fst entry ≠ p) (pages e)), Done tt)
  | Goto p target => (with_pages e (set_url p target (pages e)), Done tt)
  | Title _ => (e, Done "title")
  | Evaluate _ _ => (e, Done 0)
  | GetClickableElements _ _ _ _ =>
      (e, Done {| dom_element_tree := root_node; dom_selector_map := ∅ |})
  | Screenshot _ => (e, Done "c2NyZWVuc2hvdA==")
  | GetCookies _ => (e, Done [])
  | LocatorElementHandle _ frames selector =>
      if existsb (fun s => in_list s (missing e)) (frames ++ [selector])
      then (e, Failed "Timeout 30000ms exceeded")
      else (e, Done 1%positive)
  | QuerySelector _ selector =>
      if in_list selector (missing e) then (e, Done None)
      else (e, Done (Some 1%positive))
  | WaitForLoadState _ | GoBack _ | BringToFront _ | EvaluateClick _ _
  | WriteCookiesFile _ _ | TracingStop _ _ | ContextClose _
  | ScrollIntoViewIfNeeded _ | Click _ | WaitForStableNetwork _ => (e, Done tt)
  end.

Definition step (A : Type) (c : Cmd A) (e : State) : State * outcome A :=
  if in_list (name c) (failing e) then (e, Failed (name c)) else run c e.

Definition address (e : State) (p : Page) : string :=
  default EmptyString (snd <$> List.find (fun entry => Pos.eqb (fst entry) p) (pages e)).

Definition eng : Engine State :=
  {| exec := step;
     pages_of := fun e _ => fst <$> pages e;
     url_of := address;
     sleep_remaining := fun e => e |}.

(** The same engine behind a redirect: whatever the target, [goto] lands
    on [landing]. *)
Definition redirected (landing : string) (A : Type) (c : Cmd A) (e : State)
    : State * outcome A :=
  match c in Cmd T return State * outcome T with
  | Goto p _ => step _ (Goto p landing) e
  | other => step _ other e
  end.

Definition redirecting (landing : string) : Engine State :=
  {| exec := redirected landing;
     pages_of := fun e _ => fst <$> pages e;
     url_of := address;
     sleep_remaining := fun e => e |}.

Definition netloc_of : string → result string :=
  Url.urlparse_netloc (fun _ => true).

Definition config (allowed : option (list string)) : BrowserContextConfig :=
  {| cookies_file := None; trace_path := None; highlight_elements := true;
     viewport_expansion := 500; allowed_domains := allowed |}.

Definition state (ps : list (Page * string)) (missing failing : list string) : State :=
  {| pages := ps; missing := missing; failing := failing;
     next_page := Pos.succ (foldr Pos.max 1%positive (fst <$> ps)) |}.

(** A world whose session points at [current] and that has [previous] as
    its last refreshed snapshot. *)
Definition world (e : State) (current : Page) (previous : option BrowserState)
    : World State :=
  {| engine := e;
     session := Some {| context := 1%positive; current_page := current;
                        cached_state := _get_initial_state (address e current) |};
     current_state := previous;
     calls := [] |}.

End Toy.

(** ** Sample inputs *)

Definition video_request : Request :=
  {| request_id := 1; resource_type := "document";
     request_url := "https://example.com/clip";
     request_headers := ∅ |}.

Definition video_response : Response :=
  {| response_request := video_request;
     response_headers := {[ "content-type" := "video/mp4" ]} |}.

Definition html_response : Response :=
  {| response_request := video_request;
     response_headers := {[ "content-type" := "text/html" ]} |}.

Definition one_pending : Settle Z :=
  {| pending_requests := {[ 1%positive ]}; last_activity := 0 |}.

Definition plain_link : DOMElementNode :=
  {| tag_name := "a"; xpath := "html/body/a[1]";
     attributes := [("class", PyStr "a b!c d"); ("id", PyStr "foo");
                    ("href", PyStr "x'y  z"); ("required", PyStr EmptyString)];
     highlight_index := Some 3; parent := None |}.

Definition untyped_link : DOMElementNode :=
  {| tag_name := "a"; xpath := "html/body/a[1]";
     attributes := [("class", PyStr "a b"); ("id", PyNone)];
     highlight_index := Some 3; parent := None |}.



Definition restricted : BrowserContextConfig := Toy.config (Some ["example.com"]).

Definition three_tabs : Toy.State :=
  Toy.state [(1%positive, "https://example.com/a");
             (2%positive, "https://example.com/b");
             (3%positive, "https://example.com/c")] [] [].

Definition mixed_tabs : Toy.State :=
  Toy.state [(1%positive, "https://example.com/");
             (2%positive, "https://evil.com/")] [] [].

Definition outer_iframe : DOMElementNode :=
  {| tag_name := "iframe"; xpath := "html/body/iframe";
     attributes := [("id", PyStr "outer")];
     highlight_index := None; parent := None |}.

Definition inner_iframe : DOMElementNode :=
  {| tag_name := "iframe"; xpath := "html/body/iframe";
     attributes := [("id", PyStr "inner")];
     highlight_index := None; parent := Some outer_iframe |}.

Definition nested_button : DOMElementNode :=
  {| tag_name := "button"; xpath := "html/body/button";
     attributes := [("id", PyStr "go")];
     highlight_index := Some 4; parent := Some inner_iframe |}.


(** An engine in which DOM extraction fails. *)
Definition extraction_fails : Toy.State :=
  Toy.state [(1%positive, "https://example.com/")] [] ["get_clickable_elements"].

Definition earlier_snapshot : BrowserState :=
  {| element_tree := root_node; selector_map := {[ 0 := nested_button ]};
     url := "https://example.com/"; title := "title"; tabs := [];
     screenshot := None; pixels_above := 0; pixels_below := 120 |}.

(** ** The claims that the code contradicts, as propositions *)

(** Every violation found by [navigate_to] raises the dedicated error. *)
Definition navigate_raises_dedicated {E} (eng : Engine E)
    (netloc_of : string → result string) (config : BrowserContextConfig) : Prop :=
  ∀ (w : World E) target,
    _is_url_allowed netloc_of config target = false →
    ∃ w' msg,
      navigate_to eng netloc_of config target w
      = (w', Raise (URLNotAllowedError msg)).

(** After [close_current_tab], if pages remain, the current page is the
    last of them. *)
Definition closes_onto_last {E} (eng : Engine E)
    (netloc_of : string → result string) (config : BrowserContextConfig) : Prop :=
  ∀ (w w' : World E) r s',
    close_current_tab eng netloc_of config w = (w', r) →
    session w' = Some s' →
    pages_of eng (engine w') (context s') ≠ [] →
    last (pages_of eng (engine w') (context s')) = Some (current_page s').

(** ** Further methods of [BrowserContext] *)

Section MoreMethods.

Context {E : Type} (eng : Engine E).
Variable netloc_of : string → result string.
Variable config : BrowserContextConfig.

Notation "x <- c1 ;; c2" := (bind c1 (fun x => c2))
  (at level 100, c1 at next level, right associativity).
Notation "c1 ;; c2" := (bind c1 (fun _ => c2))
  (at level 100, right associativity).

(** [session.cached_state = state] on the session object of [self]. *)
Definition set_cached_state (state : BrowserState) : M E unit :=
  fun w =>
    ({| engine := engine w;
        session :=
          (fun s => {| context := context s; current_page := current_page s;
                       cached_state := state |}) <$> session w;
        current_state := current_state w; calls := calls w |}, Ok tt).

(** [get_state] up to its [return].  The cookie task it may schedule with
    [asyncio.create_task] starts only after the caller gives control back
    to the event loop, so none of its effects is visible at the return. *)
Definition get_state (use_vision : bool) : M E BrowserState :=
  _wait_for_page_and_frames_load eng netloc_of config ;;
  session <- get_session eng ;;
  state <- _update_state eng config use_vision (-1) ;;
  set_cached_state state ;;
  ret state.

(** The loop [for page in pages: await page.close()]. *)
Fixpoint close_pages (pages : list Page) : M E unit :=
  match pages with
  | [] => ret tt
  | page :: rest => call eng (PageClose page) ;; close_pages rest
  end.

Definition reset_context : M E unit :=
  session <- get_session eng ;;
  pages <- context_pages eng (context session) ;;
  close_pages pages ;;
  set_cached_state (_get_initial_state EmptyString) ;;
  new_page <- call eng (NewPage (context session)) ;;
  set_current_page new_page.

End MoreMethods.

(** A node of the element tree together with the children it owns; a
    child is an element or a text node. *)
#[warnings="-register-all"]
Inductive DOMNode : Type :=
  | TextNode (text : string)
  | ElementNode (element : DOMElementNode) (children : list DOMNode).

(** [tag_name == 'input'] and the [type] is [file] or an [accept]
    attribute is present with a value other than [None]. *)
Definition is_upload_input (element : DOMElementNode) : bool :=
  String.eqb (tag_name element) "input"
  && (match dict_get "type" (attributes element) with
      | Some (PyStr t) => String.eqb t "file"
      | _ => false
      end
      || match dict_get "accept" (attributes element) with
         | Some (PyStr _) => true
         | _ => false
         end).

Fixpoint is_file_uploader (element_node : DOMNode) (max_depth current_depth : Z)
    : bool :=
  if current_depth >? max_depth then false
  else
    match element_node with
    | TextNode _ => false
    | ElementNode element children =>
        if is_upload_input element then true
        else if negb (bool_decide (children = [])) && (current_depth <? max_depth)
        then existsb (fun child =>
                        match child with
                        | ElementNode _ _ =>
                            is_file_uploader child max_depth (current_depth + 1)
                        | TextNode _ => false
                        end) children
        else false
    end.

(** A file input occurs in the tree at most [levels] levels below the
    node. *)
Fixpoint upload_input_within (levels : nat) (node : DOMNode) {struct node} : bool :=
  match node with
  | TextNode _ => false
  | ElementNode element children =>
      is_upload_input element
      || match levels with
         | O => false
         | S levels' => existsb (upload_input_within levels') children
         end
  end.

(** A computation that leaves a session in place once there is one, with
    the context it has. *)
Definition keeps_session {E A} (m : M E A) : Prop :=
  ∀ w s, session w = Some s →
         ∃ s', session (m w).1 = Some s' ∧ context s' = context s.

(** The handlers run over a sequence of events, each with the clock
    reading at which it arrives, up to the first exception of a handler. *)
Fixpoint run_events {time} (events : list (time * NetworkEvent))
    (st : Settle time) : result (Settle time) :=
  match events with
  | [] => Ok st
  | (now, event) :: rest =>
      match handle_event now event st with
      | Ok st' => run_events rest st'
      | Raise e => Raise e
      end
  end.

(** The request that an event is about. *)
Definition event_request (event : NetworkEvent) : Request :=
  match event with
  | RequestEvent request => request
  | ResponseEvent response => response_request response
  end.

Definition is_request_of (id : positive) (event : NetworkEvent) : bool :=
  match event with
  | RequestEvent request => Pos.eqb (request_id request) id
  | ResponseEvent _ => false
  end.

Definition is_response_of (id : positive) (event : NetworkEvent) : bool :=
  match event with
  | RequestEvent _ => false
  | ResponseEvent response => Pos.eqb (request_id (response_request response)) id
  end.

(** The number that a string of decimal digits denotes. *)
Fixpoint decimal_from (acc : Z) (digits : string) : Z :=
  match digits with
  | EmptyString => acc
  | String c digits' => decimal_from (10 * acc + (Z.of_N (Py.code c) - 48)) digits'
  end.

Definition decimal_value (digits : string) : Z := decimal_from 0 digits.

Definition is_bracket (c : ascii) : bool := Py.mem_char c "[]".

(** ** Further sample inputs *)

Definition malformed_response : Response :=
  {| response_request := video_request;
     response_headers :=
       <[ "content-length" := "abc" ]> {[ "content-type" := "text/html" ]} |}.

(** A declared length of 4301 digits. *)
Definition oversized_response : Response :=
  {| response_request := video_request;
     response_headers :=
       <[ "content-length" := Py.join EmptyString (replicate 4301 "1") ]>
         {[ "content-type" := "text/html" ]} |}.

Definition idle : Settle Z := {| pending_requests := ∅; last_activity := 0 |}.

Definition styled_link : DOMElementNode :=
  {| tag_name := "a"; xpath := "html/body/a";
     attributes := [("id", PyStr "foo"); ("style", PyStr "color: red");
                    ("href", PyStr "/x")];
     highlight_index := Some 1; parent := None |}.

(** A world without a session. *)
Definition blank (e : Toy.State) : World Toy.State :=
  {| engine := e; session := None; current_state := None; calls := [] |}.

(** An engine whose pages are gone and on which no script evaluates. *)
Definition pages_gone : Toy.State := Toy.state [] [] ["evaluate"].

(** An engine with two pages on which no script evaluates. *)
Definition scripts_fail : Toy.State :=
  Toy.state [(1%positive, "https://example.com/a");
             (2%positive, "https://example.com/b")] [] ["evaluate"].

(** An engine on which neither way of clicking works. *)
Definition clicks_fail : Toy.State :=
  Toy.state [(1%positive, "https://example.com/")] []
    ["click"; "evaluate_click"].

Definition single_tab : Toy.State :=
  Toy.state [(1%positive, "https://example.com/")] [] [].

(** One page outside the allowlist, on an engine where the click on an
    element fails, and on one where the wait for the load state and the
    scripted click fail. *)
Definition first_click_fails : Toy.State :=
  Toy.state [(1%positive, "https://evil.com/")] [] ["click"].

Definition wait_and_script_fail : Toy.State :=
  Toy.state [(1%positive, "https://evil.com/")] []
    ["wait_for_load_state"; "evaluate_click"].

(** An engine on which the settle wait fails. *)
Definition settle_fails : Toy.State :=
  Toy.state [(1%positive, "https://example.com/")] []
    ["wait_for_stable_network"].

Definition evil_first : Toy.State :=
  Toy.state [(1%positive, "https://evil.com/");
             (2%positive, "https://example.com/")] [] [].

Definition session_on (e : Toy.State) (current : Page) : BrowserSession :=
  {| context := 1%positive; current_page := current;
     cached_state := _get_initial_state (Toy.address e current) |}.

(** * Properties *)

(** ** Strings *)

Lemma app_cons a s t : String a s +:+ t = String a (s +:+ t).
Proof. reflexivity. Qed.

Lemma app_nil_r s : s +:+ EmptyString = s.
Proof. induction s as [|a s IH]; [reflexivity|]. by rewrite app_cons, IH. Qed.

Lemma app_assoc_str s t u : (s +:+ t) +:+ u = s +:+ (t +:+ u).
Proof.
  induction s as [|a s IH]; [reflexivity|].
  by rewrite !app_cons, IH.
Qed.

Lemma endswith_unfold s suf :
  Py.endswith s suf =
    (String.eqb s suf ||
     match s with
     | EmptyString => false
     | String _ s' => Py.endswith s' suf
     end).
Proof. by destruct s. Qed.

Lemma endswith_spec s suf :
  Py.endswith s suf = true ↔ ∃ pre, s = pre +:+ suf.
Proof.
  induction s as [|a s IH]; rewrite endswith_unfold.
  - rewrite orb_false_r, String.eqb_eq. split.
    + intros <-. by exists EmptyString.
    + intros [[|b pre] H]; [done | discriminate H].
  - rewrite orb_true_iff, String.eqb_eq, IH. split.
    + intros [<- | [pre ->]].
      * by exists EmptyString.
      * by exists (String a pre).
    + intros [[|b pre] H].
      * left. exact H.
      * right. rewrite app_cons in H. injection H as _ ->. by exists pre.
Qed.

(** ** 4.1 Allowlist guard *)

Section AllowlistProperties.

Variable netloc_of : string → result string.
Variable config : BrowserContextConfig.

Lemma is_url_allowed_unrestricted target :
  allowed_domains config = None ∨ allowed_domains config = Some [] →
  _is_url_allowed netloc_of config target = true.
Proof. unfold _is_url_allowed. by intros [-> | ->]. Qed.

Lemma is_url_allowed_fails_closed target e d ds :
  allowed_domains config = Some (d :: ds) →
  netloc_of target = Raise e →
  _is_url_allowed netloc_of config target = false.
Proof. unfold _is_url_allowed. by intros -> ->. Qed.

Lemma domain_matches_spec domain allowed_domain :
  domain_matches domain allowed_domain = true ↔
  domain = Py.lower allowed_domain
  ∨ ∃ pre, domain = pre +:+ "." +:+ Py.lower allowed_domain.
Proof.
  unfold domain_matches.
  by rewrite orb_true_iff, String.eqb_eq, endswith_spec.
Qed.

(** What the guard decides once the url has parsed: the lower-cased
    network location, cut at its first colon, equals an entry or ends
    with a dot and the entry. *)
Lemma is_url_allowed_netloc target netloc d ds :
  allowed_domains config = Some (d :: ds) →
  netloc_of target = Ok netloc →
  _is_url_allowed netloc_of config target = true ↔
  ∃ allowed_domain, In allowed_domain (d :: ds) ∧
    (checked_domain netloc = Py.lower allowed_domain
     ∨ ∃ pre, checked_domain netloc = pre +:+ "." +:+ Py.lower allowed_domain).
Proof.
  intros Hcfg Hparse. unfold _is_url_allowed. rewrite Hcfg, Hparse.
  rewrite existsb_exists. split.
  - intros (a & Hin & Hm). exists a. split; [done|]. by apply domain_matches_spec.
  - intros (a & Hin & Hm). exists a. split; [done|]. by apply domain_matches_spec.
Qed.

End AllowlistProperties.

(** C1.  The claim compares the host of the url with the allowlist; the
    guard compares the network location cut at its first colon.  For a url
    with user information the two differ: with [example.com] allowed, the
    url [https://example.com:pw@evil.com/] has host [evil.com], which
    matches no entry, and the guard allows it. *)
Theorem is_url_allowed_userinfo_bypass (valid_bracketed_host : string → bool) :
  let parse := Url.urlparse_netloc valid_bracketed_host in
  let config := Toy.config (Some ["example.com"]) in
  let target := "https://example.com:pw@evil.com/" in
  parse target = Ok "example.com:pw@evil.com"
  ∧ Url.hostname "example.com:pw@evil.com" = "evil.com"
  ∧ domain_matches "evil.com" "example.com" = false
  ∧ _is_url_allowed parse config target = true.
Proof. repeat split; reflexivity. Qed.

(** The same cut denies a url of an allowed host that carries a user name. *)
Lemma is_url_allowed_userinfo_denied (valid_bracketed_host : string → bool) :
  let parse := Url.urlparse_netloc valid_bracketed_host in
  let config := Toy.config (Some ["example.com"]) in
  parse "https://user@example.com/" = Ok "user@example.com"
  ∧ Url.hostname "user@example.com" = "example.com"
  ∧ _is_url_allowed parse config "https://user@example.com/" = false.
Proof. repeat split; reflexivity. Qed.

(** ** 4.2 Network settle detector *)

Lemma on_request_activity {time} (now : time) request st :
  pending_requests (on_request now request st) ≠ pending_requests st →
  last_activity (on_request now request st) = now.
Proof.
  unfold on_request. destruct (request_filtered request); [done|]. by intros _.
Qed.

Lemma on_response_activity {time} (now : time) response st st' :
  on_response now response st = Ok st' →
  pending_requests st' ≠ pending_requests st →
  last_activity st' =
    if response_filtered response then last_activity st else now.
Proof.
  unfold on_response, response_filtered. cbv zeta.
  set (streaming := existsb _ STREAMING_CONTENT_TYPES).
  set (relevant := existsb _ RELEVANT_CONTENT_TYPES).
  destruct (bool_decide _); cbn [negb].
  2: { intros [= <-]. done. }
  destruct streaming; cbn [orb].
  { by intros [= <-] _. }
  destruct relevant; cbn [negb orb].
  2: { by intros [= <-] _. }
  destruct (response_headers response !! "content-length") as [[|c cl]|].
  - by intros [= <-] _.
  - destruct (py_int (String c cl)) as [n|e]; [|done].
    destruct (n >? MAX_CONTENT_LENGTH); by intros [= <-] _.
  - by intros [= <-] _.
Qed.

(** C2, as stated, fails: the response handler drops a request whose
    response has a streaming content type and leaves the last activity as
    it was. *)
Lemma filtered_response_is_not_activity : ¬ every_change_is_activity Z.
Proof.
  intros H.
  specialize (H 5 (ResponseEvent video_response) one_pending
                (remove_pending video_request one_pending)).
  assert (Hrun : handle_event 5 (ResponseEvent video_response) one_pending
                 = Ok (remove_pending video_request one_pending))
    by (vm_compute; reflexivity).
  specialize (H Hrun). simpl in H.
  assert (Hne : ({[1%positive]} ∖ {[1%positive]} : gset positive) ≠ {[1%positive]})
    by set_solver.
  specialize (H Hne). discriminate H.
Qed.

(** C2, amended.  A handler that changes the pending set sets the last
    activity to the current time when it is the request handler or the
    response handler on a response that passes the content filters; the
    response handler on a filtered response leaves the last activity
    unchanged. *)
Theorem membership_change_activity {time} (now : time) event st st' :
  handle_event now event st = Ok st' →
  pending_requests st' ≠ pending_requests st →
  last_activity st' =
    if counted_as_activity event then now else last_activity st.
Proof.
  destruct event as [request | response]; simpl.
  - intros [= <-]. apply on_request_activity.
  - intros Hrun Hne. rewrite (on_response_activity _ _ _ _ Hrun Hne).
    by destruct (response_filtered response).
Qed.

Lemma membership_change_activity_witness :
  last_activity (resolve_pending 5 video_request one_pending) = 5.
Proof.
  apply (membership_change_activity 5 (ResponseEvent html_response) one_pending
           (resolve_pending 5 video_request one_pending)).
  - vm_compute. reflexivity.
  - simpl. set_solver.
Defined.

(** ** 4.3 Selector synthesizer *)

Lemma is_empty_rev_app s acc :
  Py.is_empty (String.rev_app s acc) = Py.is_empty s && Py.is_empty acc.
Proof.
  revert acc. induction s as [|a s IH]; intros acc; [reflexivity|].
  cbn [String.rev_app]. rewrite IH. cbn. by rewrite andb_false_r.
Qed.

Lemma all_chars_rev_app p s acc :
  Py.all_chars p (String.rev_app s acc) = Py.all_chars p s && Py.all_chars p acc.
Proof.
  revert acc. induction s as [|a s IH]; intros acc; [reflexivity|].
  cbn [String.rev_app]. rewrite IH. cbn [Py.all_chars].
  by destruct (p a), (Py.all_chars p s), (Py.all_chars p acc).
Qed.

Lemma lstrip_empty_all p s :
  Py.is_empty (Py.lstrip_by p s) = true → Py.all_chars p s = true.
Proof.
  induction s as [|a s IH]; [done|]. cbn [Py.lstrip_by Py.all_chars].
  destruct (p a); [exact IH | discriminate].
Qed.

(** ** Integer literals *)

Lemma rev_app_rev_app s a b :
  String.rev_app (String.rev_app s a) b = String.rev_app a (s +:+ b).
Proof.
  revert a b. induction s as [|c s IH]; intros a b; [reflexivity|].
  cbn [String.rev_app]. rewrite IH. cbn [String.rev_app]. by rewrite app_cons.
Qed.

Lemma rev_rev s : String.rev (String.rev s) = s.
Proof. unfold String.rev. rewrite rev_app_rev_app. cbn. apply app_nil_r. Qed.

Lemma lstrip_by_clean p s :
  Py.all_chars (fun c => negb (p c)) s = true → Py.lstrip_by p s = s.
Proof.
  destruct s as [|c s]; [done|]. cbn [Py.all_chars Py.lstrip_by].
  intros [Hc _]%andb_true_iff. apply negb_true_iff in Hc. by rewrite Hc.
Qed.

Lemma strip_by_clean p s :
  Py.all_chars (fun c => negb (p c)) s = true → Py.strip_by p s = s.
Proof.
  intros Hclean. unfold Py.strip_by, Py.rstrip_by.
  rewrite (lstrip_by_clean p s Hclean).
  rewrite lstrip_by_clean; [apply rev_rev|].
  unfold String.rev. rewrite all_chars_rev_app. by rewrite Hclean.
Qed.

Lemma all_chars_impl (p q : ascii → bool) s :
  (∀ c, p c = true → q c = true) →
  Py.all_chars p s = true → Py.all_chars q s = true.
Proof.
  intros Hpq. induction s as [|c s IH]; [done|]. cbn [Py.all_chars].
  intros [Hc Hs]%andb_true_iff. by rewrite (Hpq c Hc), IH.
Qed.

Lemma ascii_digit_facts c :
  Py.is_ascii_digit c = true →
  Py.is_digit c = true ∧ Py.is_space c = false ∧ is_bracket c = false
  ∧ Ascii.eqb c "_" = false.
Proof.
  destruct c as [[] [] [] [] [] [] [] []]; vm_compute; intros H;
    first [discriminate H | done].
Qed.

Lemma ascii_digit_plain c :
  Py.is_ascii_digit c = true →
  is_int_space c = false ∧ c ≠ "+"%char ∧ c ≠ "-"%char ∧ c ≠ "_"%char.
Proof.
  destruct c as [[] [] [] [] [] [] [] []]; vm_compute; intros H;
    first [discriminate H | done].
Qed.

Lemma int_digits_decimal digits : ∀ acc after_digit,
  Py.all_chars Py.is_ascii_digit digits = true →
  after_digit = true ∨ digits ≠ EmptyString →
  int_digits acc after_digit digits = Some (decimal_from acc digits).
Proof.
  induction digits as [|c digits IH]; intros acc after_digit Hall Hne.
  - destruct Hne as [-> | Hne]; [reflexivity | done].
  - cbn [Py.all_chars] in Hall. apply andb_true_iff in Hall as [Hc Hall].
    cbn [int_digits decimal_from]. rewrite Hc. apply IH; [done | by left].
Qed.

Lemma digit_run_digits digits :
  Py.all_chars Py.is_ascii_digit digits = true → digit_run digits = digits.
Proof.
  unfold digit_run. induction digits as [|c digits IH]; [done|].
  cbn [Py.all_chars Py.break_at]. intros [Hc Hall]%andb_true_iff.
  rewrite Hc. cbn [orb negb]. specialize (IH Hall).
  destruct (Py.break_at _ digits) as [run rest]. cbn [fst] in *. by rewrite IH.
Qed.

Lemma count_digits_length digits :
  Py.all_chars Py.is_ascii_digit digits = true →
  Py.count_digits digits = Z.of_nat (String.length digits).
Proof.
  induction digits as [|c digits IH]; [done|].
  cbn [Py.all_chars Py.count_digits String.length].
  intros [Hc Hall]%andb_true_iff. rewrite Hc, (IH Hall). lia.
Qed.

(** A run of digits has no underscore to misplace. *)
Lemma grouped_digits digits :
  Py.all_chars Py.is_ascii_digit digits = true → grouped digits = true.
Proof.
  intros Hall. unfold grouped.
  assert (Hstart : Py.startswith digits "_" = false).
  { destruct digits as [|c digits]; [done|]. cbn [Py.all_chars] in Hall.
    apply andb_true_iff in Hall as [Hc _].
    apply ascii_digit_plain in Hc as (_ & _ & _ & Hc).
    unfold Py.startswith. cbn [String.prefix].
    destruct (ascii_dec "_" c); [congruence | done]. }
  assert (Hinside : Py.contains digits "__" = false).
  { clear Hstart. induction digits as [|c digits IH]; [done|]. cbn [Py.all_chars] in Hall.
    apply andb_true_iff in Hall as [Hc Hall].
    apply ascii_digit_plain in Hc as (_ & _ & _ & Hc).
    cbn [Py.contains String.prefix]. rewrite (IH Hall).
    destruct (ascii_dec "_" c); [congruence | done]. }
  assert (Hend : Py.endswith digits "_" = false).
  { clear Hstart Hinside. induction digits as [|c digits IH]; [done|]. cbn [Py.all_chars] in Hall.
    apply andb_true_iff in Hall as [Hc Hall].
    apply ascii_digit_plain in Hc as (_ & _ & _ & Hc).
    rewrite endswith_unfold, (IH Hall), orb_false_r.
    apply String.eqb_neq. by intros [= ->]. }
  by rewrite Hstart, Hinside, Hend.
Qed.

(** [int] on a literal made of digits alone: the number it denotes, unless
    it has more than [INT_MAX_STR_DIGITS] digits. *)
Lemma int_literal_digits s digits :
  digits ≠ EmptyString →
  Py.all_chars Py.is_ascii_digit digits = true →
  (Z.of_nat (String.length digits) <= INT_MAX_STR_DIGITS →
   int_literal s digits = Ok (decimal_value digits))
  ∧ (INT_MAX_STR_DIGITS < Z.of_nat (String.length digits) →
     ∃ msg, int_literal s digits = Raise (ValueError msg)).
Proof.
  intros Hne Hall. unfold int_literal.
  rewrite (digit_run_digits _ Hall), (grouped_digits _ Hall),
    (count_digits_length _ Hall). cbn [andb].
  split; intros Hlen.
  - destruct (INT_MAX_STR_DIGITS <? _) eqn:Hlimit; [lia|].
    rewrite int_digits_decimal; [reflexivity | done | by right].
  - destruct (INT_MAX_STR_DIGITS <? _) eqn:Hlimit; [by eexists | lia].
Qed.

Lemma py_int_unsigned c s :
  Py.is_ascii_digit c = true →
  Py.strip_by is_int_space (String c s) = String c s →
  py_int (String c s) = int_literal (String c s) (String c s).
Proof.
  intros Hc Hstrip. unfold py_int. rewrite Hstrip.
  destruct c as [[] [] [] [] [] [] [] []];
    first [discriminate Hc | reflexivity].
Qed.

Lemma py_int_digits digits :
  digits ≠ EmptyString →
  Py.all_chars Py.is_ascii_digit digits = true →
  py_int digits = int_literal digits digits.
Proof.
  intros Hne Hall.
  assert (Hstrip : Py.strip_by is_int_space digits = digits).
  { apply strip_by_clean. apply (all_chars_impl Py.is_ascii_digit); [|done].
    intros c Hc. apply negb_true_iff. by apply ascii_digit_plain. }
  destruct digits as [|c digits]; [done|].
  assert (Hc : Py.is_ascii_digit c = true).
  { cbn [Py.all_chars] in Hall. by apply andb_true_iff in Hall as [-> _]. }
  exact (py_int_unsigned c digits Hc Hstrip).
Qed.

Lemma py_int_decimal digits :
  digits ≠ EmptyString →
  Py.all_chars Py.is_ascii_digit digits = true →
  Z.of_nat (String.length digits) <= INT_MAX_STR_DIGITS →
  py_int digits = Ok (decimal_value digits).
Proof.
  intros Hne Hall Hlen. rewrite (py_int_digits _ Hne Hall).
  by apply int_literal_digits.
Qed.

(** *** Printing an integer and reading it back *)

Lemma string_of_uint_digits d :
  Py.all_chars Py.is_ascii_digit (NilEmpty.string_of_uint d) = true.
Proof. induction d; cbn [NilEmpty.string_of_uint Py.all_chars]; done. Qed.

Lemma string_of_uint_nonempty d :
  d ≠ Decimal.Nil → NilEmpty.string_of_uint d ≠ EmptyString.
Proof. by destruct d. Qed.

Lemma decimal_from_uint d : ∀ acc,
  decimal_from (Z.pos acc) (NilEmpty.string_of_uint d)
  = Z.pos (Pos.of_uint_acc d acc).
Proof.
  induction d as [|d IH|d IH|d IH|d IH|d IH|d IH|d IH|d IH|d IH|d IH];
    intros acc; [reflexivity|..];
    cbn [NilEmpty.string_of_uint decimal_from Pos.of_uint_acc];
    rewrite <- IH; f_equal;
    try match goal with
        | |- context [Z.of_N (Py.code ?c)] =>
            let v := eval vm_compute in (Z.of_N (Py.code c)) in
            change (Z.of_N (Py.code c)) with v
        end; lia.
Qed.

Lemma decimal_value_uint d :
  decimal_value (NilEmpty.string_of_uint d) = Z.of_N (Pos.of_uint d).
Proof.
  unfold decimal_value.
  induction d as [|d IH|d IH|d IH|d IH|d IH|d IH|d IH|d IH|d IH|d IH];
    [reflexivity | exact IH | ..];
    cbn [NilEmpty.string_of_uint decimal_from Pos.of_uint Z.of_N];
    rewrite <- decimal_from_uint; reflexivity.
Qed.

Lemma str_of_Z_pos p :
  Py.str_of_Z (Z.pos p) = NilEmpty.string_of_uint (Pos.to_uint p).
Proof.
  unfold Py.str_of_Z. cbn [Z.to_int NilZero.string_of_int].
  pose proof (DecimalPos.Unsigned.to_uint_nonnil p) as Hnil.
  unfold NilZero.string_of_uint. by destruct (Pos.to_uint p).
Qed.

Lemma str_of_Z_neg p :
  Py.str_of_Z (Z.neg p) = String "-" (NilEmpty.string_of_uint (Pos.to_uint p)).
Proof.
  unfold Py.str_of_Z. cbn [Z.to_int NilZero.string_of_int].
  pose proof (DecimalPos.Unsigned.to_uint_nonnil p) as Hnil.
  unfold NilZero.string_of_uint. by destruct (Pos.to_uint p).
Qed.

Lemma decimal_value_to_uint p :
  decimal_value (NilEmpty.string_of_uint (Pos.to_uint p)) = Z.pos p.
Proof. by rewrite decimal_value_uint, DecimalPos.Unsigned.of_to. Qed.

(** What [str] prints, [int] reads back. *)
Lemma py_int_str n text : py_str n = Ok text → py_int text = Ok n.
Proof.
  unfold py_str. destruct (INT_MAX_STR_DIGITS <? _) eqn:Hlimit; [done|].
  intros [= <-]. apply Z.ltb_ge in Hlimit.
  destruct n as [|p|p].
  - reflexivity.
  - rewrite str_of_Z_pos in *.
    pose proof (string_of_uint_digits (Pos.to_uint p)) as Hall.
    rewrite (count_digits_length _ Hall) in Hlimit.
    rewrite py_int_decimal; [by rewrite decimal_value_to_uint | | done | done].
    apply string_of_uint_nonempty, DecimalPos.Unsigned.to_uint_nonnil.
  - rewrite str_of_Z_neg in *.
    pose proof (string_of_uint_digits (Pos.to_uint p)) as Hall.
    cbn [Py.count_digits] in Hlimit. change (Py.is_ascii_digit "-") with false in Hlimit.
    rewrite (count_digits_length _ Hall) in Hlimit.
    assert (Hne : NilEmpty.string_of_uint (Pos.to_uint p) ≠ EmptyString)
      by apply string_of_uint_nonempty, DecimalPos.Unsigned.to_uint_nonnil.
    unfold py_int.
    assert (Hstrip : Py.strip_by is_int_space
                       (String "-" (NilEmpty.string_of_uint (Pos.to_uint p)))
                     = String "-" (NilEmpty.string_of_uint (Pos.to_uint p))).
    { apply strip_by_clean. cbn [Py.all_chars].
      change (negb (is_int_space "-")) with true. cbn [andb].
      apply (all_chars_impl Py.is_ascii_digit); [|done].
      intros c Hc. apply negb_true_iff. by apply ascii_digit_plain. }
    rewrite Hstrip.
    destruct (int_literal_digits
                (String "-" (NilEmpty.string_of_uint (Pos.to_uint p)))
                _ Hne Hall) as [Hok _].
    rewrite Hok by lia. by rewrite decimal_value_to_uint.
Qed.

(** *** Reading a string of digits and printing its value *)

Lemma digits_of_uint digits :
  Py.all_chars Py.is_ascii_digit digits = true →
  ∃ d, digits = NilEmpty.string_of_uint d.
Proof.
  induction digits as [|c digits IH]; [by exists Decimal.Nil|].
  cbn [Py.all_chars]. intros [Hc Hall]%andb_true_iff.
  destruct (IH Hall) as [d ->].
  destruct c as [[] [] [] [] [] [] [] []]; try discriminate Hc;
    first [ by exists (Decimal.D0 d) | by exists (Decimal.D1 d)
          | by exists (Decimal.D2 d) | by exists (Decimal.D3 d)
          | by exists (Decimal.D4 d) | by exists (Decimal.D5 d)
          | by exists (Decimal.D6 d) | by exists (Decimal.D7 d)
          | by exists (Decimal.D8 d) | by exists (Decimal.D9 d) ].
Qed.

Lemma length_string_of_uint d :
  String.length (NilEmpty.string_of_uint d) = Decimal.nb_digits d.
Proof.
  induction d; cbn [NilEmpty.string_of_uint String.length Decimal.nb_digits];
    congruence.
Qed.

Lemma str_of_Z_uint d :
  Py.str_of_Z (Z.of_N (Pos.of_uint d))
  = NilEmpty.string_of_uint (Decimal.unorm d).
Proof.
  rewrite <- DecimalPos.Unsigned.to_of.
  destruct (Pos.of_uint d) as [|p]; [reflexivity|]. apply str_of_Z_pos.
Qed.

(** The value of at most [INT_MAX_STR_DIGITS] digits prints in at most as
    many. *)
Lemma py_str_decimal digits :
  digits ≠ EmptyString →
  Py.all_chars Py.is_ascii_digit digits = true →
  Z.of_nat (String.length digits) <= INT_MAX_STR_DIGITS →
  py_str (decimal_value digits) = Ok (Py.str_of_Z (decimal_value digits)).
Proof.
  intros Hne Hall Hlen. unfold py_str.
  destruct (digits_of_uint _ Hall) as [d ->].
  rewrite decimal_value_uint, str_of_Z_uint.
  rewrite (count_digits_length _ (string_of_uint_digits _)).
  rewrite length_string_of_uint in *.
  assert (Hd : d ≠ Decimal.Nil) by (by intros ->).
  pose proof (DecimalFacts.nb_digits_unorm d Hd) as Hnorm.
  destruct (INT_MAX_STR_DIGITS <? _) eqn:Hlimit; [lia | reflexivity].
Qed.

Lemma ident_start_not_space c :
  is_ident_start c = true → Py.is_space c = false.
Proof.
  destruct c as [[] [] [] [] [] [] [] []]; vm_compute; congruence.
Qed.

(** A token that matches the pattern is not blank. *)
Lemma valid_class_name_not_blank class_name :
  valid_class_name class_name = true →
  Py.is_empty (Py.strip class_name) = false.
Proof.
  destruct class_name as [|c s]; [discriminate|].
  cbn [valid_class_name]. intros [Hc _]%andb_true_iff.
  apply ident_start_not_space in Hc.
  unfold Py.strip, Py.strip_by, Py.rstrip_by, String.rev.
  cbn [Py.lstrip_by]. rewrite Hc.
  rewrite is_empty_rev_app, andb_true_r.
  destruct (Py.is_empty _) eqn:Hempty; [|done].
  apply lstrip_empty_all in Hempty.
  rewrite all_chars_rev_app in Hempty. cbn [Py.all_chars] in Hempty.
  rewrite Hc in Hempty. discriminate Hempty.
Qed.

Lemma fold_append {A} (f : A → string) l acc :
  fold_left (fun css x => css +:+ f x) l acc = acc +:+ concat_str (f <$> l).
Proof.
  revert acc. induction l as [|x l IH]; intros acc; cbn.
  - by rewrite app_nil_r.
  - by rewrite IH, app_assoc_str.
Qed.

Lemma class_fragments_valid l :
  concat_str (class_fragment <$> l)
  = concat_str ((fun t => "." +:+ t)
                  <$> filter (fun t => valid_class_name t = true) l).
Proof.
  induction l as [|t l IH]; [reflexivity|].
  rewrite filter_cons. cbn [fmap list_fmap concat_str foldr].
  fold (concat_str (class_fragment <$> l)). rewrite IH.
  unfold class_fragment at 1.
  destruct (decide (valid_class_name t = true)) as [Hv | Hv].
  - rewrite (valid_class_name_not_blank _ Hv), Hv. reflexivity.
  - apply not_true_is_false in Hv. rewrite Hv.
    by destruct (Py.is_empty (Py.strip t)).
Qed.

Lemma class_selectors_tokens attrs value :
  dict_get "class" attrs = Some (PyStr value) →
  class_selectors attrs
  = concat_str ((fun t => "." +:+ t) <$> valid_class_tokens value).
Proof.
  intros Hget. unfold class_selectors, valid_class_tokens. rewrite Hget.
  destruct value as [|c s]; [reflexivity|].
  by rewrite fold_append, class_fragments_valid.
Qed.

Lemma attribute_fragments_cons k v items :
  attribute_fragments ((k, v) :: items)
  = match attribute_selector k v with
    | Ok fragment => fragment
    | Raise _ => EmptyString
    end +:+ attribute_fragments items.
Proof. reflexivity. Qed.

Lemma attribute_selectors_well_typed items css_selector :
  (∀ k v, In (k, v) items → ∃ s, v = PyStr s) →
  attribute_selectors css_selector items
  = Ok (css_selector +:+ attribute_fragments items).
Proof.
  revert css_selector. induction items as [|[k v] items IH]; intros css Hty.
  - cbn. by rewrite app_nil_r.
  - destruct (Hty k v (or_introl eq_refl)) as [s ->].
    cbn [attribute_selectors].
    assert (Hok : ∃ fragment, attribute_selector k (PyStr s) = Ok fragment).
    { unfold attribute_selector.
      destruct (String.eqb k "class"); [eauto|].
      destruct (Py.is_empty (Py.strip k)); [eauto|].
      destruct (in_list k SAFE_ATTRIBUTES); cbn [negb]; [|eauto].
      destruct s; [eauto|].
      destruct (Py.any_char is_special _); eauto. }
    destruct Hok as [fragment Hok]. rewrite Hok.
    rewrite IH by (intros k' v' Hin; apply (Hty k' v'); by right).
    rewrite attribute_fragments_cons, Hok. by rewrite app_assoc_str.
Qed.

Lemma attribute_fragment_occurs items k v fragment :
  In (k, v) items →
  attribute_selector k v = Ok fragment →
  fragment_of fragment (attribute_fragments items).
Proof.
  induction items as [|[k' v'] items IH]; [done|].
  rewrite attribute_fragments_cons.
  intros [[= -> ->] | Hin] Hok.
  - rewrite Hok. exists EmptyString. eexists. reflexivity.
  - destruct (IH Hin Hok) as (before & after & ->).
    eexists (_ +:+ before), after. by rewrite app_assoc_str.
Qed.

Lemma selector_well_typed element :
  well_typed element →
  _enhanced_css_selector_for_element element
  = _convert_simple_xpath_to_css_selector (xpath element)
    +:+ class_selectors (attributes element)
    +:+ attribute_fragments (attributes element).
Proof.
  intros Hty. unfold _enhanced_css_selector_for_element, synthesize_selector.
  rewrite attribute_selectors_well_typed by exact Hty.
  by rewrite app_assoc_str.
Qed.

Lemma attribute_selectors_raise items css_selector e :
  attribute_selectors css_selector items = Raise e →
  ∃ k, In (k, PyNone) items ∧ in_list k SAFE_ATTRIBUTES = true.
Proof.
  revert css_selector. induction items as [|[k v] items IH]; intros css; [done|].
  cbn [attribute_selectors].
  destruct (attribute_selector k v) as [fragment|e'] eqn:Hsel.
  - intros H. destruct (IH _ H) as (k' & Hin & Hsafe).
    exists k'. split; [by right | done].
  - intros _. exists k. unfold attribute_selector in Hsel.
    destruct (String.eqb k "class"); [done|].
    destruct (Py.is_empty (Py.strip k)); [done|].
    destruct (in_list k SAFE_ATTRIBUTES) eqn:Hsafe; [|done].
    destruct v as [[|c s]|]; [done | | by split; [left|]].
    cbn [negb] in Hsel. by destruct (Py.any_char is_special (String c s)).
Qed.

Lemma safe_attribute_plain k :
  in_list k SAFE_ATTRIBUTES = true →
  String.eqb k "class" = false
  ∧ Py.is_empty (Py.strip k) = false
  ∧ Py.replace_char ":" "\:" k = k.
Proof.
  intros H. unfold in_list, SAFE_ATTRIBUTES in H. cbn [existsb] in H.
  repeat (apply orb_true_iff in H as [H|H];
          [apply String.eqb_eq in H; subst k; by vm_compute|]).
  discriminate H.
Qed.

Lemma attribute_selectors_raise_on items k : ∀ css_selector,
  In (k, PyNone) items →
  in_list k SAFE_ATTRIBUTES = true →
  ∃ e, attribute_selectors css_selector items = Raise e.
Proof.
  induction items as [|[k' v'] items IH]; intros css Hin Hsafe; [done|].
  cbn [attribute_selectors].
  destruct (attribute_selector k' v') as [fragment|e] eqn:Hsel; [|by eexists].
  destruct Hin as [[= -> ->] | Hin]; [|by apply IH].
  destruct (safe_attribute_plain _ Hsafe) as (Hclass & Hblank & _).
  unfold attribute_selector in Hsel. by rewrite Hclass, Hblank, Hsafe in Hsel.
Qed.






(** The [except] branch is live: a safe attribute whose value is not a
    string makes the attribute loop raise. *)
Lemma selector_fallback_taken :
  synthesize_selector untyped_link
    = Raise (Exception "argument of type 'NoneType' is not iterable")
  ∧ _enhanced_css_selector_for_element untyped_link = "a[highlight_index='3']".
Proof. split; reflexivity. Qed.

(** C9.  On an element whose attribute values are strings: an [id] of
    [foo] contributes the attribute-style fragment; a [class] of [a b]
    contributes [.a.b]; and of the class tokens exactly those that match
    the identifier pattern appear, in order, the others being dropped. *)
Theorem selector_fragments element :
  well_typed element →
  (In ("id", PyStr "foo") (attributes element) →
   fragment_of ("[id=" +:+ Py.quoted "foo" +:+ "]")
     (_enhanced_css_selector_for_element element))
  ∧ (dict_get "class" (attributes element) = Some (PyStr "a b") →
     fragment_of ".a.b" (_enhanced_css_selector_for_element element))
  ∧ (∀ value,
       dict_get "class" (attributes element) = Some (PyStr value) →
       _enhanced_css_selector_for_element element
       = _convert_simple_xpath_to_css_selector (xpath element)
         +:+ concat_str ((fun t => "." +:+ t) <$> valid_class_tokens value)
         +:+ attribute_fragments (attributes element)).
Proof.
  intros Hty. rewrite (selector_well_typed _ Hty). repeat split.
  - intros Hin.
    destruct (attribute_fragment_occurs _ _ _ _ Hin eq_refl)
      as (before & after & ->).
    exists (_convert_simple_xpath_to_css_selector (xpath element)
            +:+ class_selectors (attributes element) +:+ before), after.
    by rewrite !app_assoc_str.
  - intros Hget. rewrite (class_selectors_tokens _ _ Hget).
    eexists _, _. reflexivity.
  - intros value Hget. by rewrite (class_selectors_tokens _ _ Hget).
Qed.

Lemma plain_link_well_typed : well_typed plain_link.
Proof.
  intros k v Hin. cbn in Hin.
  repeat (destruct Hin as [[= <- <-] | Hin]; [eauto|]). done.
Qed.

Lemma selector_fragments_witness :
  _enhanced_css_selector_for_element plain_link
  = _convert_simple_xpath_to_css_selector (xpath plain_link)
    +:+ concat_str ((fun t => "." +:+ t) <$> valid_class_tokens "a b!c d")
    +:+ attribute_fragments (attributes plain_link).
Proof.
  exact (proj2 (proj2 (selector_fragments plain_link plain_link_well_typed))
           "a b!c d" eq_refl).
Defined.

(** The token [b!c] is dropped; the others and the attributes remain. *)
Lemma plain_link_selector :
  valid_class_tokens "a b!c d" = ["a"; "d"]
  ∧ _enhanced_css_selector_for_element plain_link
    = "html > body > a:nth-of-type(1).a.d[id=" +:+ Py.quoted "foo"
      +:+ "][href*=" +:+ Py.quoted "x'y z" +:+ "][required]".
Proof. split; vm_compute; reflexivity. Qed.

(** ** Sessions, navigation, refresh and location *)

Section BrowserContextProperties.

Context {E : Type} (eng : Engine E).
Variable netloc_of : string → result string.
Variable config : BrowserContextConfig.
Variable context_id : string.
Variable repr : DOMElementNode → string.

Implicit Types w : World E.

Lemma call_run {A} (c : Cmd A) w :
  call eng c w
  = ({| engine := (exec eng c (engine w)).1; session := session w;
        current_state := current_state w; calls := calls w ++ [called c] |},
     match (exec eng c (engine w)).2 with
     | Done a => Ok a
     | Failed msg => Raise (EngineError msg)
     end).
Proof. unfold call. by destruct (exec eng c (engine w)). Qed.

Lemma get_session_active w s :
  session w = Some s → get_session eng w = (w, Ok s).
Proof. unfold get_session, bind, get_self_session, ret. by intros ->. Qed.

Lemma get_current_page_active w s :
  session w = Some s → get_current_page eng w = (w, Ok (current_page s)).
Proof.
  intros Hs. unfold get_current_page, bind.
  by rewrite (get_session_active _ _ Hs).
Qed.

(** A handler that swallows every exception leaves no exception. *)
Lemma try_except_swallow (m : M E unit) w :
  ∃ w', try_except m (fun _ => ret tt) w = (w', Ok tt).
Proof.
  unfold try_except, ret. destruct (m w) as [w' [[]|e]]; eauto.
Qed.

Lemma save_cookies_ok w : ∃ w', save_cookies eng config w = (w', Ok tt).
Proof.
  unfold save_cookies, bind, get_self_session.
  destruct (session w) as [s|]; [|by eexists].
  destruct (cookies_file config) as [[|c f]|]; try by eexists.
  apply try_except_swallow.
Qed.

(** The body of the [try] of [close] completes without an exception. *)
Lemma close_body_ok w :
  ∃ w',
    bind get_self_session
      (fun s : option BrowserSession =>
         match s with
         | None => ret tt
         | Some session =>
             bind (save_cookies eng config) (fun _ =>
             bind (if truthy (trace_path config)
                   then try_except
                          (call eng (TracingStop (context session)
                             (path_join (default EmptyString (trace_path config))
                                (context_id +:+ ".zip"))))
                          (fun _ => ret tt)
                   else ret tt) (fun _ =>
             try_except (call eng (ContextClose (context session)))
               (fun _ => ret tt)))
         end) w = (w', Ok tt).
Proof.
  unfold bind at 1. unfold get_self_session.
  destruct (session w) as [s|]; [|by eexists].
  unfold bind at 1. destruct (save_cookies_ok w) as [w1 ->].
  unfold bind at 1.
  assert (Htrace : ∃ w2,
    (if truthy (trace_path config)
     then try_except
            (call eng (TracingStop (context s)
               (path_join (default EmptyString (trace_path config))
                  (context_id +:+ ".zip"))))
            (fun _ => ret tt)
     else ret tt) w1 = (w2, Ok tt)).
  { destruct (truthy (trace_path config)); [apply try_except_swallow | by eexists]. }
  destruct Htrace as [w2 ->].
  apply try_except_swallow.
Qed.

(** C7.  [close] never raises and leaves [session] unset, whatever the
    engine does while cookies are saved, tracing is stopped and the
    context is closed; a second [close] changes nothing and does not
    raise either. *)
Theorem close_idempotent w :
  ∃ w1,
    close eng config context_id w = (w1, Ok tt)
    ∧ session w1 = None
    ∧ close eng config context_id w1 = (w1, Ok tt).
Proof.
  unfold close, try_finally.
  destruct (close_body_ok w) as [w' ->].
  unfold set_self_session. eexists. split; [reflexivity|]. split; [reflexivity|].
  reflexivity.
Qed.

(** C10.  For an index that the selector map of the cached snapshot does
    not hold, both lookups raise [KeyError]; the node lookup never
    returns [None]. *)
Theorem unknown_index_raises_KeyError w w1 s index :
  get_session eng w = (w1, Ok s) →
  selector_map (cached_state s) !! index = None →
  get_element_by_index eng index w = (w1, Raise (KeyError index))
  ∧ get_dom_element_by_index eng index w = (w1, Raise (KeyError index))
  ∧ ∀ w2 w3, get_dom_element_by_index eng index w2 ≠ (w3, Ok None).
Proof.
  intros Hs Hmiss.
  unfold get_element_by_index, get_dom_element_by_index, get_selector_map.
  unfold bind. rewrite Hs. unfold ret. rewrite Hmiss.
  split; [reflexivity|]. split; [reflexivity|].
  intros w2 w3. destruct (get_session eng w2) as [w4 [s4|e]]; [|done].
  by destruct (selector_map (cached_state s4) !! index).
Qed.

(** *** The last refreshed snapshot across a failing refresh *)

Lemma keeps_ret {A} (a : A) : keeps_current_state (ret (E:=E) a).
Proof. by intros w. Qed.

Lemma keeps_raise {A} e : keeps_current_state (raise (E:=E) (A:=A) e).
Proof. by intros w. Qed.

Lemma keeps_call {A} (c : Cmd A) : keeps_current_state (call eng c).
Proof. intros w. by rewrite call_run. Qed.

Lemma keeps_bind {A B} (m : M E A) (k : A → M E B) :
  keeps_current_state m → (∀ a, keeps_current_state (k a)) →
  keeps_current_state (bind m k).
Proof.
  intros Hm Hk w. unfold bind. specialize (Hm w).
  destruct (m w) as [w' [a|e]]; cbn in *; [|done].
  rewrite <- Hm. apply Hk.
Qed.

Lemma keeps_try_except {A} (m : M E A) (h : exn → M E A) :
  keeps_current_state m → (∀ e, keeps_current_state (h e)) →
  keeps_current_state (try_except m h).
Proof.
  intros Hm Hh w. unfold try_except. specialize (Hm w).
  destruct (m w) as [w' [a|e]]; cbn in *; [done|].
  rewrite <- Hm. apply Hh.
Qed.

Lemma keeps_get_self_session : keeps_current_state (get_self_session (E:=E)).
Proof. by intros w. Qed.

Lemma keeps_set_self_session s : keeps_current_state (set_self_session (E:=E) s).
Proof. by intros w. Qed.

Lemma keeps_set_current_page p : keeps_current_state (set_current_page (E:=E) p).
Proof. by intros w. Qed.

Lemma keeps_context_pages c : keeps_current_state (context_pages eng c).
Proof. by intros w. Qed.

Lemma keeps_read_url p : keeps_current_state (read_url eng p).
Proof. by intros w. Qed.

Create HintDb keeps discriminated.
Hint Resolve keeps_ret keeps_raise keeps_call keeps_bind keeps_try_except
  keeps_get_self_session keeps_set_self_session keeps_set_current_page
  keeps_context_pages keeps_read_url : keeps.

Lemma keeps_get_session : keeps_current_state (get_session eng).
Proof.
  unfold get_session. apply keeps_bind; [auto with keeps|].
  intros [s|]; [auto with keeps|].
  unfold _initialize_session. auto 10 with keeps.
Qed.
Hint Resolve keeps_get_session : keeps.

Lemma keeps_get_current_page : keeps_current_state (get_current_page eng).
Proof. unfold get_current_page. auto with keeps. Qed.
Hint Resolve keeps_get_current_page : keeps.

Lemma keeps_remove_highlights : keeps_current_state (remove_highlights eng).
Proof. unfold remove_highlights. auto 10 with keeps. Qed.

Lemma keeps_take_screenshot : keeps_current_state (take_screenshot eng).
Proof. unfold take_screenshot. auto with keeps. Qed.

Lemma keeps_get_scroll_info p : keeps_current_state (get_scroll_info eng p).
Proof. unfold get_scroll_info. auto 10 with keeps. Qed.

Lemma keeps_tabs_info_from pages : ∀ i, keeps_current_state (tabs_info_from eng i pages).
Proof.
  induction pages as [|p pages IH]; intros i; cbn [tabs_info_from];
    auto 10 with keeps.
Qed.

Lemma keeps_get_tabs_info : keeps_current_state (get_tabs_info eng).
Proof.
  unfold get_tabs_info. apply keeps_bind; [auto with keeps|]. intros s.
  apply keeps_bind; [auto with keeps|]. intros pages. apply keeps_tabs_info_from.
Qed.

Lemma keeps_live_page s : keeps_current_state (live_page eng s).
Proof.
  unfold live_page. apply keeps_try_except; [auto 10 with keeps|]. intros _.
  apply keeps_bind; [auto with keeps|]. intros pages.
  destruct (last pages); auto 10 with keeps.
Qed.

Hint Resolve keeps_remove_highlights keeps_take_screenshot
  keeps_get_scroll_info keeps_get_tabs_info keeps_live_page : keeps.

Lemma on_raise_bind {A B} (m : M E A) (k : A → M E B) :
  keeps_current_state m → (∀ a, keeps_current_state_on_raise (k a)) →
  keeps_current_state_on_raise (bind m k).
Proof.
  intros Hm Hk w w' e. unfold bind. specialize (Hm w).
  destruct (m w) as [w1 [a|e1]]; cbn in Hm.
  - intros Hrun. rewrite <- Hm. by eapply Hk.
  - by intros [= <- _].
Qed.

(** The snapshot is stored by the last step only: when extraction or
    assembly raises, [self.current_state] is what it was. *)
Lemma assemble_state_on_raise page use_vision focus_element :
  keeps_current_state_on_raise
    (assemble_state eng config page use_vision focus_element).
Proof.
  unfold assemble_state.
  apply on_raise_bind; [auto with keeps|]. intros _.
  apply on_raise_bind; [auto with keeps|]. intros content.
  apply on_raise_bind.
  { destruct use_vision; auto 10 with keeps. }
  intros shot.
  apply on_raise_bind; [auto with keeps|]. intros scroll.
  apply on_raise_bind; [auto with keeps|]. intros page_url.
  apply on_raise_bind; [auto with keeps|]. intros page_title.
  apply on_raise_bind; [auto with keeps|]. intros tabs_info.
  intros w w' e. unfold bind, set_self_current_state, ret. discriminate.
Qed.

(** C5.  When the session and a live page are there and extraction or
    assembly of the snapshot raises, the refresh returns the snapshot of
    the last successful refresh if there is one, and raises the same
    exception only if there is none. *)
Theorem update_state_falls_back w w1 w2 w3 s page use_vision focus_element e :
  get_session eng w = (w1, Ok s) →
  live_page eng s w1 = (w2, Ok page) →
  assemble_state eng config page use_vision focus_element w2 = (w3, Raise e) →
  current_state w3 = current_state w
  ∧ _update_state eng config use_vision focus_element w
    = (w3, match current_state w with
           | Some previous => Ok previous
           | None => Raise e
           end).
Proof.
  intros Hs Hp Ha.
  assert (Hkeep : current_state w3 = current_state w).
  { rewrite (assemble_state_on_raise _ _ _ _ _ _ Ha).
    pose proof (keeps_live_page s w1) as H1. rewrite Hp in H1. cbn in H1.
    pose proof (keeps_get_session w) as H0. rewrite Hs in H0. cbn in H0.
    congruence. }
  split; [exact Hkeep|].
  unfold _update_state, bind. rewrite Hs, Hp.
  unfold try_except. rewrite Ha.
  unfold get_self_current_state. rewrite Hkeep.
  by destruct (current_state w).
Qed.

(** *** Element location *)




(** *** Tabs *)

(** C6, amended.  After [close_current_tab] has closed the current page,
    if pages remain and the url of the first of them passes the
    allowlist, the current-page pointer of the session is that first
    page. *)
Theorem close_current_tab_switches_to_first w s e1 first rest :
  session w = Some s →
  exec eng (PageClose (current_page s)) (engine w) = (e1, Done tt) →
  pages_of eng e1 (context s) = first :: rest →
  _is_url_allowed netloc_of config (url_of eng e1 first) = true →
  ∃ w' r,
    close_current_tab eng netloc_of config w = (w', r)
    ∧ current_page <$> session w' = Some first.
Proof.
  intros Hs Hclose Hpages Hallowed.
  unfold close_current_tab. unfold bind at 1.
  rewrite (get_session_active _ _ Hs). cbv beta iota.
  unfold bind at 1. rewrite call_run, Hclose. cbn [fst snd].
  unfold bind at 1. unfold context_pages at 1. cbn [engine]. rewrite Hpages.
  cbv beta iota.
  unfold switch_to_tab. unfold bind at 1.
  erewrite get_session_active by (cbn [session]; exact Hs). cbv beta iota.
  unfold bind at 1. unfold context_pages. cbn [engine]. rewrite Hpages.
  change (0 >=? Z.of_nat (length (first :: rest))) with false. cbv beta iota.
  change (py_index (first :: rest) 0) with (Some first). cbv beta iota.
  unfold bind at 1. unfold read_url. cbn [engine]. rewrite Hallowed.
  cbn [negb]. cbv beta iota.
  unfold bind, set_current_page. rewrite !call_run.
  cbn [fst snd engine session]. rewrite Hs. cbn [fmap option_fmap option_map].
  destruct (exec eng (BringToFront first) e1) as [e2 [[]|msg]]; cbn [fst snd].
  - do 2 eexists. split; reflexivity.
  - do 2 eexists. split; reflexivity.
Qed.

(** *** Navigation *)

Lemma check_navigation_denied page w :
  _is_url_allowed netloc_of config (url_of eng (engine w) page) = false →
  ∃ w' msg,
    _check_and_handle_navigation eng netloc_of config page w
    = (w', Raise (URLNotAllowedError msg))
    ∧ ∀ s, session w = Some s →
           calls w' = calls w ++ [called (GoBack (current_page s))].
Proof.
  intros Hdenied. unfold _check_and_handle_navigation.
  unfold bind at 1. unfold read_url at 1. rewrite Hdenied. cbn [negb].
  unfold bind at 1.
  destruct (session w) as [s|] eqn:Hs.
  - unfold try_except at 1. unfold go_back. unfold bind at 1.
    rewrite (get_current_page_active _ _ Hs).
    unfold try_except. rewrite call_run.
    destruct (exec eng (GoBack (current_page s)) (engine w)) as [e1 [[]|msg]];
      cbn [fst snd]; unfold bind, read_url, raise, ret;
      do 2 eexists; (split; [reflexivity|]); by intros ? [= <-].
  - destruct (try_except_swallow (go_back eng) w) as [w1 ->].
    unfold bind, read_url, raise. do 2 eexists. split; [reflexivity | done].
Qed.

(** The two callers of the post-navigation check pass its error on. *)
Lemma page_load_denied w w1 w2 page :
  _wait_for_stable_network eng w = (w1, Ok tt) →
  get_current_page eng w1 = (w2, Ok page) →
  _is_url_allowed netloc_of config (url_of eng (engine w2) page) = false →
  _wait_for_page_and_frames_load eng netloc_of config w
  = _check_and_handle_navigation eng netloc_of config page w2.
Proof.
  intros Hwait Hpage Hdenied.
  destruct (check_navigation_denied page w2 Hdenied) as (w' & msg & Hcheck & _).
  unfold _wait_for_page_and_frames_load.
  unfold bind at 1. unfold try_except. unfold bind at 1. rewrite Hwait.
  unfold bind at 1. rewrite Hpage, Hcheck. reflexivity.
Qed.

Lemma click_denied w w0 w1 w2 w3 page element_node handle :
  get_current_page eng w = (w0, Ok page) →
  locate_for_click eng config repr element_node w0 = (w1, Ok handle) →
  call eng (Click handle) w1 = (w2, Ok tt) →
  call eng (WaitForLoadState page) w2 = (w3, Ok tt) →
  _is_url_allowed netloc_of config (url_of eng (engine w3) page) = false →
  _click_element_node eng netloc_of config repr element_node w
  = _check_and_handle_navigation eng netloc_of config page w3.
Proof.
  intros Hpage Hlocate Hclick Hwait Hdenied.
  destruct (check_navigation_denied page w3 Hdenied) as (w' & msg & Hcheck & _).
  unfold _click_element_node.
  unfold bind at 1. rewrite Hpage.
  unfold try_except at 1. unfold bind at 1. rewrite Hlocate.
  unfold try_except at 1. unfold click_and_check at 1.
  unfold bind at 1. rewrite Hclick. unfold bind at 1. rewrite Hwait, Hcheck.
  reflexivity.
Qed.

(** The scripted click that follows a failed first attempt. *)
Lemma fallback_click_denied w w0 w1 w2 w3 w4 page element_node handle e :
  get_current_page eng w = (w0, Ok page) →
  locate_for_click eng config repr element_node w0 = (w1, Ok handle) →
  click_and_check eng netloc_of config (call eng (Click handle)) page w1
  = (w2, Raise e) →
  is_url_not_allowed e = false →
  call eng (EvaluateClick page handle) w2 = (w3, Ok tt) →
  call eng (WaitForLoadState page) w3 = (w4, Ok tt) →
  _is_url_allowed netloc_of config (url_of eng (engine w4) page) = false →
  _click_element_node eng netloc_of config repr element_node w
  = _check_and_handle_navigation eng netloc_of config page w4.
Proof.
  intros Hpage Hlocate Hfirst He Hclick Hwait Hdenied.
  destruct (check_navigation_denied page w4 Hdenied) as (w' & msg & Hcheck & _).
  unfold _click_element_node.
  unfold bind at 1. rewrite Hpage.
  unfold try_except at 1. unfold bind at 1. rewrite Hlocate.
  unfold try_except at 1. rewrite Hfirst, He.
  unfold try_except at 1. unfold click_and_check at 1.
  unfold bind at 1. rewrite Hclick. unfold bind at 1. rewrite Hwait, Hcheck.
  reflexivity.
Qed.

(** A first click that succeeds, a wait that fails and a scripted click
    that fails: the allowlist is not consulted. *)
Lemma click_without_check w w0 w1 w2 w3 w4 page element_node handle m1 m2 :
  get_current_page eng w = (w0, Ok page) →
  locate_for_click eng config repr element_node w0 = (w1, Ok handle) →
  call eng (Click handle) w1 = (w2, Ok tt) →
  call eng (WaitForLoadState page) w2 = (w3, Raise (EngineError m1)) →
  call eng (EvaluateClick page handle) w3 = (w4, Raise (EngineError m2)) →
  _click_element_node eng netloc_of config repr element_node w
  = (w4, Raise (Exception ("Failed to click element: " +:+ repr element_node
                           +:+ ". Error: " +:+ "Failed to click element: "
                           +:+ m2))).
Proof.
  intros Hpage Hlocate Hclick Hwait Hscript.
  unfold _click_element_node.
  unfold bind at 1. rewrite Hpage.
  unfold try_except at 1. unfold bind at 1. rewrite Hlocate.
  unfold try_except at 1. unfold click_and_check at 1.
  unfold bind at 1. rewrite Hclick. unfold bind at 1. rewrite Hwait.
  cbn [is_url_not_allowed].
  unfold try_except at 1. unfold click_and_check at 1.
  unfold bind at 1. rewrite Hscript. reflexivity.
Qed.

(** [create_new_tab] up to the settle wait that follows its [goto]. *)
Lemma create_new_tab_goes w s target e1 new_page e2 e3 :
  truthy (Some target) = true →
  _is_url_allowed netloc_of config target = true →
  session w = Some s →
  exec eng (NewPage (context s)) (engine w) = (e1, Done new_page) →
  exec eng (WaitForLoadState new_page) e1 = (e2, Done tt) →
  exec eng (Goto new_page target) e2 = (e3, Done tt) →
  create_new_tab eng netloc_of config (Some target) w
  = _wait_for_page_and_frames_load eng netloc_of config
      {| engine := e3;
         session := Some {| context := context s; current_page := new_page;
                            cached_state := cached_state s |};
         current_state := current_state w;
         calls := calls w ++ [called (NewPage (context s));
                              called (WaitForLoadState new_page);
                              called (Goto new_page target)] |}.
Proof.
  intros Htruthy Hallowed Hs Hnew Hload Hgoto. unfold create_new_tab.
  rewrite Htruthy. change (default EmptyString (Some target)) with target.
  rewrite Hallowed. cbn [negb andb].
  unfold bind at 1. rewrite (get_session_active _ _ Hs).
  unfold bind at 1. rewrite call_run, Hnew. cbn [fst snd].
  unfold bind at 1. unfold set_current_page at 1.
  cbn [engine session current_state calls]. rewrite Hs.
  cbn [fmap option_fmap option_map].
  unfold bind at 1. rewrite call_run.
  cbn [engine session current_state calls]. rewrite Hload. cbn [fst snd].
  unfold bind at 1.
  erewrite get_current_page_active by reflexivity. cbn [current_page].
  unfold bind at 1. rewrite call_run.
  cbn [engine session current_state calls]. rewrite Hgoto. cbn [fst snd].
  by rewrite <- !app_assoc.
Qed.

(** C3, amended.  A violation found before navigating raises the generic
    [BrowserError] and leaves engine, session and call log as they were: by
    [navigate_to] and by [create_new_tab] with a url in every state, by
    [switch_to_tab] for an index in range once the session exists.  A
    violation found after navigating, by [_check_and_handle_navigation],
    raises the dedicated [URLNotAllowedError] after one best-effort
    go-back on the current page.  [_click_element_node] runs that check,
    and passes its error on, once a click and the wait for the load state
    that follows it have succeeded: the click on the element, or the
    scripted click after a first attempt that failed otherwise.  A first
    click that succeeds, followed by a failing wait and a failing scripted
    click, raises a generic exception and the allowlist is not consulted.
    [create_new_tab] runs the check after its [goto] when the settle wait
    succeeds; when that wait fails it returns and the allowlist is not
    consulted. *)
Theorem navigation_guard :
  (∀ w target,
     _is_url_allowed netloc_of config target = false →
     navigate_to eng netloc_of config target w
     = (w, Raise (BrowserError ("Navigation to non-allowed URL: " +:+ target))))
  ∧ (∀ w target,
       truthy (Some target) = true →
       _is_url_allowed netloc_of config target = false →
       create_new_tab eng netloc_of config (Some target) w
       = (w, Raise (BrowserError
                      ("Cannot create new tab with non-allowed URL: " +:+ target))))
  ∧ (∀ w s page_id page,
       session w = Some s →
       page_id < Z.of_nat (length (pages_of eng (engine w) (context s))) →
       py_index (pages_of eng (engine w) (context s)) page_id = Some page →
       _is_url_allowed netloc_of config (url_of eng (engine w) page) = false →
       switch_to_tab eng netloc_of config page_id w
       = (w, Raise (BrowserError
                      ("Cannot switch to tab with non-allowed URL: "
                       +:+ url_of eng (engine w) page))))
  ∧ (∀ w page,
       _is_url_allowed netloc_of config (url_of eng (engine w) page) = false →
       ∃ w' msg,
         _check_and_handle_navigation eng netloc_of config page w
         = (w', Raise (URLNotAllowedError msg))
         ∧ ∀ s, session w = Some s →
                calls w' = calls w ++ [called (GoBack (current_page s))])
  ∧ (∀ w w0 w1 w2 w3 page element_node handle,
       get_current_page eng w = (w0, Ok page) →
       locate_for_click eng config repr element_node w0 = (w1, Ok handle) →
       call eng (Click handle) w1 = (w2, Ok tt) →
       call eng (WaitForLoadState page) w2 = (w3, Ok tt) →
       _is_url_allowed netloc_of config (url_of eng (engine w3) page) = false →
       ∃ w' msg,
         _click_element_node eng netloc_of config repr element_node w
         = (w', Raise (URLNotAllowedError msg))
         ∧ ∀ s, session w3 = Some s →
                calls w' = calls w3 ++ [called (GoBack (current_page s))])
  ∧ (∀ w w0 w1 w2 w3 w4 page element_node handle e,
       get_current_page eng w = (w0, Ok page) →
       locate_for_click eng config repr element_node w0 = (w1, Ok handle) →
       click_and_check eng netloc_of config (call eng (Click handle)) page w1
       = (w2, Raise e) →
       is_url_not_allowed e = false →
       call eng (EvaluateClick page handle) w2 = (w3, Ok tt) →
       call eng (WaitForLoadState page) w3 = (w4, Ok tt) →
       _is_url_allowed netloc_of config (url_of eng (engine w4) page) = false →
       ∃ w' msg,
         _click_element_node eng netloc_of config repr element_node w
         = (w', Raise (URLNotAllowedError msg))
         ∧ ∀ s, session w4 = Some s →
                calls w' = calls w4 ++ [called (GoBack (current_page s))])
  ∧ (∀ w w0 w1 w2 w3 w4 page element_node handle m1 m2,
       get_current_page eng w = (w0, Ok page) →
       locate_for_click eng config repr element_node w0 = (w1, Ok handle) →
       call eng (Click handle) w1 = (w2, Ok tt) →
       call eng (WaitForLoadState page) w2 = (w3, Raise (EngineError m1)) →
       call eng (EvaluateClick page handle) w3 = (w4, Raise (EngineError m2)) →
       _click_element_node eng netloc_of config repr element_node w
       = (w4, Raise (Exception
                       ("Failed to click element: " +:+ repr element_node
                        +:+ ". Error: " +:+ "Failed to click element: " +:+ m2)))
       ∧ calls w4 = calls w1 ++ [called (Click handle);
                                 called (WaitForLoadState page);
                                 called (EvaluateClick page handle)])
  ∧ (∀ w s target e1 new_page e2 e3 e4,
       truthy (Some target) = true →
       _is_url_allowed netloc_of config target = true →
       session w = Some s →
       exec eng (NewPage (context s)) (engine w) = (e1, Done new_page) →
       exec eng (WaitForLoadState new_page) e1 = (e2, Done tt) →
       exec eng (Goto new_page target) e2 = (e3, Done tt) →
       (exec eng (WaitForStableNetwork new_page) e3 = (e4, Done tt) →
        _is_url_allowed netloc_of config (url_of eng e4 new_page) = false →
        ∃ w' msg,
          create_new_tab eng netloc_of config (Some target) w
          = (w', Raise (URLNotAllowedError msg))
          ∧ calls w' = calls w ++ [called (NewPage (context s));
                                   called (WaitForLoadState new_page);
                                   called (Goto new_page target);
                                   called (WaitForStableNetwork new_page);
                                   called (GoBack new_page)])
       ∧ (∀ m, exec eng (WaitForStableNetwork new_page) e3 = (e4, Failed m) →
          ∃ w',
            create_new_tab eng netloc_of config (Some target) w = (w', Ok tt)
            ∧ calls w' = calls w ++ [called (NewPage (context s));
                                     called (WaitForLoadState new_page);
                                     called (Goto new_page target);
                                     called (WaitForStableNetwork new_page)])).
Proof.
  split; [|split; [|split; [|split; [|split; [|split; [|split]]]]]].
  - intros w target Hdenied. unfold navigate_to. by rewrite Hdenied.
  - intros w target Htruthy Hdenied. unfold create_new_tab.
    rewrite Htruthy. change (default EmptyString (Some target)) with target.
    by rewrite Hdenied.
  - intros w s page_id page Hs Hlt Hidx Hdenied. unfold switch_to_tab.
    unfold bind at 1. rewrite (get_session_active _ _ Hs).
    unfold bind at 1. unfold context_pages.
    destruct (page_id >=? _) eqn:Hge; [lia|].
    rewrite Hidx. unfold bind, read_url. by rewrite Hdenied.
  - intros w page. apply check_navigation_denied.
  - intros w w0 w1 w2 w3 page element_node handle
      Hpage Hlocate Hclick Hwait Hdenied.
    rewrite (click_denied _ _ _ _ _ _ _ _ Hpage Hlocate Hclick Hwait Hdenied).
    by apply check_navigation_denied.
  - intros w w0 w1 w2 w3 w4 page element_node handle e
      Hpage Hlocate Hfirst He Hclick Hwait Hdenied.
    rewrite (fallback_click_denied _ _ _ _ _ _ _ _ _ _
               Hpage Hlocate Hfirst He Hclick Hwait Hdenied).
    by apply check_navigation_denied.
  - intros w w0 w1 w2 w3 w4 page element_node handle m1 m2
      Hpage Hlocate Hclick Hwait Hscript.
    split; [by eapply click_without_check|].
    rewrite call_run in Hclick, Hwait, Hscript.
    destruct (exec eng (Click handle) (engine w1)) as [e2 [[]|]]; [|done].
    injection Hclick as <-. cbn [engine calls fst snd] in *.
    destruct (exec eng (WaitForLoadState page) e2) as [e3 [|]]; [done|].
    injection Hwait as <- _. cbn [engine calls fst snd] in *.
    destruct (exec eng (EvaluateClick page handle) e3) as [e4 [|]]; [done|].
    injection Hscript as <- _. cbn [calls]. by rewrite <- !app_assoc.
  - intros w s target e1 new_page e2 e3 e4 Htruthy Hallowed Hs Hnew Hload Hgoto.
    rewrite (create_new_tab_goes _ _ _ _ _ _ _
               Htruthy Hallowed Hs Hnew Hload Hgoto).
    set (w3 := {| engine := e3 |}).
    assert (Hcurrent : ∀ w', session w' = session w3 →
                             get_current_page eng w' = (w', Ok new_page)).
    { intros w' Hw'. by erewrite get_current_page_active by exact Hw'. }
    split.
    + intros Hsettle Hdenied.
      set (w4 := {| engine := e4; session := session w3;
                    current_state := current_state w3;
                    calls := calls w3 ++ [called (WaitForStableNetwork new_page)] |}).
      assert (Hwait : _wait_for_stable_network eng w3 = (w4, Ok tt)).
      { unfold _wait_for_stable_network, bind.
        rewrite (Hcurrent w3 eq_refl), call_run. change (engine w3) with e3.
        by rewrite Hsettle. }
      rewrite (page_load_denied _ _ _ _ Hwait (Hcurrent w4 eq_refl) Hdenied).
      destruct (check_navigation_denied new_page w4 Hdenied)
        as (w' & msg & Hcheck & Hcalls).
      exists w', msg. split; [exact Hcheck|].
      rewrite (Hcalls _ eq_refl). unfold w4, w3. cbn [calls current_page].
      by rewrite <- !app_assoc.
    + intros m Hsettle.
      unfold _wait_for_page_and_frames_load.
      unfold bind at 1. unfold try_except. unfold bind at 1.
      unfold _wait_for_stable_network, bind.
      rewrite (Hcurrent w3 eq_refl), call_run. change (engine w3) with e3.
      rewrite Hsettle.
      cbn [fst snd is_url_not_allowed]. unfold ret, sleep.
      eexists. split; [reflexivity|]. unfold w3. cbn [calls].
      by rewrite <- !app_assoc.
Qed.

End BrowserContextProperties.

(** ** The properties on the sample engine *)

(** C3, as stated, fails: with [example.com] alone allowed, [navigate_to]
    on another host raises the generic [BrowserError]. *)
Lemma navigate_to_raises_generic_error :
  ¬ navigate_raises_dedicated Toy.eng Toy.netloc_of restricted.
Proof.
  intros H.
  destruct (H (Toy.world mixed_tabs 1%positive None) "https://evil.com/")
    as (w' & msg & Hrun).
  - vm_compute. reflexivity.
  - vm_compute in Hrun. discriminate Hrun.
Qed.

Lemma navigation_guard_witness :
  let w := Toy.world mixed_tabs 1%positive None in
  let describe := fun element => tag_name element in
  let redirecting := Toy.redirecting "https://evil.com/" in
  navigate_to Toy.eng Toy.netloc_of restricted "https://evil.com/" w
  = (w, Raise (BrowserError "Navigation to non-allowed URL: https://evil.com/"))
  ∧ create_new_tab Toy.eng Toy.netloc_of restricted (Some "https://evil.com/") w
    = (w, Raise (BrowserError
                   "Cannot create new tab with non-allowed URL: https://evil.com/"))
  ∧ switch_to_tab Toy.eng Toy.netloc_of restricted 1 w
    = (w, Raise (BrowserError
                   "Cannot switch to tab with non-allowed URL: https://evil.com/"))
  ∧ (∃ w' msg,
       _check_and_handle_navigation Toy.eng Toy.netloc_of restricted 2%positive w
       = (w', Raise (URLNotAllowedError msg))
       ∧ calls w' = [called (GoBack 1%positive)])
  ∧ (∃ w' msg,
       _click_element_node Toy.eng Toy.netloc_of restricted describe plain_link
         (Toy.world evil_first 1%positive None)
       = (w', Raise (URLNotAllowedError msg)))
  ∧ (∃ w' msg,
       _click_element_node Toy.eng Toy.netloc_of restricted describe plain_link
         (Toy.world first_click_fails 1%positive None)
       = (w', Raise (URLNotAllowedError msg)))
  ∧ (∃ w',
       _click_element_node Toy.eng Toy.netloc_of restricted describe plain_link
         (Toy.world wait_and_script_fail 1%positive None)
       = (w', Raise (Exception
                       "Failed to click element: a. Error: Failed to click element: evaluate_click"))
       ∧ Toy.address (engine w') 1%positive = "https://evil.com/")
  ∧ (∃ w' msg,
       create_new_tab redirecting Toy.netloc_of restricted
         (Some "https://example.com/new") (Toy.world single_tab 1%positive None)
       = (w', Raise (URLNotAllowedError msg))
       ∧ calls w' = [called (NewPage 1%positive);
                     called (WaitForLoadState 2%positive);
                     called (Goto 2%positive "https://example.com/new");
                     called (WaitForStableNetwork 2%positive);
                     called (GoBack 2%positive)])
  ∧ (∃ w',
       create_new_tab redirecting Toy.netloc_of restricted
         (Some "https://example.com/new") (Toy.world settle_fails 1%positive None)
       = (w', Ok tt)
       ∧ Toy.address (engine w') 2%positive = "https://evil.com/").
Proof.
  intros w describe redirecting.
  destruct (navigation_guard Toy.eng Toy.netloc_of restricted describe)
    as (Hnavigate & Hcreate & Hswitch & Hcheck & Hclick & Hscript & Hskip & _).
  destruct (navigation_guard redirecting Toy.netloc_of restricted describe)
    as (_ & _ & _ & _ & _ & _ & _ & Htab).
  split; [apply Hnavigate; vm_compute; reflexivity|].
  split; [apply Hcreate; vm_compute; reflexivity|].
  split; [apply (Hswitch w _ 1 2%positive eq_refl); vm_compute; reflexivity|].
  split.
  { destruct (Hcheck w 2%positive) as (w' & msg & Hrun & Hcalls);
      [vm_compute; reflexivity|].
    exists w', msg. split; [exact Hrun|]. exact (Hcalls _ eq_refl). }
  split.
  { edestruct Hclick with (w := Toy.world evil_first 1%positive None)
                           (element_node := plain_link)
      as (w' & msg & Hrun & _); try (vm_compute; reflexivity).
    by exists w', msg. }
  split.
  { edestruct Hscript with (w := Toy.world first_click_fails 1%positive None)
                            (element_node := plain_link)
      as (w' & msg & Hrun & _); try (vm_compute; reflexivity).
    by exists w', msg. }
  split.
  { edestruct Hskip with (w := Toy.world wait_and_script_fail 1%positive None)
                          (element_node := plain_link) as [Hrun _];
      try (vm_compute; reflexivity).
    eexists. split; [exact Hrun | reflexivity]. }
  split.
  { edestruct Htab with (w := Toy.world single_tab 1%positive None)
                         (target := "https://example.com/new") as [Hdenied _];
      try (vm_compute; reflexivity).
    edestruct Hdenied as (w' & msg & Hrun & Hcalls);
      try (vm_compute; reflexivity).
    by exists w', msg. }
  edestruct Htab with (w := Toy.world settle_fails 1%positive None)
                       (target := "https://example.com/new") as [_ Hfailed];
    try (vm_compute; reflexivity).
  edestruct Hfailed as (w' & Hrun & _); [vm_compute; reflexivity|].
  exists w'. split; [exact Hrun|].
  vm_compute in Hrun. by injection Hrun as <-.
Defined.


Lemma update_state_falls_back_witness :
  ∃ w3,
    _update_state Toy.eng restricted false (-1)
      (Toy.world extraction_fails 1%positive (Some earlier_snapshot))
    = (w3, Ok earlier_snapshot).
Proof.
  eexists.
  refine (proj2 (update_state_falls_back Toy.eng restricted
                   (Toy.world extraction_fails 1%positive (Some earlier_snapshot))
                   _ _ _ _ _ false (-1) _ _ _ _)); reflexivity.
Defined.

(** C6, as stated, fails: with three tabs and the second one current,
    closing it leaves the first and the third, and the pointer goes to the
    first. *)
Lemma close_current_tab_not_last :
  ¬ closes_onto_last Toy.eng Toy.netloc_of restricted.
Proof.
  intros H.
  pose (w := Toy.world three_tabs 2%positive None).
  pose (run := close_current_tab Toy.eng Toy.netloc_of restricted w).
  specialize (H w run.1 run.2
                {| context := 1%positive; current_page := 1%positive;
                   cached_state := _get_initial_state "https://example.com/b" |}).
  assert (Hlast : last (pages_of Toy.eng (engine run.1) 1%positive)
                  = Some 1%positive).
  { apply H.
    - apply surjective_pairing.
    - vm_compute. reflexivity.
    - vm_compute. discriminate. }
  vm_compute in Hlast. discriminate Hlast.
Qed.

Lemma close_current_tab_switches_to_first_witness :
  ∃ w' r,
    close_current_tab Toy.eng Toy.netloc_of restricted
      (Toy.world three_tabs 2%positive None) = (w', r)
    ∧ current_page <$> session w' = Some 1%positive.
Proof.
  eapply (close_current_tab_switches_to_first Toy.eng Toy.netloc_of restricted
            (Toy.world three_tabs 2%positive None) _ _ 1%positive [3%positive]);
    reflexivity.
Defined.

Lemma unknown_index_raises_KeyError_witness :
  let w := Toy.world three_tabs 2%positive None in
  get_element_by_index Toy.eng 7 w = (w, Raise (KeyError 7))
  ∧ get_dom_element_by_index Toy.eng 7 w = (w, Raise (KeyError 7)).
Proof.
  intros w.
  destruct (unknown_index_raises_KeyError Toy.eng w w
              {| context := 1%positive; current_page := 2%positive;
                 cached_state := _get_initial_state "https://example.com/b" |}
              7 eq_refl eq_refl) as (Hhandle & Hnode & _).
  by split.
Defined.

(** [close] on an engine that fails to give cookies, to stop tracing and
    to close the context. *)
Lemma close_absorbs_failures :
  let config := {| cookies_file := Some "cookies.json"; trace_path := Some "traces";
                   highlight_elements := true; viewport_expansion := 500;
                   allowed_domains := None |} in
  let e := Toy.state [(1%positive, "https://example.com/")] []
             ["cookies"; "tracing_stop"; "context_close"] in
  let run := close Toy.eng config "ctx" (Toy.world e 1%positive None) in
  run.2 = Ok tt
  ∧ session run.1 = None
  ∧ calls run.1 = [called (GetCookies 1%positive);
                   called (TracingStop 1%positive "traces/ctx.zip");
                   called (ContextClose 1%positive)].
Proof. repeat split; vm_compute; reflexivity. Qed.

(** * Further properties *)

(** ** The allowlist guard on network locations *)

Lemma lower_app s t : Py.lower (s +:+ t) = Py.lower s +:+ Py.lower t.
Proof.
  induction s as [|a s IH]; [reflexivity|].
  rewrite app_cons. cbn [Py.lower]. by rewrite IH, app_cons.
Qed.

Lemma lower_char_colon c :
  Ascii.eqb ":" (Py.lower_char c) = Ascii.eqb ":" c.
Proof. destruct c as [[] [] [] [] [] [] [] []]; reflexivity. Qed.

Lemma mem_colon_lower s : Py.mem_char ":" (Py.lower s) = Py.mem_char ":" s.
Proof.
  unfold Py.mem_char. induction s as [|a s IH]; [reflexivity|].
  cbn [Py.lower Py.any_char]. by rewrite lower_char_colon, IH.
Qed.

Lemma mem_char_app c s t :
  Py.mem_char c (s +:+ t) = Py.mem_char c s || Py.mem_char c t.
Proof.
  unfold Py.mem_char. induction s as [|a s IH]; [reflexivity|].
  rewrite app_cons. cbn [Py.any_char]. by rewrite IH, orb_assoc.
Qed.

Lemma split_on_head c s t :
  Py.mem_char c s = false →
  Py.first_field c (s +:+ String c t) = s.
Proof.
  unfold Py.first_field, Py.mem_char.
  induction s as [|a s IH]; intros Hno.
  - change (EmptyString +:+ String c t) with (String c t).
    cbn [Py.split_on]. by rewrite Ascii.eqb_refl.
  - cbn [Py.any_char] in Hno. apply orb_false_iff in Hno as [Ha Hs].
    rewrite app_cons. cbn [Py.split_on].
    rewrite Ascii.eqb_sym, Ha. specialize (IH Hs).
    destruct (Py.split_on c (s +:+ String c t)); [by subst|]. by subst.
Qed.

Lemma checked_domain_plain host :
  Py.mem_char ":" host = false → checked_domain host = Py.lower host.
Proof. intros Hno. unfold checked_domain. by rewrite mem_colon_lower, Hno. Qed.

Lemma checked_domain_port host port :
  Py.mem_char ":" host = false →
  checked_domain (host +:+ ":" +:+ port) = Py.lower host.
Proof.
  intros Hno. unfold checked_domain.
  rewrite mem_colon_lower, mem_char_app, Hno.
  change (":" +:+ port) with (String ":" port).
  cbn [orb Py.mem_char Py.any_char]. rewrite Ascii.eqb_refl. cbn [orb].
  rewrite lower_app. change (Py.lower (String ":" port)) with (String ":" (Py.lower port)).
  apply split_on_head. by rewrite mem_colon_lower.
Qed.

Section AllowlistMore.

Variable netloc_of : string → result string.

(** X1.  With a non-empty allowlist and a url that parses, the guard
    allows the url exactly when its network location, lower-cased and cut
    at the first colon, equals a lower-cased entry or ends with a dot
    followed by it. *)
Theorem allowlist_rule config target netloc d ds :
  allowed_domains config = Some (d :: ds) →
  netloc_of target = Ok netloc →
  _is_url_allowed netloc_of config target = true ↔
  ∃ allowed_domain, In allowed_domain (d :: ds) ∧
    (checked_domain netloc = Py.lower allowed_domain
     ∨ ∃ pre, checked_domain netloc = pre +:+ "." +:+ Py.lower allowed_domain).
Proof. apply is_url_allowed_netloc. Qed.

(** X2.  A port does not matter: two urls whose network locations are a
    colon-free host, once with a port and once without, get the same
    answer. *)
Theorem allowlist_ignores_port config with_port without_port host port :
  Py.mem_char ":" host = false →
  netloc_of with_port = Ok (host +:+ ":" +:+ port) →
  netloc_of without_port = Ok host →
  _is_url_allowed netloc_of config with_port
  = _is_url_allowed netloc_of config without_port.
Proof.
  intros Hno Hp Hq. unfold _is_url_allowed. rewrite Hp, Hq.
  by rewrite (checked_domain_port _ _ Hno), (checked_domain_plain _ Hno).
Qed.

(** Letter case does not matter, neither in the url nor in the
    entries: network locations and allowlists that agree after
    lower-casing get the same answer. *)
Theorem allowlist_ignores_case config1 config2 target1 target2
    netloc1 netloc2 entries1 entries2 :
  allowed_domains config1 = Some entries1 →
  allowed_domains config2 = Some entries2 →
  Py.lower <$> entries1 = Py.lower <$> entries2 →
  netloc_of target1 = Ok netloc1 →
  netloc_of target2 = Ok netloc2 →
  Py.lower netloc1 = Py.lower netloc2 →
  _is_url_allowed netloc_of config1 target1
  = _is_url_allowed netloc_of config2 target2.
Proof.
  intros H1 H2 Hentries Hn1 Hn2 Hlower.
  unfold _is_url_allowed. rewrite H1, H2, Hn1, Hn2.
  assert (Hdomain : checked_domain netloc1 = checked_domain netloc2)
    by (unfold checked_domain; by rewrite Hlower).
  rewrite Hdomain. clear H1 H2.
  assert (Hex : ∀ l, existsb (domain_matches (checked_domain netloc2)) l
                     = existsb (fun a => String.eqb (checked_domain netloc2) a
                                         || Py.endswith (checked_domain netloc2)
                                              ("." +:+ a)) (Py.lower <$> l)).
  { induction l as [|a l IH]; [reflexivity|]. cbn. by rewrite IH. }
  destruct entries1 as [|a1 l1], entries2 as [|a2 l2]; try done.
  by rewrite (Hex (a1 :: l1)), (Hex (a2 :: l2)), Hentries.
Qed.

(** X3.  Subdomains of an allowed host are allowed: if a colon-free
    network location passes a non-empty allowlist, so does the same
    location with a colon-free label and a dot in front. *)
Theorem allowlist_accepts_subdomains config target sub host label d ds :
  allowed_domains config = Some (d :: ds) →
  Py.mem_char ":" host = false →
  Py.mem_char ":" label = false →
  netloc_of target = Ok host →
  netloc_of sub = Ok (label +:+ "." +:+ host) →
  _is_url_allowed netloc_of config target = true →
  _is_url_allowed netloc_of config sub = true.
Proof.
  intros Hcfg Hhost Hlabel Hparse Hsub.
  rewrite (is_url_allowed_netloc _ _ _ _ _ _ Hcfg Hparse).
  rewrite (is_url_allowed_netloc _ _ _ _ _ _ Hcfg Hsub).
  assert (Hno : Py.mem_char ":" (label +:+ "." +:+ host) = false).
  { rewrite !mem_char_app, Hlabel, Hhost. reflexivity. }
  rewrite (checked_domain_plain _ Hhost), (checked_domain_plain _ Hno).
  rewrite !lower_app. change (Py.lower ".") with ".".
  intros (a & Hin & [Heq | [pre Heq]]); exists a; (split; [done|]); right.
  - exists (Py.lower label). by rewrite Heq.
  - exists (Py.lower label +:+ "." +:+ pre). rewrite Heq.
    by rewrite !app_assoc_str.
Qed.

End AllowlistMore.

Lemma allowlist_rule_witness :
  _is_url_allowed Toy.netloc_of restricted "https://docs.example.com:8443/x" = true
  ↔ ∃ allowed_domain, In allowed_domain ["example.com"] ∧
      (checked_domain "docs.example.com:8443" = Py.lower allowed_domain
       ∨ ∃ pre, checked_domain "docs.example.com:8443"
                = pre +:+ "." +:+ Py.lower allowed_domain).
Proof.
  apply (allowlist_rule Toy.netloc_of restricted
           "https://docs.example.com:8443/x" "docs.example.com:8443"
           "example.com" []); reflexivity.
Defined.

Lemma allowlist_ignores_port_witness :
  _is_url_allowed Toy.netloc_of restricted "https://example.com:8443/x"
  = _is_url_allowed Toy.netloc_of restricted "https://example.com/x".
Proof.
  apply (allowlist_ignores_port Toy.netloc_of restricted _ _ "example.com" "8443");
    reflexivity.
Defined.

Lemma allowlist_ignores_case_witness :
  _is_url_allowed Toy.netloc_of restricted "https://EXAMPLE.com/"
  = _is_url_allowed Toy.netloc_of (Toy.config (Some ["Example.COM"]))
      "https://example.com/".
Proof.
  apply (allowlist_ignores_case Toy.netloc_of restricted
           (Toy.config (Some ["Example.COM"])) _ _ "EXAMPLE.com" "example.com"
           ["example.com"] ["Example.COM"]); reflexivity.
Defined.

Lemma allowlist_accepts_subdomains_witness :
  _is_url_allowed Toy.netloc_of restricted "https://docs.example.com/" = true.
Proof.
  apply (allowlist_accepts_subdomains Toy.netloc_of restricted
           "https://example.com/" "https://docs.example.com/"
           "example.com" "docs" "example.com" []); reflexivity.
Defined.

(** ** The pending set under the two handlers *)

Lemma on_response_pending {time} (now : time) response st st' :
  on_response now response st = Ok st' →
  pending_requests st'
  = pending_requests st ∖ {[request_id (response_request response)]}.
Proof.
  unfold on_response. cbv zeta.
  set (streaming := existsb _ STREAMING_CONTENT_TYPES).
  set (relevant := existsb _ RELEVANT_CONTENT_TYPES).
  case_bool_decide as Hin; cbn [negb].
  2: { intros [= <-]. set_solver. }
  destruct streaming; [by intros [= <-]|].
  destruct relevant; cbn [negb]; [|by intros [= <-]].
  destruct (response_headers response !! "content-length") as [[|c cl]|].
  - by intros [= <-].
  - destruct (py_int (String c cl)) as [n|e]; [|done].
    destruct (n >? MAX_CONTENT_LENGTH); by intros [= <-].
  - by intros [= <-].
Qed.

Lemma handle_event_pending {time} (now : time) event st st' :
  handle_event now event st = Ok st' →
  pending_requests st'
  = match event with
    | RequestEvent request =>
        if request_filtered request then pending_requests st
        else {[request_id request]} ∪ pending_requests st
    | ResponseEvent response =>
        pending_requests st ∖ {[request_id (response_request response)]}
    end.
Proof.
  destruct event as [request | response]; cbn [handle_event].
  - intros [= <-]. unfold on_request. by destruct (request_filtered request).
  - apply on_response_pending.
Qed.

Lemma run_events_app {time} (events1 events2 : list (time * NetworkEvent)) st :
  run_events (events1 ++ events2) st
  = match run_events events1 st with
    | Ok st1 => run_events events2 st1
    | Raise e => Raise e
    end.
Proof.
  revert st. induction events1 as [|[now event] events1 IH]; intros st;
    [reflexivity|].
  cbn [app run_events]. by destruct (handle_event now event st).
Qed.

Lemma stays_cleared {time} (events : list (time * NetworkEvent)) id st st' :
  forallb (fun entry => negb (is_request_of id entry.2)) events = true →
  id ∉ pending_requests st →
  run_events events st = Ok st' →
  id ∉ pending_requests st'.
Proof.
  revert st. induction events as [|[now event] events IH]; intros st Hnone Hout.
  - by intros [= <-].
  - cbn [forallb] in Hnone. apply andb_true_iff in Hnone as [Hev Hrest].
    cbn [run_events].
    destruct (handle_event now event st) as [st1|e] eqn:Hstep; [|done].
    apply IH; [done|]. rewrite (handle_event_pending _ _ _ _ Hstep).
    destruct event as [request | response]; cbn in Hev |- *.
    + apply negb_true_iff, Pos.eqb_neq in Hev.
      destruct (request_filtered request); set_solver.
    + set_solver.
Qed.

Lemma stays_pending {time} (events : list (time * NetworkEvent)) id st st' :
  forallb (fun entry => negb (is_response_of id entry.2)) events = true →
  id ∈ pending_requests st →
  run_events events st = Ok st' →
  id ∈ pending_requests st'.
Proof.
  revert st. induction events as [|[now event] events IH]; intros st Hnone Hin.
  - by intros [= <-].
  - cbn [forallb] in Hnone. apply andb_true_iff in Hnone as [Hev Hrest].
    cbn [run_events].
    destruct (handle_event now event st) as [st1|e] eqn:Hstep; [|done].
    apply IH; [done|]. rewrite (handle_event_pending _ _ _ _ Hstep).
    destruct event as [request | response]; cbn in Hev |- *.
    + destruct (request_filtered request); set_solver.
    + apply negb_true_iff, Pos.eqb_neq in Hev. set_solver.
Qed.

(** X4.  A response handled without exception removes its own request
    from the pending set and touches no other member. *)
Theorem response_removes_own_request {time} (now : time) response st st' :
  on_response now response st = Ok st' →
  pending_requests st'
  = pending_requests st ∖ {[request_id (response_request response)]}.
Proof. apply on_response_pending. Qed.

(** X5.  A pending request whose response has a relevant, non-streaming
    content type and a non-empty [content-length] that [int] rejects makes
    the response handler raise that [ValueError]; nothing is removed.  A
    length of more than 4300 digits is among those that [int] rejects. *)
Theorem malformed_length_raises {time} (now : time) response (st : Settle time)
    length :
  request_id (response_request response) ∈ pending_requests st →
  response_filtered response = false →
  response_headers response !! "content-length" = Some length →
  length ≠ EmptyString →
  (∀ e, py_int length = Raise e → on_response now response st = Raise e)
  ∧ (Py.all_chars Py.is_ascii_digit length = true →
     INT_MAX_STR_DIGITS < Z.of_nat (String.length length) →
     ∃ msg, on_response now response st = Raise (ValueError msg)).
Proof.
  intros Hin Hfiltered Hlen Hne.
  assert (Hraise : ∀ e, py_int length = Raise e →
                        on_response now response st = Raise e).
  { intros e Hint.
    unfold response_filtered in Hfiltered. unfold on_response. cbv zeta.
    rewrite bool_decide_eq_true_2 by exact Hin. cbn [negb].
    apply orb_false_iff in Hfiltered as [Hfiltered _].
    apply orb_false_iff in Hfiltered as [-> Hrelevant]. rewrite Hrelevant.
    rewrite Hlen. destruct length as [|c cl]; [done|]. by rewrite Hint. }
  split; [exact Hraise|].
  intros Hall Hlong.
  destruct (int_literal_digits length length Hne Hall) as [_ Hlimit].
  destruct (Hlimit Hlong) as [msg Hmsg].
  exists msg. apply Hraise. by rewrite (py_int_digits _ Hne Hall).
Qed.

(** X6.  Over a run of events in which no handler raises: once a response
    for a request has been handled, the request is not pending at the end
    unless a later request event carries it again. *)
Theorem answered_request_not_pending {time}
    (before after : list (time * NetworkEvent)) now response st st' :
  forallb (fun entry =>
             negb (is_request_of (request_id (response_request response)) entry.2))
    after = true →
  run_events (before ++ (now, ResponseEvent response) :: after) st = Ok st' →
  request_id (response_request response) ∉ pending_requests st'.
Proof.
  intros Hnone. rewrite run_events_app.
  destruct (run_events before st) as [st1|e]; [|done].
  cbn [run_events handle_event].
  destruct (on_response now response st1) as [st2|e] eqn:Hstep; [|done].
  apply (stays_cleared after _ st2); [done|].
  rewrite (on_response_pending _ _ _ _ Hstep). set_solver.
Qed.

(** X7.  Over a run of events in which no handler raises: a request that
    passes the filters of the request handler is pending at the end unless
    a later response event answers it. *)
Theorem unanswered_request_pending {time}
    (before after : list (time * NetworkEvent)) now request st st' :
  request_filtered request = false →
  forallb (fun entry => negb (is_response_of (request_id request) entry.2))
    after = true →
  run_events (before ++ (now, RequestEvent request) :: after) st = Ok st' →
  request_id request ∈ pending_requests st'.
Proof.
  intros Hpass Hnone. rewrite run_events_app.
  destruct (run_events before st) as [st1|e]; [|done].
  cbn [run_events handle_event].
  apply (stays_pending after _ (on_request now request st1)); [done|].
  unfold on_request. rewrite Hpass. cbn. set_solver.
Qed.

(** ** The session across the methods *)

Section SessionProperties.

Context {E : Type} (eng : Engine E).
Variable netloc_of : string → result string.
Variable config : BrowserContextConfig.
Variable repr : DOMElementNode → string.

Implicit Types w : World E.

Lemma ks_ret {A} (a : A) : keeps_session (ret (E:=E) a).
Proof. intros w s Hs. by exists s. Qed.

Lemma ks_raise {A} e : keeps_session (raise (E:=E) (A:=A) e).
Proof. intros w s Hs. by exists s. Qed.

Lemma ks_call {A} (c : Cmd A) : keeps_session (call eng c).
Proof. intros w s Hs. rewrite call_run. by exists s. Qed.

Lemma ks_bind {A B} (m : M E A) (k : A → M E B) :
  keeps_session m → (∀ a, keeps_session (k a)) → keeps_session (bind m k).
Proof.
  intros Hm Hk w s Hs. unfold bind. destruct (Hm w s Hs) as (s1 & Hs1 & Hc1).
  destruct (m w) as [w1 [a|e]]; cbn in *.
  - destruct (Hk a w1 s1 Hs1) as (s2 & Hs2 & Hc2). exists s2. split; [done|congruence].
  - by exists s1.
Qed.

Lemma ks_try_except {A} (m : M E A) (h : exn → M E A) :
  keeps_session m → (∀ e, keeps_session (h e)) → keeps_session (try_except m h).
Proof.
  intros Hm Hh w s Hs. unfold try_except. destruct (Hm w s Hs) as (s1 & Hs1 & Hc1).
  destruct (m w) as [w1 [a|e]]; cbn in *.
  - by exists s1.
  - destruct (Hh e w1 s1 Hs1) as (s2 & Hs2 & Hc2). exists s2. split; [done|congruence].
Qed.

Lemma ks_get_self_session : keeps_session (get_self_session (E:=E)).
Proof. intros w s Hs. by exists s. Qed.

Lemma ks_get_self_current_state : keeps_session (get_self_current_state (E:=E)).
Proof. intros w s Hs. by exists s. Qed.

Lemma ks_set_self_current_state st :
  keeps_session (set_self_current_state (E:=E) st).
Proof. intros w s Hs. by exists s. Qed.

Lemma ks_set_current_page p : keeps_session (set_current_page (E:=E) p).
Proof. intros w s Hs. cbn. rewrite Hs. by eexists. Qed.

Lemma ks_set_cached_state st : keeps_session (set_cached_state (E:=E) st).
Proof. intros w s Hs. cbn. rewrite Hs. by eexists. Qed.

Lemma ks_context_pages c : keeps_session (context_pages eng c).
Proof. intros w s Hs. by exists s. Qed.

Lemma ks_read_url p : keeps_session (read_url eng p).
Proof. intros w s Hs. by exists s. Qed.

Lemma ks_sleep : keeps_session (sleep eng).
Proof. intros w s Hs. by exists s. Qed.

Lemma ks_get_session : keeps_session (get_session eng).
Proof. intros w s Hs. rewrite (get_session_active _ _ _ Hs). by exists s. Qed.

Ltac ks :=
  repeat first
    [ apply ks_ret | apply ks_raise | apply ks_call | apply ks_get_session
    | apply ks_get_self_session | apply ks_get_self_current_state
    | apply ks_set_self_current_state | apply ks_set_current_page
    | apply ks_set_cached_state | apply ks_context_pages | apply ks_read_url
    | apply ks_sleep | assumption
    | match goal with H : context [keeps_session] |- _ => apply H end
    | apply ks_bind | apply ks_try_except | progress cbv beta
    | match goal with
      | |- ∀ _, _ => intro
      | |- keeps_session (if ?b then _ else _) => destruct b
      | |- keeps_session (match ?x with _ => _ end) => destruct x
      end ].

Lemma ks_get_current_page : keeps_session (get_current_page eng).
Proof. unfold get_current_page. ks. Qed.

Lemma ks_go_back : keeps_session (go_back eng).
Proof. unfold go_back, get_current_page. ks. Qed.

Lemma ks_check page :
  keeps_session (_check_and_handle_navigation eng netloc_of config page).
Proof. unfold _check_and_handle_navigation. pose proof ks_go_back. ks. Qed.

Lemma ks_page_load :
  keeps_session (_wait_for_page_and_frames_load eng netloc_of config).
Proof.
  unfold _wait_for_page_and_frames_load, _wait_for_stable_network.
  pose proof ks_get_current_page. pose proof ks_check. ks.
Qed.

Lemma ks_navigate_to target : keeps_session (navigate_to eng netloc_of config target).
Proof. unfold navigate_to. pose proof ks_get_current_page. ks. Qed.

Lemma ks_switch_to_tab i : keeps_session (switch_to_tab eng netloc_of config i).
Proof. unfold switch_to_tab. ks. Qed.

Lemma ks_close_current_tab : keeps_session (close_current_tab eng netloc_of config).
Proof. unfold close_current_tab. pose proof ks_switch_to_tab. ks. Qed.

Lemma ks_create_new_tab target :
  keeps_session (create_new_tab eng netloc_of config target).
Proof.
  unfold create_new_tab. pose proof ks_get_current_page. pose proof ks_page_load. ks.
Qed.

Lemma ks_tabs_info_from pages : ∀ i, keeps_session (tabs_info_from eng i pages).
Proof. induction pages as [|p pages IH]; intros i; cbn [tabs_info_from]; ks. Qed.

Lemma ks_update_state use_vision focus_element :
  keeps_session (_update_state eng config use_vision focus_element).
Proof.
  unfold _update_state, live_page, assemble_state, remove_highlights,
    take_screenshot, get_scroll_info, get_tabs_info.
  pose proof ks_get_current_page. pose proof ks_tabs_info_from. ks.
Qed.

Lemma ks_get_locate_element element :
  keeps_session (get_locate_element eng element).
Proof. unfold get_locate_element. pose proof ks_get_current_page. ks. Qed.

Lemma ks_click element_node :
  keeps_session (_click_element_node eng netloc_of config repr element_node).
Proof.
  unfold _click_element_node, locate_for_click, click_and_check.
  pose proof ks_get_current_page. pose proof ks_update_state.
  pose proof ks_get_locate_element. pose proof ks_check. ks.
Qed.

Lemma ks_get_state use_vision :
  keeps_session (get_state eng netloc_of config use_vision).
Proof. unfold get_state. pose proof ks_page_load. pose proof ks_update_state. ks. Qed.

Lemma ks_close_pages pages : keeps_session (close_pages eng pages).
Proof. induction pages as [|p pages IH]; cbn [close_pages]; ks. Qed.

Lemma ks_reset_context : keeps_session (reset_context eng).
Proof. unfold reset_context. pose proof ks_close_pages. ks. Qed.

(** X8.  Once a session exists, no method other than [close] unsets it or
    gives it another context: navigation, tab handling, refresh, location,
    click and reset all leave a session with the same context. *)
Theorem session_outlives_methods :
  (∀ target, keeps_session (navigate_to eng netloc_of config target))
  ∧ (∀ page_id, keeps_session (switch_to_tab eng netloc_of config page_id))
  ∧ keeps_session (close_current_tab eng netloc_of config)
  ∧ (∀ target, keeps_session (create_new_tab eng netloc_of config target))
  ∧ (∀ use_vision, keeps_session (get_state eng netloc_of config use_vision))
  ∧ (∀ element, keeps_session (get_locate_element eng element))
  ∧ (∀ element_node,
       keeps_session (_click_element_node eng netloc_of config repr element_node))
  ∧ keeps_session (go_back eng)
  ∧ keeps_session (reset_context eng).
Proof.
  repeat split; intros;
    auto using ks_navigate_to, ks_switch_to_tab, ks_close_current_tab,
      ks_create_new_tab, ks_get_state, ks_get_locate_element, ks_click,
      ks_go_back, ks_reset_context.
Qed.

End SessionProperties.

(** ** Lazy initialisation, refresh and recovery *)

Section RefreshProperties.

Context {E : Type} (eng : Engine E).
Variable netloc_of : string → result string.
Variable config : BrowserContextConfig.
Variable repr : DOMElementNode → string.

Implicit Types w : World E.

Lemma bind_ok_inv {A B} (m : M E A) (k : A → M E B) w w' b :
  bind m k w = (w', Ok b) →
  ∃ w1 a, m w = (w1, Ok a) ∧ k a w1 = (w', Ok b).
Proof.
  unfold bind. destruct (m w) as [w1 [a|e]]; [|done]. intros H. by exists w1, a.
Qed.

Lemma call_ok_inv {A} (c : Cmd A) w w' a :
  call eng c w = (w', Ok a) →
  w' = {| engine := (exec eng c (engine w)).1; session := session w;
          current_state := current_state w; calls := calls w ++ [called c] |}
  ∧ (exec eng c (engine w)).2 = Done a.
Proof.
  rewrite call_run. destruct (exec eng c (engine w)) as [e1 [a1|msg]]; cbn; [|done].
  by intros [= <- <-].
Qed.

Lemma get_session_sets w w1 s :
  get_session eng w = (w1, Ok s) → session w1 = Some s.
Proof.
  destruct (session w) as [s0|] eqn:Hs.
  - rewrite (get_session_active _ _ _ Hs). by intros [= <- <-].
  - unfold get_session. intros H.
    apply bind_ok_inv in H as (w0 & o & H0 & H). unfold get_self_session in H0.
    injection H0 as <- <-. rewrite Hs in H. unfold _initialize_session in H.
    apply bind_ok_inv in H as (wa & [] & _ & H).
    apply bind_ok_inv in H as (wb & c & _ & H).
    apply bind_ok_inv in H as (wc & p & _ & H).
    apply bind_ok_inv in H as (wd & u & Hu & H).
    apply bind_ok_inv in H as (we & [] & Hset & H).
    unfold ret in H. injection H as <- <-.
    unfold set_self_session in Hset. by injection Hset as <-.
Qed.

(** X9.  Lazy initialisation happens at most once: after a successful
    [get_session] the session is stored, and asking again returns the same
    session without touching the engine. *)
Theorem lazy_session_created_once w w1 s :
  get_session eng w = (w1, Ok s) →
  session w1 = Some s ∧ get_session eng w1 = (w1, Ok s).
Proof.
  intros H. pose proof (get_session_sets _ _ _ H) as Hs.
  split; [exact Hs | by apply get_session_active].
Qed.

(** X10.  A session created lazily holds the context that
    [_create_context] returned and, as its current page, the page that
    [new_page] returned on that context; it starts with the empty snapshot
    at the url of that page, so that, until a refresh is cached, every
    lookup of a node by index raises [KeyError]. *)
Theorem fresh_session_is_empty w w1 s :
  session w = None →
  get_session eng w = (w1, Ok s) →
  let created :=
    exec eng CreateContext (exec eng GetPlaywrightBrowser (engine w)).1 in
  created.2 = Done (context s)
  ∧ exec eng (NewPage (context s)) created.1 = (engine w1, Done (current_page s))
  ∧ cached_state s = _get_initial_state (url_of eng (engine w1) (current_page s))
  ∧ ∀ index,
      get_dom_element_by_index eng index w1 = (w1, Raise (KeyError index)).
Proof.
  intros Hs H created. pose proof (get_session_sets _ _ _ H) as Hs1.
  unfold get_session in H.
  apply bind_ok_inv in H as (w0 & o & H0 & H). unfold get_self_session in H0.
  injection H0 as <- <-. rewrite Hs in H. unfold _initialize_session in H.
  apply bind_ok_inv in H as (wa & [] & [-> _]%call_ok_inv & H).
  apply bind_ok_inv in H as (wb & c & [-> Hcreated]%call_ok_inv & H).
  apply bind_ok_inv in H as (wc & p & [-> Hpage]%call_ok_inv & H).
  apply bind_ok_inv in H as (wd & u & Hu & H).
  unfold read_url in Hu. injection Hu as <- <-.
  apply bind_ok_inv in H as (we & [] & Hset & H).
  unfold ret in H. injection H as <- <-.
  unfold set_self_session in Hset. injection Hset as <-.
  cbn [engine calls cached_state current_page context] in *.
  fold created in Hcreated, Hpage |- *.
  split; [exact Hcreated|].
  split; [by rewrite <- Hpage; apply surjective_pairing|].
  split; [reflexivity|].
  intros index. unfold get_dom_element_by_index, get_selector_map, bind.
  erewrite get_session_active by reflexivity. reflexivity.
Qed.

Lemma assemble_state_stores page use_vision focus_element w w' state :
  assemble_state eng config page use_vision focus_element w = (w', Ok state) →
  current_state w' = Some state.
Proof.
  unfold assemble_state. intros H.
  do 7 (apply bind_ok_inv in H as (? & ? & _ & H)).
  apply bind_ok_inv in H as (w2 & [] & Hset & H).
  unfold ret in H. injection H as <- <-.
  unfold set_self_current_state in Hset. by injection Hset as <-.
Qed.

(** X11.  Whatever path a refresh takes, a snapshot it returns is the one
    stored as the last known good one. *)
Theorem update_state_result_is_stored use_vision focus_element w w' state :
  _update_state eng config use_vision focus_element w = (w', Ok state) →
  current_state w' = Some state.
Proof.
  unfold _update_state. intros H.
  apply bind_ok_inv in H as (w1 & s & _ & H).
  apply bind_ok_inv in H as (w2 & page & _ & H).
  unfold try_except in H.
  destruct (assemble_state eng config page use_vision focus_element w2)
    as [w3 [st|e]] eqn:Ha.
  - injection H as <- <-. by apply assemble_state_stores in Ha.
  - unfold bind, get_self_current_state in H.
    destruct (current_state w3) as [previous|] eqn:Hprev; [|done].
    unfold ret in H. by injection H as <- <-.
Qed.

(** X12.  When the current page no longer evaluates a script and the
    context has no page left, a refresh raises the "browser closed" error;
    a previous snapshot, if any, is kept but not returned. *)
Theorem update_state_without_pages use_vision focus_element w s e1 msg :
  session w = Some s →
  exec eng (Evaluate (current_page s) "1") (engine w) = (e1, Failed msg) →
  pages_of eng e1 (context s) = [] →
  ∃ w',
    _update_state eng config use_vision focus_element w
    = (w', Raise (BrowserError "Browser closed: no valid pages available"))
    ∧ current_state w' = current_state w
    ∧ calls w' = calls w ++ [called (Evaluate (current_page s) "1")].
Proof.
  intros Hs Hdead Hpages. unfold _update_state.
  unfold bind at 1. rewrite (get_session_active _ _ _ Hs).
  unfold bind at 1. unfold live_page. unfold try_except at 1.
  unfold bind at 1. rewrite (get_current_page_active _ _ _ Hs).
  unfold bind at 1. rewrite call_run, Hdead. cbn [fst snd].
  unfold bind at 1. unfold context_pages. cbn [engine]. rewrite Hpages.
  cbn [last]. unfold raise. by eexists.
Qed.

(** X13.  When the current page no longer evaluates a script and pages
    remain, the refresh moves the current-page pointer to the last page of
    the context and goes on with that page. *)
Theorem live_page_recovers_onto_last w s e1 msg page e2 page_title :
  session w = Some s →
  exec eng (Evaluate (current_page s) "1") (engine w) = (e1, Failed msg) →
  last (pages_of eng e1 (context s)) = Some page →
  exec eng (Title page) e1 = (e2, Done page_title) →
  ∃ w',
    live_page eng s w = (w', Ok page)
    ∧ current_page <$> session w' = Some page
    ∧ engine w' = e2.
Proof.
  intros Hs Hdead Hlast Htitle. unfold live_page. unfold try_except.
  unfold bind at 1. rewrite (get_current_page_active _ _ _ Hs).
  unfold bind at 1. rewrite call_run, Hdead. cbn [fst snd].
  unfold bind at 1. unfold context_pages. cbn [engine]. rewrite Hlast.
  unfold bind, set_current_page. rewrite call_run. cbn [engine].
  rewrite Htitle. cbn [fst snd session]. rewrite Hs.
  unfold ret. by eexists.
Qed.

(** X14.  The page-load wait lets only the allowlist error through: it
    returns normally or raises [URLNotAllowedError], whatever the engine
    does during the settle wait and the check. *)
Theorem page_load_raises_only_allowlist_error w w' r :
  _wait_for_page_and_frames_load eng netloc_of config w = (w', r) →
  r = Ok tt ∨ ∃ msg, r = Raise (URLNotAllowedError msg).
Proof.
  unfold _wait_for_page_and_frames_load. unfold bind at 1. unfold try_except.
  match goal with
  | |- context [match ?m w with _ => _ end] => destruct (m w) as [w1 [[]|e]]
  end.
  - unfold sleep. intros [= <- <-]. by left.
  - destruct e; cbn [is_url_not_allowed]; unfold raise, ret, sleep;
      intros [= <- <-]; eauto.
Qed.

(** X15.  Once the current page is at hand, a click that fails raises
    either the allowlist error or a generic exception whose message names
    the element and carries the text of the cause. *)
Theorem click_failures_are_wrapped element_node w w0 page w' e :
  get_current_page eng w = (w0, Ok page) →
  _click_element_node eng netloc_of config repr element_node w = (w', Raise e) →
  (∃ msg, e = URLNotAllowedError msg)
  ∨ ∃ cause,
      e = Exception ("Failed to click element: " +:+ repr element_node
                     +:+ ". Error: " +:+ str_of_exn cause).
Proof.
  intros Hpage. unfold _click_element_node. unfold bind at 1. rewrite Hpage.
  unfold try_except at 1.
  match goal with
  | |- context [match ?m w0 with _ => _ end] => destruct (m w0) as [w1 [[]|e1]]
  end; [done|].
  destruct e1 eqn:Hcause; cbn [is_url_not_allowed]; unfold raise;
    intros [= <- <-];
    first [ left; eexists; reflexivity
          | right; exists e1; subst e1; reflexivity ].
Qed.

End RefreshProperties.

(** ** Navigation, tabs and best-effort steps *)

Section TabProperties.

Context {E : Type} (eng : Engine E).
Variable netloc_of : string → result string.
Variable config : BrowserContextConfig.

Implicit Types w : World E.

(** X16.  [navigate_to] checks the target only: for an allowed target it
    issues [goto] and, if that succeeds, [wait_for_load_state] on the
    current page, and nothing else; it never goes back and raises neither
    of the two allowlist errors, wherever the page ends up. *)
Theorem navigate_to_checks_target_only w s target :
  session w = Some s →
  _is_url_allowed netloc_of config target = true →
  ∃ w' r,
    navigate_to eng netloc_of config target w = (w', r)
    ∧ calls w'
      = calls w ++ called (Goto (current_page s) target)
          :: match (exec eng (Goto (current_page s) target) (engine w)).2 with
             | Done _ => [called (WaitForLoadState (current_page s))]
             | Failed _ => []
             end
    ∧ (r = Ok tt ∨ ∃ msg, r = Raise (EngineError msg)).
Proof.
  intros Hs Hallowed. unfold navigate_to. rewrite Hallowed. cbn [negb].
  unfold bind at 1. rewrite (get_current_page_active _ _ _ Hs).
  unfold bind. rewrite call_run.
  destruct (exec eng (Goto (current_page s) target) (engine w)) as [e1 [[]|msg]];
    cbn [fst snd].
  - rewrite call_run. cbn [engine calls].
    destruct (exec eng (WaitForLoadState (current_page s)) e1) as [e2 [[]|msg]];
      cbn [fst snd]; do 2 eexists;
      (split; [reflexivity|]); (split; [by rewrite <- app_assoc|]); eauto.
  - do 2 eexists. split; [reflexivity|]. split; [done|]. eauto.
Qed.

(** X17.  The best-effort steps swallow every failure: clearing the
    highlights and saving the cookies never raise, and with a session in
    place [go_back] issues its one engine call and never raises. *)
Theorem best_effort_steps_never_raise :
  (∀ w, ∃ w', remove_highlights eng w = (w', Ok tt))
  ∧ (∀ w, ∃ w', save_cookies eng config w = (w', Ok tt))
  ∧ (∀ w s, session w = Some s →
       ∃ w', go_back eng w = (w', Ok tt)
             ∧ calls w' = calls w ++ [called (GoBack (current_page s))]).
Proof.
  split; [|split].
  - intros w. unfold remove_highlights. apply try_except_swallow.
  - intros w. apply save_cookies_ok.
  - intros w s Hs. unfold go_back. unfold bind.
    rewrite (get_current_page_active _ _ _ Hs).
    unfold try_except. rewrite call_run.
    destruct (exec eng (GoBack (current_page s)) (engine w)) as [e1 [[]|msg]];
      cbn [fst snd]; unfold ret; by eexists.
Qed.

(** Without a session or without a cookie file, saving the cookies
    does nothing at all. *)
Theorem save_cookies_without_target w :
  session w = None ∨ truthy (cookies_file config) = false →
  save_cookies eng config w = (w, Ok tt).
Proof.
  unfold save_cookies, bind, get_self_session, ret.
  intros [-> | Hfile]; [reflexivity|].
  destruct (session w); [|reflexivity].
  by destruct (cookies_file config) as [[|c f]|].
Qed.

Lemma py_index_lookup {A} (l : list A) (i : Z) :
  - Z.of_nat (length l) <= i < Z.of_nat (length l) →
  py_index l i
  = l !! Z.to_nat (if i <? 0 then Z.of_nat (length l) + i else i).
Proof.
  intros Hi. unfold py_index.
  destruct (i <? 0) eqn:Hneg; [|reflexivity].
  destruct (- i <=? Z.of_nat (length l)) eqn:Hle; [reflexivity | lia].
Qed.

(** X18.  The bounds of [switch_to_tab]: an index at or above the number
    of tabs raises [BrowserError] with the index in its message when the
    index has at most 4300 decimal digits, and the [ValueError] of the
    formatting when it has more; an index below minus the number of tabs
    raises the interpreter's index error instead; none of them touches
    engine or session. *)
Theorem switch_to_tab_out_of_bounds w s page_id :
  session w = Some s →
  let n := Z.of_nat (length (pages_of eng (engine w) (context s))) in
  (n <= page_id →
   Py.count_digits (Py.str_of_Z page_id) <= INT_MAX_STR_DIGITS →
   switch_to_tab eng netloc_of config page_id w
   = (w, Raise (BrowserError
                  ("No tab found with page_id: " +:+ Py.str_of_Z page_id))))
  ∧ (n <= page_id →
     INT_MAX_STR_DIGITS < Py.count_digits (Py.str_of_Z page_id) →
     ∃ msg,
       switch_to_tab eng netloc_of config page_id w = (w, Raise (ValueError msg)))
  ∧ (page_id < - n →
     switch_to_tab eng netloc_of config page_id w
     = (w, Raise (Exception "list index out of range"))).
Proof.
  intros Hs n. repeat split; intros Hi; unfold switch_to_tab;
    unfold bind at 1; rewrite (get_session_active _ _ _ Hs);
    unfold bind at 1; unfold context_pages; fold n.
  - intros Hdigits. destruct (page_id >=? n) eqn:Hge; [|lia].
    unfold bind, of_result, py_str, raise.
    destruct (INT_MAX_STR_DIGITS <? _) eqn:Hlimit; [lia | reflexivity].
  - intros Hdigits. destruct (page_id >=? n) eqn:Hge; [|lia].
    unfold bind, of_result, py_str.
    destruct (INT_MAX_STR_DIGITS <? _) eqn:Hlimit; [by eexists | lia].
  - destruct (page_id >=? n) eqn:Hge; [lia|].
    unfold py_index. fold n.
    destruct (page_id <? 0) eqn:Hneg; [|lia].
    destruct (- page_id <=? n) eqn:Hle; [lia | reflexivity].
Qed.

(** X19.  Within bounds, [switch_to_tab] counts a negative index from the
    end: the page at that position becomes the current page as soon as
    its url has passed the allowlist, before it is brought to the front. *)
Theorem switch_to_tab_selects w s page_id page :
  session w = Some s →
  let pages := pages_of eng (engine w) (context s) in
  let n := Z.of_nat (length pages) in
  - n <= page_id < n →
  pages !! Z.to_nat (if page_id <? 0 then n + page_id else page_id) = Some page →
  _is_url_allowed netloc_of config (url_of eng (engine w) page) = true →
  ∃ w' r,
    switch_to_tab eng netloc_of config page_id w = (w', r)
    ∧ current_page <$> session w' = Some page
    ∧ (∃ rest, calls w' = calls w ++ called (BringToFront page) :: rest)
    ∧ (r = Ok tt ∨ ∃ msg, r = Raise (EngineError msg)).
Proof.
  intros Hs pages n Hi Hpage Hallowed. unfold switch_to_tab.
  unfold bind at 1. rewrite (get_session_active _ _ _ Hs).
  unfold bind at 1. unfold context_pages. fold pages. fold n.
  destruct (page_id >=? n) eqn:Hge; [lia|].
  rewrite (py_index_lookup pages page_id Hi). fold n. rewrite Hpage.
  unfold bind at 1. unfold read_url. rewrite Hallowed. cbn [negb].
  unfold bind, set_current_page. rewrite call_run.
  cbn [engine session calls]. rewrite Hs. cbn [fmap option_fmap option_map].
  destruct (exec eng (BringToFront page) (engine w)) as [e1 [[]|msg]];
    cbn [fst snd].
  - rewrite call_run. cbn [engine session calls fst].
    destruct (exec eng (WaitForLoadState page) e1) as [e2 [[]|msg]];
      cbn [fst snd]; do 2 eexists; (split; [reflexivity|]);
      (split; [reflexivity|]); (split; [|eauto]); eexists;
      by rewrite <- app_assoc.
  - do 2 eexists. split; [reflexivity|]. split; [reflexivity|].
    split; [by exists [] | eauto].
Qed.

(** X20.  The two other outcomes of [close_current_tab] after the page has
    been closed: with no page left nothing more happens, and with a first
    remaining page whose url fails the allowlist a [BrowserError] is
    raised; in both the current-page pointer stays on the closed page. *)
Theorem close_current_tab_keeps_pointer w s e1 :
  session w = Some s →
  exec eng (PageClose (current_page s)) (engine w) = (e1, Done tt) →
  let w1 := {| engine := e1; session := Some s; current_state := current_state w;
               calls := calls w ++ [called (PageClose (current_page s))] |} in
  (pages_of eng e1 (context s) = [] →
   close_current_tab eng netloc_of config w = (w1, Ok tt))
  ∧ (∀ first rest,
       pages_of eng e1 (context s) = first :: rest →
       _is_url_allowed netloc_of config (url_of eng e1 first) = false →
       close_current_tab eng netloc_of config w
       = (w1, Raise (BrowserError
                       ("Cannot switch to tab with non-allowed URL: "
                        +:+ url_of eng e1 first)))).
Proof.
  intros Hs Hclose w1.
  assert (Hstart : ∀ k : unit → M E unit,
            bind (call eng (PageClose (current_page s))) k w = k tt w1).
  { intros k. unfold bind. rewrite call_run, Hclose. cbn [fst snd].
    unfold w1. by rewrite Hs. }
  split.
  - intros Hpages. unfold close_current_tab. unfold bind at 1.
    rewrite (get_session_active _ _ _ Hs). cbv beta iota. rewrite Hstart.
    unfold w1. unfold bind, context_pages. cbn [engine]. by rewrite Hpages.
  - intros first rest Hpages Hdenied. unfold close_current_tab. unfold bind at 1.
    rewrite (get_session_active _ _ _ Hs). cbv beta iota. rewrite Hstart.
    unfold w1. unfold bind at 1. unfold context_pages at 1. cbn [engine].
    rewrite Hpages.
    cbv beta iota. unfold switch_to_tab. unfold bind at 1.
    erewrite get_session_active by reflexivity. cbv beta iota.
    unfold bind at 1. unfold context_pages. cbn [engine]. rewrite Hpages.
    change (0 >=? Z.of_nat (length (first :: rest))) with false. cbv beta iota.
    change (py_index (first :: rest) 0) with (Some first). cbv beta iota.
    unfold bind, read_url. cbn [engine]. by rewrite Hdenied.
Qed.

(** X21.  [create_new_tab] without a url opens a page and makes it the
    current one; it waits for the load state and navigates nowhere. *)
Theorem create_new_tab_without_url w s target e1 page :
  session w = Some s →
  truthy target = false →
  exec eng (NewPage (context s)) (engine w) = (e1, Done page) →
  ∃ w' r,
    create_new_tab eng netloc_of config target w = (w', r)
    ∧ current_page <$> session w' = Some page
    ∧ calls w' = calls w ++ [called (NewPage (context s));
                             called (WaitForLoadState page)]
    ∧ (r = Ok tt ∨ ∃ msg, r = Raise (EngineError msg)).
Proof.
  intros Hs Hnone Hnew. unfold create_new_tab. rewrite Hnone. cbn [andb].
  unfold bind at 1. rewrite (get_session_active _ _ _ Hs).
  unfold bind at 1. rewrite call_run, Hnew. cbn [fst snd].
  unfold bind at 1. unfold set_current_page. cbn [engine session calls].
  rewrite Hs. cbn [fmap option_fmap option_map].
  unfold bind at 1. rewrite call_run. cbn [engine session calls].
  destruct (exec eng (WaitForLoadState page) e1) as [e2 [[]|msg]]; cbn [fst snd].
  - unfold bind. erewrite get_current_page_active by reflexivity.
    unfold ret. do 2 eexists. split; [reflexivity|]. split; [reflexivity|].
    split; [by rewrite <- app_assoc | eauto].
  - do 2 eexists. split; [reflexivity|]. split; [reflexivity|].
    split; [by rewrite <- app_assoc | eauto].
Qed.

Lemma tabs_info_from_ids pages : ∀ i w w' tabs_info,
  tabs_info_from eng i pages w = (w', Ok tabs_info) →
  page_id <$> tabs_info = (fun k => i + Z.of_nat k) <$> seq 0 (length pages).
Proof.
  induction pages as [|p pages IH]; intros i w w' tabs_info; cbn [tabs_info_from].
  - unfold ret. by intros [= <- <-].
  - intros H.
    apply bind_ok_inv in H as (w1 & u & _ & H).
    apply bind_ok_inv in H as (w2 & t & _ & H).
    apply bind_ok_inv in H as (w3 & r & Hrest & H).
    unfold ret in H. injection H as <- <-.
    apply IH in Hrest. cbn [fmap list_fmap length seq page_id].
    rewrite Z.add_0_r. f_equal.
    change (list_fmap _ _ page_id r) with (page_id <$> r). rewrite Hrest.
    rewrite <- seq_shift, <- list_fmap_compose.
    apply list_fmap_ext. intros _ k _. cbn. lia.
Qed.

(** X22.  The tab summaries number the pages of the context by position,
    from zero, one summary per page. *)
Theorem tabs_are_numbered_by_position w s w' tabs_info :
  session w = Some s →
  get_tabs_info eng w = (w', Ok tabs_info) →
  page_id <$> tabs_info
  = Z.of_nat <$> seq 0 (length (pages_of eng (engine w) (context s))).
Proof.
  intros Hs. unfold get_tabs_info. unfold bind at 1.
  rewrite (get_session_active _ _ _ Hs). unfold bind at 1. unfold context_pages.
  intros H. apply tabs_info_from_ids in H. rewrite H.
  apply list_fmap_ext. intros _ k _. lia.
Qed.

End TabProperties.

(** ** Caching a refresh, and resetting *)

Section CacheProperties.

Context {E : Type} (eng : Engine E).
Variable netloc_of : string → result string.
Variable config : BrowserContextConfig.

Implicit Types w : World E.

Lemma update_state_stores use_vision focus_element w w' state :
  _update_state eng config use_vision focus_element w = (w', Ok state) →
  current_state w' = Some state.
Proof.
  unfold _update_state. intros H.
  apply bind_ok_inv in H as (w1 & s & _ & H).
  apply bind_ok_inv in H as (w2 & page & _ & H).
  unfold try_except in H.
  destruct (assemble_state eng config page use_vision focus_element w2)
    as [w3 [st|e]] eqn:Ha.
  - injection H as <- <-. by apply assemble_state_stores in Ha.
  - unfold bind, get_self_current_state in H.
    destruct (current_state w3) as [previous|] eqn:Hprev; [|done].
    unfold ret in H. by injection H as <- <-.
Qed.

(** X23.  A successful [get_state] returns the snapshot that it has just
    cached in the session and that is stored as the last known good one,
    so that the selector map served afterwards is the one of that
    snapshot. *)
Theorem get_state_caches_snapshot use_vision w w' state :
  get_state eng netloc_of config use_vision w = (w', Ok state) →
  current_state w' = Some state
  ∧ (∃ s', session w' = Some s' ∧ cached_state s' = state)
  ∧ get_selector_map eng w' = (w', Ok (selector_map state)).
Proof.
  unfold get_state. intros H.
  apply bind_ok_inv in H as (w1 & [] & _ & H).
  apply bind_ok_inv in H as (w2 & s2 & Hs2 & H).
  apply bind_ok_inv in H as (w3 & st & Hup & H).
  apply bind_ok_inv in H as (w4 & [] & Hset & H).
  unfold ret in H. injection H as <- <-.
  apply get_session_sets in Hs2.
  destruct (ks_update_state eng config use_vision (-1) w2 s2 Hs2)
    as (s3 & Hs3 & _).
  rewrite Hup in Hs3. cbn [fst] in Hs3.
  apply update_state_stores in Hup.
  unfold set_cached_state in Hset. injection Hset as <-.
  cbn [session current_state]. rewrite Hs3. cbn [fmap option_fmap option_map].
  split; [exact Hup|]. split; [by eexists|].
  unfold get_selector_map, bind.
  erewrite get_session_active by reflexivity. reflexivity.
Qed.

Lemma close_pages_ok pages : ∀ w w',
  close_pages eng pages w = (w', Ok tt) →
  session w' = session w
  ∧ current_state w' = current_state w
  ∧ calls w' = calls w ++ ((fun p => called (PageClose p)) <$> pages).
Proof.
  induction pages as [|p pages IH]; intros w w'; cbn [close_pages].
  - unfold ret. intros [= <-]. by rewrite List.app_nil_r.
  - intros H. apply bind_ok_inv in H as (w1 & [] & [-> _]%call_ok_inv & H).
    apply IH in H as (Hs & Hc & Hcalls). cbn in Hs, Hc, Hcalls.
    split; [done|]. split; [done|]. rewrite Hcalls.
    by rewrite <- app_assoc.
Qed.

(** X24.  A successful [reset_context] sends a close to every page the
    context had, in order, then opens one page and makes the page that
    [new_page] returned the current one; the cached snapshot becomes the
    empty one, so every lookup by index raises [KeyError]; the last known
    good snapshot kept for failing refreshes is not cleared. *)
Theorem reset_context_starts_over w s w' :
  session w = Some s →
  reset_context eng w = (w', Ok tt) →
  let closed := close_pages eng (pages_of eng (engine w) (context s)) w in
  (∃ page,
     exec eng (NewPage (context s)) (engine closed.1) = (engine w', Done page)
     ∧ session w' = Some {| context := context s; current_page := page;
                            cached_state := _get_initial_state EmptyString |})
  ∧ calls w'
    = calls w
      ++ ((fun p => called (PageClose p)) <$> pages_of eng (engine w) (context s))
      ++ [called (NewPage (context s))]
  ∧ current_state w' = current_state w
  ∧ ∀ index, get_dom_element_by_index eng index w' = (w', Raise (KeyError index)).
Proof.
  intros Hs H closed. unfold reset_context in H. unfold bind at 1 in H.
  rewrite (get_session_active _ _ _ Hs) in H. unfold bind at 1 in H.
  unfold context_pages in H.
  apply bind_ok_inv in H as (w1 & [] & Hclose & H).
  assert (Hclosed : closed.1 = w1) by (unfold closed; by rewrite Hclose).
  apply close_pages_ok in Hclose as (Hs1 & Hc1 & Hcalls1).
  apply bind_ok_inv in H as (w2 & [] & Hset & H).
  unfold set_cached_state in Hset. injection Hset as <-.
  apply bind_ok_inv in H as (w3 & page & [-> Hpage]%call_ok_inv & H).
  unfold set_current_page in H. injection H as <-.
  cbn [session current_state calls engine] in *. rewrite Hs1, Hs.
  cbn [fmap option_fmap option_map context current_page cached_state].
  split.
  { exists page. split; [|reflexivity].
    rewrite Hclosed, <- Hpage. apply surjective_pairing. }
  split; [by rewrite Hcalls1, <- app_assoc|].
  split; [exact Hc1|].
  intros index. unfold get_dom_element_by_index, get_selector_map, bind.
  erewrite get_session_active by reflexivity. reflexivity.
Qed.

End CacheProperties.

(** ** The file-uploader search *)

Lemma DOMNode_induction (P : DOMNode → Prop) :
  (∀ text, P (TextNode text)) →
  (∀ element children, Forall P children → P (ElementNode element children)) →
  ∀ node, P node.
Proof.
  intros Htext Helement. fix IH 1. intros [text | element children].
  - apply Htext.
  - apply Helement.
    induction children as [|child children IHchildren]; constructor;
      [apply IH | exact IHchildren].
Qed.

Lemma is_file_uploader_within node :
  ∀ max_depth current_depth,
    current_depth <= max_depth →
    is_file_uploader node max_depth current_depth
    = upload_input_within (Z.to_nat (max_depth - current_depth)) node.
Proof.
  induction node as [text | element children IH] using DOMNode_induction;
    intros max_depth current_depth Hle.
  - cbn [is_file_uploader upload_input_within].
    by destruct (current_depth >? max_depth).
  - cbn [is_file_uploader upload_input_within].
    destruct (current_depth >? max_depth) eqn:Hgt; [lia|].
    destruct (is_upload_input element); [reflexivity|]. cbn [orb].
    destruct (current_depth <? max_depth) eqn:Hlt.
    + replace (Z.to_nat (max_depth - current_depth))
        with (S (Z.to_nat (max_depth - (current_depth + 1)))) by lia.
      case_bool_decide as Hnil; cbn [negb andb]; [by subst|].
      clear Hnil. induction IH as [|child children Hchild _ IHrest];
        [reflexivity|].
      cbn [existsb]. rewrite IHrest. f_equal.
      destruct child as [text | el ch]; [reflexivity|].
      apply Hchild. lia.
    + rewrite andb_false_r.
      replace (Z.to_nat (max_depth - current_depth)) with O by lia. reflexivity.
Qed.

Lemma upload_input_within_mono node :
  ∀ levels levels', (levels ≤ levels')%nat →
    upload_input_within levels node = true →
    upload_input_within levels' node = true.
Proof.
  induction node as [text | element children IH] using DOMNode_induction;
    intros levels levels' Hle; [done|].
  cbn [upload_input_within].
  destruct (is_upload_input element); [done|]. cbn [orb].
  destruct levels as [|levels]; [done|].
  destruct levels' as [|levels']; [lia|].
  rewrite !existsb_exists. intros (child & Hin & Hfound).
  exists child. split; [done|].
  rewrite Forall_forall in IH. apply (IH child) with levels; [|lia|done].
  by apply list_elem_of_In.
Qed.

(** X25.  The file-uploader search answers whether a file input (an
    [input] of type [file], or with an [accept] attribute) lies at most
    [max_depth - current_depth] levels below the node; beyond the maximal
    depth it answers no, whatever the node is. *)
Theorem file_uploader_depth_limit node max_depth current_depth :
  is_file_uploader node max_depth current_depth
  = (current_depth <=? max_depth)
    && upload_input_within (Z.to_nat (max_depth - current_depth)) node.
Proof.
  destruct (current_depth <=? max_depth) eqn:Hle.
  - apply Z.leb_le in Hle. by rewrite is_file_uploader_within.
  - apply Z.leb_gt in Hle.
    assert (Hgt : (current_depth >? max_depth) = true) by lia.
    destruct node; cbn [is_file_uploader]; by rewrite Hgt.
Qed.

(** Searching deeper never loses an uploader: what is found with one
    maximal depth is found with any larger one. *)
Theorem file_uploader_monotone node max_depth max_depth' current_depth :
  max_depth <= max_depth' →
  is_file_uploader node max_depth current_depth = true →
  is_file_uploader node max_depth' current_depth = true.
Proof.
  intros Hle Hfound.
  destruct (Z.le_gt_cases current_depth max_depth) as [Hcur | Hcur].
  - rewrite is_file_uploader_within in Hfound by exact Hcur.
    rewrite is_file_uploader_within by lia.
    apply upload_input_within_mono with (Z.to_nat (max_depth - current_depth));
      [lia | done].
  - assert (Hgt : (current_depth >? max_depth) = true) by lia.
    destruct node; cbn [is_file_uploader] in Hfound; by rewrite Hgt in Hfound.
Qed.

(** ** Selector synthesis: which attributes count, and when it falls back *)

Lemma dict_get_skip key k v pre post :
  k ≠ key →
  dict_get key (pre ++ (k, v) :: post) = dict_get key (pre ++ post).
Proof.
  intros Hne. induction pre as [|[k' v'] pre IH]; cbn [app dict_get].
  - by apply String.eqb_neq in Hne as ->.
  - by rewrite IH.
Qed.

Lemma attribute_selectors_skip k v pre post : ∀ css_selector,
  attribute_selector k v = Ok EmptyString →
  attribute_selectors css_selector (pre ++ (k, v) :: post)
  = attribute_selectors css_selector (pre ++ post).
Proof.
  induction pre as [|[k' v'] pre IH]; intros css Hskip; cbn [app attribute_selectors].
  - by rewrite Hskip, app_nil_r.
  - destruct (attribute_selector k' v'); [by apply IH | reflexivity].
Qed.

(** X26.  Attributes outside the fixed list never influence the selector:
    removing such an attribute (other than [class]) from an element,
    whatever its value, leaves the synthesized selector unchanged. *)
Theorem selector_ignores_unlisted_attributes element k v pre post :
  attributes element = pre ++ (k, v) :: post →
  in_list k SAFE_ATTRIBUTES = false →
  k ≠ "class" →
  _enhanced_css_selector_for_element element
  = _enhanced_css_selector_for_element
      {| tag_name := tag_name element; xpath := xpath element;
         attributes := pre ++ post;
         highlight_index := highlight_index element;
         parent := parent element |}.
Proof.
  intros Hattrs Hunlisted Hclass.
  assert (Hskip : attribute_selector k v = Ok EmptyString).
  { unfold attribute_selector.
    destruct (String.eqb k "class"); [reflexivity|].
    destruct (Py.is_empty (Py.strip k)); [reflexivity|].
    by rewrite Hunlisted. }
  unfold _enhanced_css_selector_for_element, synthesize_selector,
    fallback_selector, class_selectors.
  cbn [tag_name xpath attributes highlight_index]. rewrite Hattrs.
  rewrite (dict_get_skip "class" k v pre post Hclass).
  by rewrite (attribute_selectors_skip k v pre post _ Hskip).
Qed.

(** X27.  On an element whose attribute values are strings or [None], the
    body of the [try] raises, and the fallback is used, exactly when some
    attribute of the safe list has the value [None]: a [None] under
    [class] or under an attribute outside the list is skipped. *)
Theorem selector_falls_back_iff element :
  (∃ e, synthesize_selector element = Raise e)
  ↔ ∃ k, In (k, PyNone) (attributes element) ∧ in_list k SAFE_ATTRIBUTES = true.
Proof.
  unfold synthesize_selector. split.
  - intros [e He]. by apply attribute_selectors_raise in He.
  - intros (k & Hin & Hsafe). by apply attribute_selectors_raise_on with k.
Qed.

(** X28.  On an element whose attribute values are strings, every
    attribute of the fixed list leaves its fragment in the selector: the
    bare name for an empty value, an exact match for a value without
    quotes, angle brackets, backticks, newlines, carriage returns or tabs,
    and otherwise a substring match on the value with its white space
    collapsed and its double quotes escaped. *)
Theorem selector_attribute_fragment element k value :
  well_typed element →
  In (k, PyStr value) (attributes element) →
  in_list k SAFE_ATTRIBUTES = true →
  fragment_of
    (if Py.is_empty value then "[" +:+ k +:+ "]"
     else if Py.any_char is_special value
     then "[" +:+ k +:+ "*="
          +:+ Py.quoted
                (Py.replace_char Py.dquote
                   (String "\" (String Py.dquote EmptyString))
                   (Py.strip (collapse_spaces false value)))
          +:+ "]"
     else "[" +:+ k +:+ "=" +:+ Py.quoted value +:+ "]")
    (_enhanced_css_selector_for_element element).
Proof.
  intros Hty Hin Hsafe. rewrite (selector_well_typed _ Hty).
  destruct (safe_attribute_plain _ Hsafe) as (Hclass & Hblank & Hplain).
  assert (Hsel : attribute_selector k (PyStr value)
                 = Ok (if Py.is_empty value then "[" +:+ k +:+ "]"
                       else if Py.any_char is_special value
                       then "[" +:+ k +:+ "*="
                            +:+ Py.quoted
                                  (Py.replace_char Py.dquote
                                     (String "\" (String Py.dquote EmptyString))
                                     (Py.strip (collapse_spaces false value)))
                            +:+ "]"
                       else "[" +:+ k +:+ "=" +:+ Py.quoted value +:+ "]")).
  { unfold attribute_selector. rewrite Hclass, Hblank, Hsafe, Hplain.
    cbn [negb]. destruct value as [|c value]; [reflexivity|]. cbn [Py.is_empty].
    by destruct (Py.any_char is_special (String c value)). }
  destruct (attribute_fragment_occurs _ _ _ _ Hin Hsel) as (before & after & ->).
  exists (_convert_simple_xpath_to_css_selector (xpath element)
          +:+ class_selectors (attributes element) +:+ before), after.
  by rewrite !app_assoc_str.
Qed.

(** ** XPath conversion: slashes *)

Lemma nonempty_segments_lstrip x :
  filter (fun part => negb (Py.is_empty part) = true)
    (Py.split_on "/" (Py.lstrip_by (Ascii.eqb "/") x))
  = filter (fun part => negb (Py.is_empty part) = true) (Py.split_on "/" x).
Proof.
  induction x as [|a x IH]; [reflexivity|].
  cbn [Py.lstrip_by Py.split_on]. rewrite (Ascii.eqb_sym a "/").
  destruct (Ascii.eqb "/" a) eqn:Hslash; [|by cbn [Py.split_on]; rewrite (Ascii.eqb_sym a "/"), Hslash].
  rewrite IH. by rewrite filter_cons_False.
Qed.

(** X29.  The conversion sees only the non-empty segments of the path:
    leading, doubled and trailing slashes are dropped, so a path with a
    slash in front converts like the path itself. *)
Theorem xpath_conversion_skips_empty_segments x :
  _convert_simple_xpath_to_css_selector x
  = Py.join " > "
      (convert_part
         <$> filter (fun part => negb (Py.is_empty part) = true)
               (Py.split_on "/" x))
  ∧ _convert_simple_xpath_to_css_selector (String "/" x)
    = _convert_simple_xpath_to_css_selector x.
Proof.
  assert (Hform : ∀ y,
            _convert_simple_xpath_to_css_selector y
            = Py.join " > "
                (convert_part
                   <$> filter (fun part => negb (Py.is_empty part) = true)
                         (Py.split_on "/" y))).
  { intros y. unfold _convert_simple_xpath_to_css_selector.
    destruct y as [|a y]; [reflexivity|]. cbn [Py.is_empty].
    by rewrite nonempty_segments_lstrip. }
  split; [apply Hform|].
  rewrite (Hform (String "/" x)), (Hform x).
  cbn [Py.split_on]. rewrite Ascii.eqb_refl. by rewrite filter_cons_False.
Qed.

(** ** XPath conversion: positional predicates *)

Lemma break_at_first c s rest :
  Py.mem_char c s = false →
  Py.break_at (Ascii.eqb c) (s +:+ String c rest) = (s, String c rest).
Proof.
  unfold Py.mem_char. induction s as [|a s IH]; intros Hno.
  - change (EmptyString +:+ String c rest) with (String c rest).
    cbn [Py.break_at]. by rewrite Ascii.eqb_refl.
  - cbn [Py.any_char] in Hno. apply orb_false_iff in Hno as [Ha Hs].
    rewrite app_cons. cbn [Py.break_at]. by rewrite Ha, (IH Hs).
Qed.

Lemma split_on_last c s :
  Py.mem_char c s = false →
  Py.split_on c (s +:+ String c EmptyString) = [s; EmptyString].
Proof.
  unfold Py.mem_char. induction s as [|a s IH]; intros Hno.
  - change (EmptyString +:+ String c EmptyString) with (String c EmptyString).
    cbn [Py.split_on]. by rewrite Ascii.eqb_refl.
  - cbn [Py.any_char] in Hno. apply orb_false_iff in Hno as [Ha Hs].
    rewrite app_cons. cbn [Py.split_on].
    by rewrite Ascii.eqb_sym, Ha, (IH Hs).
Qed.

Lemma no_bracket_no_close s :
  Py.all_chars (fun c => negb (is_bracket c)) s = true →
  Py.mem_char "]" s = false.
Proof.
  unfold Py.mem_char. induction s as [|a s IH]; [done|].
  cbn [Py.all_chars Py.any_char]. intros [Ha Hs]%andb_true_iff.
  rewrite (IH Hs), orb_false_r.
  destruct (Ascii.eqb "]" a) eqn:Heq; [|done].
  apply Ascii.eqb_eq in Heq. subst a. discriminate Ha.
Qed.

Lemma strip_brackets_open idx :
  Py.all_chars (fun c => negb (is_bracket c)) idx = true →
  strip_brackets (String "[" idx) = idx.
Proof.
  intros Hidx. unfold strip_brackets.
  change (fun c => Py.mem_char c "[]") with is_bracket. unfold Py.strip_by.
  change (Py.lstrip_by is_bracket (String "[" idx))
    with (Py.lstrip_by is_bracket idx).
  pose proof (strip_by_clean is_bracket idx Hidx) as Hstrip.
  exact Hstrip.
Qed.

(** One predicate without brackets inside, after a tag that has none. *)
Lemma convert_part_single tag idx :
  Py.mem_char "[" tag = false →
  Py.all_chars (fun c => negb (is_bracket c)) idx = true →
  convert_part (tag +:+ "[" +:+ idx +:+ "]") = tag +:+ index_selector idx.
Proof.
  intros Htag Hidx. unfold convert_part.
  change ("[" +:+ idx +:+ "]") with (String "[" (idx +:+ String "]" EmptyString)).
  rewrite mem_char_app. cbn [Py.mem_char Py.any_char].
  rewrite Ascii.eqb_refl, orb_true_r.
  rewrite (break_at_first "[" tag _ Htag).
  change (String "[" (idx +:+ String "]" EmptyString))
    with (String "[" idx +:+ String "]" EmptyString).
  rewrite split_on_last.
  2: { cbn [Py.mem_char Py.any_char]. apply orb_false_iff. split; [reflexivity|].
       by apply no_bracket_no_close. }
  cbn [removelast fmap list_fmap fold_left].
  by rewrite (strip_brackets_open idx Hidx).
Qed.

(** X30.  A segment [tag[n]] with [n] a string of at most 4300 decimal
    digits becomes [tag:nth-of-type(N)] with [N] the number that [n]
    denotes, printed without leading zeros so that [int] reads [N] back;
    with more digits the predicate is skipped and the segment is the bare
    tag; a segment [tag[last()]] becomes [tag:last-of-type]. *)
Theorem xpath_positional_predicates tag digits :
  Py.mem_char "[" tag = false →
  digits ≠ EmptyString →
  Py.all_chars Py.is_ascii_digit digits = true →
  (Z.of_nat (String.length digits) <= INT_MAX_STR_DIGITS →
   convert_part (tag +:+ "[" +:+ digits +:+ "]")
   = tag +:+ ":nth-of-type(" +:+ Py.str_of_Z (decimal_value digits) +:+ ")"
   ∧ py_int (Py.str_of_Z (decimal_value digits)) = Ok (decimal_value digits))
  ∧ (INT_MAX_STR_DIGITS < Z.of_nat (String.length digits) →
     convert_part (tag +:+ "[" +:+ digits +:+ "]") = tag)
  ∧ convert_part (tag +:+ "[" +:+ "last()" +:+ "]") = tag +:+ ":last-of-type".
Proof.
  intros Htag Hne Hall.
  assert (Hbrackets : Py.all_chars (fun c => negb (is_bracket c)) digits = true).
  { apply (all_chars_impl Py.is_ascii_digit); [|done].
    intros c Hc. apply negb_true_iff. by apply ascii_digit_facts. }
  assert (Hisdigit : isdigit digits = true).
  { unfold isdigit.
    rewrite (all_chars_impl Py.is_ascii_digit Py.is_digit digits)
      by (first [ intros c Hc; by apply ascii_digit_facts | done ]).
    by destruct digits. }
  repeat split.
  - rewrite convert_part_single by done.
    f_equal. unfold index_selector. rewrite Hisdigit.
    rewrite (py_int_decimal digits Hne Hall) by done.
    replace (decimal_value digits - 1 + 1) with (decimal_value digits) by lia.
    by rewrite (py_str_decimal digits Hne Hall).
  - apply py_int_str. by apply py_str_decimal.
  - intros Hlen. rewrite convert_part_single by done.
    unfold index_selector. rewrite Hisdigit, (py_int_digits _ Hne Hall).
    destruct (int_literal_digits digits digits Hne Hall) as [_ Hraise].
    destruct (Hraise Hlen) as [msg ->]. apply app_nil_r.
  - by rewrite convert_part_single.
Qed.

(** ** The further properties on the sample inputs *)

Lemma response_removes_own_request_witness :
  pending_requests (resolve_pending 5 video_request one_pending)
  = pending_requests one_pending ∖ {[1%positive]}.
Proof.
  apply (response_removes_own_request 5 html_response one_pending
           (resolve_pending 5 video_request one_pending)).
  vm_compute. reflexivity.
Defined.

Lemma malformed_length_raises_witness :
  on_response 5 malformed_response one_pending
  = Raise (ValueError "invalid literal for int() with base 10: 'abc'")
  ∧ ∃ msg, on_response 5 oversized_response one_pending = Raise (ValueError msg).
Proof.
  split.
  - apply (malformed_length_raises 5 malformed_response one_pending "abc").
    + cbn. set_solver.
    + vm_compute. reflexivity.
    + vm_compute. reflexivity.
    + discriminate.
    + vm_compute. reflexivity.
  - apply (malformed_length_raises 5 oversized_response one_pending
             (Py.join EmptyString (replicate 4301 "1"))).
    + cbn. set_solver.
    + vm_compute. reflexivity.
    + vm_compute. reflexivity.
    + vm_compute. discriminate.
    + vm_compute. reflexivity.
    + vm_compute. reflexivity.
Defined.

Lemma answered_request_not_pending_witness :
  ∃ st',
    run_events ([(1, RequestEvent video_request)]
                ++ (2, ResponseEvent html_response) :: []) idle = Ok st'
    ∧ 1%positive ∉ pending_requests st'.
Proof.
  eexists. split; [vm_compute; reflexivity|].
  eapply (answered_request_not_pending [(1, RequestEvent video_request)] []
            2 html_response idle); [reflexivity | vm_compute; reflexivity].
Defined.

Lemma unanswered_request_pending_witness :
  ∃ st',
    run_events ([] ++ (1, RequestEvent video_request) :: []) idle = Ok st'
    ∧ 1%positive ∈ pending_requests st'.
Proof.
  eexists. split; [vm_compute; reflexivity|].
  eapply (unanswered_request_pending [] [] 1 video_request idle);
    [vm_compute; reflexivity | reflexivity | vm_compute; reflexivity].
Defined.

Lemma session_outlives_methods_witness :
  ∃ s',
    session (create_new_tab Toy.eng Toy.netloc_of restricted None
               (Toy.world three_tabs 2%positive None)).1 = Some s'
    ∧ context s' = 1%positive.
Proof.
  destruct (session_outlives_methods Toy.eng Toy.netloc_of restricted
              (fun element => tag_name element))
    as (_ & _ & _ & Hnew & _).
  exact (Hnew None (Toy.world three_tabs 2%positive None)
           (session_on three_tabs 2%positive) eq_refl).
Defined.

Lemma lazy_session_created_once_witness :
  ∃ w1 s,
    get_session Toy.eng (blank three_tabs) = (w1, Ok s)
    ∧ session w1 = Some s
    ∧ get_session Toy.eng w1 = (w1, Ok s).
Proof.
  do 2 eexists. split; [vm_compute; reflexivity|].
  apply (lazy_session_created_once Toy.eng (blank three_tabs)). reflexivity.
Defined.

Lemma fresh_session_is_empty_witness :
  ∃ w1 s,
    get_session Toy.eng (blank three_tabs) = (w1, Ok s)
    ∧ context s = 1%positive
    ∧ current_page s = 4%positive
    ∧ Toy.run (NewPage 1%positive) three_tabs = (engine w1, Done 4%positive)
    ∧ cached_state s = _get_initial_state "about:blank"
    ∧ get_dom_element_by_index Toy.eng 0 w1 = (w1, Raise (KeyError 0)).
Proof.
  do 2 eexists. split; [vm_compute; reflexivity|].
  destruct (fresh_session_is_empty Toy.eng (blank three_tabs) _ _
              eq_refl eq_refl) as (_ & Hpage & Hstate & Hlookup).
  split; [reflexivity|]. split; [reflexivity|].
  split; [exact Hpage|]. split; [exact Hstate | exact (Hlookup 0)].
Defined.

Lemma update_state_result_is_stored_witness :
  ∃ w' state,
    _update_state Toy.eng restricted false (-1)
      (Toy.world three_tabs 2%positive None) = (w', Ok state)
    ∧ current_state w' = Some state.
Proof.
  do 2 eexists. split; [vm_compute; reflexivity|].
  apply (update_state_result_is_stored Toy.eng restricted false (-1)
           (Toy.world three_tabs 2%positive None)).
  reflexivity.
Defined.

Lemma update_state_without_pages_witness :
  ∃ w',
    _update_state Toy.eng restricted false (-1)
      (Toy.world pages_gone 1%positive (Some earlier_snapshot))
    = (w', Raise (BrowserError "Browser closed: no valid pages available"))
    ∧ current_state w' = Some earlier_snapshot
    ∧ calls w' = [called (Evaluate 1%positive "1")].
Proof.
  exact (update_state_without_pages Toy.eng restricted false (-1)
           (Toy.world pages_gone 1%positive (Some earlier_snapshot))
           (session_on pages_gone 1%positive) pages_gone "evaluate"
           eq_refl eq_refl eq_refl).
Defined.

Lemma live_page_recovers_onto_last_witness :
  ∃ w',
    live_page Toy.eng (session_on scripts_fail 1%positive)
      (Toy.world scripts_fail 1%positive None) = (w', Ok 2%positive)
    ∧ current_page <$> session w' = Some 2%positive
    ∧ engine w' = scripts_fail.
Proof.
  exact (live_page_recovers_onto_last Toy.eng
           (Toy.world scripts_fail 1%positive None)
           (session_on scripts_fail 1%positive) scripts_fail "evaluate"
           2%positive scripts_fail "title" eq_refl eq_refl eq_refl eq_refl).
Defined.

Lemma page_load_raises_only_allowlist_error_witness :
  let run := _wait_for_page_and_frames_load Toy.eng Toy.netloc_of restricted
               (Toy.world mixed_tabs 2%positive None) in
  run.2 = Ok tt ∨ ∃ msg, run.2 = Raise (URLNotAllowedError msg).
Proof.
  intros run.
  apply (page_load_raises_only_allowlist_error Toy.eng Toy.netloc_of restricted
           (Toy.world mixed_tabs 2%positive None) run.1).
  apply surjective_pairing.
Defined.

Lemma click_failures_are_wrapped_witness :
  ∃ w' e,
    _click_element_node Toy.eng Toy.netloc_of restricted
      (fun element => tag_name element) plain_link
      (Toy.world clicks_fail 1%positive None) = (w', Raise e)
    ∧ ((∃ msg, e = URLNotAllowedError msg)
       ∨ ∃ cause,
           e = Exception ("Failed to click element: " +:+ tag_name plain_link
                          +:+ ". Error: " +:+ str_of_exn cause)).
Proof.
  do 2 eexists. split; [vm_compute; reflexivity|].
  eapply (click_failures_are_wrapped Toy.eng Toy.netloc_of restricted
            (fun element => tag_name element) plain_link
            (Toy.world clicks_fail 1%positive None));
    vm_compute; reflexivity.
Defined.

Lemma navigate_to_checks_target_only_witness :
  ∃ w' r,
    navigate_to Toy.eng Toy.netloc_of restricted "https://example.com/x"
      (Toy.world mixed_tabs 1%positive None) = (w', r)
    ∧ calls w' = [called (Goto 1%positive "https://example.com/x");
                  called (WaitForLoadState 1%positive)]
    ∧ (r = Ok tt ∨ ∃ msg, r = Raise (EngineError msg)).
Proof.
  exact (navigate_to_checks_target_only Toy.eng Toy.netloc_of restricted
           (Toy.world mixed_tabs 1%positive None)
           (session_on mixed_tabs 1%positive) "https://example.com/x"
           eq_refl eq_refl).
Defined.

Lemma best_effort_steps_never_raise_witness :
  ∃ w',
    go_back Toy.eng (Toy.world mixed_tabs 1%positive None) = (w', Ok tt)
    ∧ calls w' = [called (GoBack 1%positive)].
Proof.
  destruct (best_effort_steps_never_raise Toy.eng restricted) as (_ & _ & Hback).
  exact (Hback (Toy.world mixed_tabs 1%positive None)
           (session_on mixed_tabs 1%positive) eq_refl).
Defined.

Lemma switch_to_tab_out_of_bounds_witness :
  let w := Toy.world three_tabs 2%positive None in
  switch_to_tab Toy.eng Toy.netloc_of restricted 3 w
  = (w, Raise (BrowserError "No tab found with page_id: 3"))
  ∧ (∃ msg,
       switch_to_tab Toy.eng Toy.netloc_of restricted (10 ^ 4300) w
       = (w, Raise (ValueError msg)))
  ∧ switch_to_tab Toy.eng Toy.netloc_of restricted (-4) w
    = (w, Raise (Exception "list index out of range")).
Proof.
  intros w. split; [|split].
  - apply (proj1 (switch_to_tab_out_of_bounds Toy.eng Toy.netloc_of restricted
                    w (session_on three_tabs 2%positive) 3 eq_refl));
      vm_compute; congruence.
  - apply (proj1 (proj2 (switch_to_tab_out_of_bounds Toy.eng Toy.netloc_of
                           restricted w (session_on three_tabs 2%positive)
                           (10 ^ 4300) eq_refl)));
      vm_compute; congruence.
  - apply (proj2 (proj2 (switch_to_tab_out_of_bounds Toy.eng Toy.netloc_of
                           restricted w (session_on three_tabs 2%positive)
                           (-4) eq_refl))).
    vm_compute. reflexivity.
Defined.

Lemma switch_to_tab_selects_witness :
  ∃ w' r,
    switch_to_tab Toy.eng Toy.netloc_of restricted (-1)
      (Toy.world three_tabs 2%positive None) = (w', r)
    ∧ current_page <$> session w' = Some 3%positive
    ∧ (∃ rest, calls w' = called (BringToFront 3%positive) :: rest)
    ∧ (r = Ok tt ∨ ∃ msg, r = Raise (EngineError msg)).
Proof.
  apply (switch_to_tab_selects Toy.eng Toy.netloc_of restricted
           (Toy.world three_tabs 2%positive None)
           (session_on three_tabs 2%positive) (-1) 3%positive eq_refl).
  - split; vm_compute; [congruence | reflexivity].
  - reflexivity.
  - vm_compute. reflexivity.
Defined.

Lemma close_current_tab_keeps_pointer_witness :
  (∃ w1,
     close_current_tab Toy.eng Toy.netloc_of restricted
       (Toy.world single_tab 1%positive None) = (w1, Ok tt)
     ∧ current_page <$> session w1 = Some 1%positive)
  ∧ ∃ w1,
      close_current_tab Toy.eng Toy.netloc_of restricted
        (Toy.world evil_first 2%positive None)
      = (w1, Raise (BrowserError
                      "Cannot switch to tab with non-allowed URL: https://evil.com/"))
      ∧ current_page <$> session w1 = Some 2%positive.
Proof.
  split.
  - eexists. split.
    + apply (proj1 (close_current_tab_keeps_pointer Toy.eng Toy.netloc_of
                      restricted (Toy.world single_tab 1%positive None)
                      (session_on single_tab 1%positive)
                      (Toy.state [] [] []) eq_refl eq_refl)).
      reflexivity.
    + reflexivity.
  - eexists. split.
    + apply (proj2 (close_current_tab_keeps_pointer Toy.eng Toy.netloc_of
                      restricted (Toy.world evil_first 2%positive None)
                      (session_on evil_first 2%positive)
                      (Toy.run (PageClose 2%positive) evil_first).1
                      eq_refl eq_refl) 1%positive []);
        reflexivity.
    + reflexivity.
Defined.

Lemma create_new_tab_without_url_witness :
  ∃ w' r,
    create_new_tab Toy.eng Toy.netloc_of restricted None
      (Toy.world three_tabs 2%positive None) = (w', r)
    ∧ current_page <$> session w' = Some 4%positive
    ∧ calls w' = [called (NewPage 1%positive);
                  called (WaitForLoadState 4%positive)]
    ∧ (r = Ok tt ∨ ∃ msg, r = Raise (EngineError msg)).
Proof.
  apply (create_new_tab_without_url Toy.eng Toy.netloc_of restricted
           (Toy.world three_tabs 2%positive None)
           (session_on three_tabs 2%positive) None
           (Toy.run (NewPage 1%positive) three_tabs).1 4%positive);
    reflexivity.
Defined.

Lemma tabs_are_numbered_by_position_witness :
  ∃ w' tabs_info,
    get_tabs_info Toy.eng (Toy.world three_tabs 2%positive None)
    = (w', Ok tabs_info)
    ∧ page_id <$> tabs_info = [0; 1; 2].
Proof.
  do 2 eexists. split; [vm_compute; reflexivity|].
  apply (tabs_are_numbered_by_position Toy.eng
           (Toy.world three_tabs 2%positive None)
           (session_on three_tabs 2%positive) _ _ eq_refl eq_refl).
Defined.

Lemma get_state_caches_snapshot_witness :
  ∃ w' state,
    get_state Toy.eng Toy.netloc_of restricted false
      (Toy.world three_tabs 2%positive None) = (w', Ok state)
    ∧ current_state w' = Some state
    ∧ (∃ s', session w' = Some s' ∧ cached_state s' = state)
    ∧ get_selector_map Toy.eng w' = (w', Ok (selector_map state)).
Proof.
  do 2 eexists. split; [vm_compute; reflexivity|].
  apply (get_state_caches_snapshot Toy.eng Toy.netloc_of restricted false
           (Toy.world three_tabs 2%positive None)).
  reflexivity.
Defined.

Lemma reset_context_starts_over_witness :
  let w := Toy.world three_tabs 2%positive (Some earlier_snapshot) in
  let run := reset_context Toy.eng w in
  run.2 = Ok tt
  ∧ current_page <$> session run.1 = Some 4%positive
  ∧ fst <$> Toy.pages (engine run.1) = [4%positive]
  ∧ calls run.1 = [called (PageClose 1%positive); called (PageClose 2%positive);
                   called (PageClose 3%positive); called (NewPage 1%positive)]
  ∧ current_state run.1 = Some earlier_snapshot
  ∧ get_dom_element_by_index Toy.eng 0 run.1 = (run.1, Raise (KeyError 0)).
Proof.
  intros w run.
  assert (Hrun : reset_context Toy.eng w = (run.1, Ok tt))
    by (vm_compute; reflexivity).
  destruct (reset_context_starts_over Toy.eng w
              (session_on three_tabs 2%positive) run.1 eq_refl Hrun)
    as ((page & Hpage & Hsession) & Hcalls & Hkept & Hlookup).
  assert (Hnew : exec Toy.eng (NewPage (context (session_on three_tabs 2%positive)))
                   (engine (close_pages Toy.eng
                              (pages_of Toy.eng (engine w)
                                 (context (session_on three_tabs 2%positive)))
                              w).1)
                 = (engine run.1, Done 4%positive))
    by (vm_compute; reflexivity).
  rewrite Hnew in Hpage. injection Hpage as <-.
  split; [vm_compute; reflexivity|].
  split; [by rewrite Hsession|].
  split; [vm_compute; reflexivity|].
  split; [exact Hcalls|]. split; [exact Hkept | exact (Hlookup 0)].
Defined.

Lemma selector_ignores_unlisted_attributes_witness :
  _enhanced_css_selector_for_element styled_link
  = _enhanced_css_selector_for_element
      {| tag_name := "a"; xpath := "html/body/a";
         attributes := [("id", PyStr "foo"); ("href", PyStr "/x")];
         highlight_index := Some 1; parent := None |}.
Proof.
  apply (selector_ignores_unlisted_attributes styled_link
           "style" (PyStr "color: red") [("id", PyStr "foo")] [("href", PyStr "/x")]);
    [reflexivity | reflexivity | discriminate].
Defined.

Lemma selector_falls_back_iff_witness :
  ∃ e, synthesize_selector untyped_link = Raise e.
Proof.
  apply (proj2 (selector_falls_back_iff untyped_link)).
  exists "id". split; [right; left; reflexivity | reflexivity].
Defined.

Lemma selector_attribute_fragment_witness :
  fragment_of ("[href*=" +:+ Py.quoted "x'y z" +:+ "]")
    (_enhanced_css_selector_for_element plain_link).
Proof.
  apply (selector_attribute_fragment plain_link "href" "x'y  z"
           plain_link_well_typed).
  - right. right. left. reflexivity.
  - reflexivity.
Defined.

Lemma xpath_positional_predicates_witness :
  convert_part "div[007]" = "div:nth-of-type(7)"
  ∧ convert_part ("div" +:+ "[" +:+ Py.join EmptyString (replicate 4301 "1") +:+ "]")
    = "div"
  ∧ convert_part "div[last()]" = "div:last-of-type".
Proof.
  destruct (xpath_positional_predicates "div" "007")
    as (Hshort & _ & Hlast); [reflexivity | discriminate | reflexivity |].
  destruct (xpath_positional_predicates "div"
              (Py.join EmptyString (replicate 4301 "1")))
    as (_ & Hlong & _);
    [reflexivity | vm_compute; discriminate | vm_compute; reflexivity |].
  split; [|split].
  - apply Hshort. vm_compute. congruence.
  - apply Hlong. vm_compute. reflexivity.
  - exact Hlast.
Defined.
